(** * Orbit Shield: orbital proximity and risk-assessment engine

    A shallow embedding of the Python sources under [Backend/core] and
    [Backend/services] together with the properties stated about them.

    Conventions of the embedding.
    - A Python [float] is read as a real number ([R]); [math.exp], [math.sqrt]
      and the comparisons are the real ones.  Rounding error, overflow and NaN
      are outside the model.
    - A Python [int] is a [Z].
    - A dictionary with a fixed set of keys is a record; a key that the code
      reads with [d.get(k, default)] is an [option] field.
    - A division whose divisor is not a literal constant is a checked
      division: it yields [None] when the divisor is zero (Python raises
      [ZeroDivisionError], numpy yields a non-finite value).  A function that
      contains such a division returns an [option].
    - Each source file is a [Module] named after it.
    - The multi-burn split, whose stated tolerance is one of floating-point
      rounding, is embedded a second time over IEEE binary64 numbers
      ([Module Binary64]), the arithmetic of the interpreter. *)

From Stdlib Require Import Reals Lra Lia ZArith List String Bool Psatz.
From Stdlib Require Import Sorting.Sorted Sorting.Permutation.
From Stdlib Require Import Reals.Zfloor.
From Stdlib Require PrimFloat FloatOps SpecFloat FloatAxioms Uint63.
Import ListNotations.

#[local] Open Scope R_scope.

(** ** Shared vocabulary *)

Module Py.

(** [d.get(k, default)] on an optional field. *)
Definition get {A : Type} (field : option A) (default : A) : A :=
  match field with
  | Some v => v
  | None => default
  end.

(** Division by a divisor that is not a literal constant. *)
Definition div (a b : R) : option R :=
  if Req_dec_T b 0 then None else Some (a / b).

(** The comparisons [a > b], [a < b], [a >= b], [a <= b] and [a == b] as
    truth values, so that [and] and [or] read as in the source. *)
Definition gtb (a b : R) : bool := if Rgt_dec a b then true else false.
Definition ltb (a b : R) : bool := if Rlt_dec a b then true else false.
Definition geb (a b : R) : bool := if Rge_dec a b then true else false.
Definition leb (a b : R) : bool := if Rle_dec a b then true else false.
Definition eqb (a b : R) : bool := if Req_dec_T a b then true else false.

(** Sequencing of computations that may fail. *)
Definition bind {A B : Type} (m : option A) (k : A -> option B) : option B :=
  match m with
  | Some a => k a
  | None => None
  end.

(** Python's [round(x)] to the nearest integer, ties to the even one. *)
Definition round_half_even (x : R) : Z :=
  let f := Zfloor x in
  let frac := x - IZR f in
  if Rlt_dec frac (1/2) then f
  else if Rgt_dec frac (1/2) then (f + 1)%Z
  else if Z.even f then f else (f + 1)%Z.

(** Python's [round(x, ndigits)]. *)
Definition round (x : R) (ndigits : nat) : R :=
  IZR (round_half_even (x * 10 ^ ndigits)) / 10 ^ ndigits.

(** Python's [sum] over a list of floats. *)
Definition sum (l : list R) : R := fold_left Rplus l 0.

(** [l.sort(key=key, reverse=True)] for an integer key: a stable sort into
    descending key order, elements of equal key keeping their order. *)
Fixpoint insert_reverse {A : Type} (key : A -> Z) (a : A) (l : list A) : list A :=
  match l with
  | [] => [a]
  | b :: l' => if (key a <? key b)%Z then b :: insert_reverse key a l' else a :: l
  end.

Definition sort_reverse {A : Type} (key : A -> Z) (l : list A) : list A :=
  fold_right (insert_reverse key) [] l.

(** A dictionary whose keys are strings and whose values are floats. *)
Definition dict : Type := string -> option R.

(** [x or default] on a float: the default stands in for a zero. *)
Definition or_else (x default : R) : R := if eqb x 0 then default else x.

(** [l.sort(key=key)] for a float key: a stable sort into ascending key
    order, elements of equal key keeping their order. *)
Fixpoint insert_by {A : Type} (key : A -> R) (a : A) (l : list A) : list A :=
  match l with
  | [] => [a]
  | b :: l' => if ltb (key b) (key a) then b :: insert_by key a l' else a :: l
  end.

Definition sort_by {A : Type} (key : A -> R) (l : list A) : list A :=
  fold_right (insert_by key) [] l.

End Py.

Notation "'let?' x ':=' e 'in' k" :=
  (Py.bind e (fun x => k))
  (at level 10, x pattern, e at level 100, k at level 200).

(** ** numpy arrays of length three *)

Module Np.

Record Vec3 : Type := array { c0 : R; c1 : R; c2 : R }.

Definition zeros : Vec3 := array 0 0 0.
Definition add (a b : Vec3) : Vec3 :=
  array (c0 a + c0 b) (c1 a + c1 b) (c2 a + c2 b).
Definition sub (a b : Vec3) : Vec3 :=
  array (c0 a - c0 b) (c1 a - c1 b) (c2 a - c2 b).
Definition neg (a : Vec3) : Vec3 := array (- c0 a) (- c1 a) (- c2 a).
(** [a * k] for a scalar [k]. *)
Definition mul (a : Vec3) (k : R) : Vec3 := array (c0 a * k) (c1 a * k) (c2 a * k).
(** [a / k] for a scalar [k]: non-finite, here [None], when [k] is zero. *)
Definition div (a : Vec3) (k : R) : option Vec3 :=
  let? q0 := Py.div (c0 a) k in
  let? q1 := Py.div (c1 a) k in
  let? q2 := Py.div (c2 a) k in
  Some (array q0 q1 q2).
Definition dot (a b : Vec3) : R := c0 a * c0 b + c1 a * c1 b + c2 a * c2 b.
Definition cross (a b : Vec3) : Vec3 :=
  array (c1 a * c2 b - c2 a * c1 b)
        (c2 a * c0 b - c0 a * c2 b)
        (c0 a * c1 b - c1 a * c0 b).
(** [np.linalg.norm]. *)
Definition linalg_norm (a : Vec3) : R := sqrt (dot a a).
(** [np.clip]. *)
Definition clip (v lo hi : R) : R := Rmin (Rmax v lo) hi.
(** [np.degrees]. *)
Definition degrees (v : R) : R := v * (180 / PI).

End Np.

(** ** core/ai/physics_utils.py *)

Module PhysicsUtils.
Import Np.

Definition EARTH_RADIUS_KM : R := 6371.0.

(** A state dictionary with the keys x, y, z, vx, vy, vz. *)
Record State : Type := mkState {
  x : R; y : R; z : R; vx : R; vy : R; vz : R
}.

Definition norm (vec : Vec3) : R := linalg_norm vec.

Definition unit (vec : Vec3) : option Vec3 :=
  let n := linalg_norm vec in
  if Py.eqb n 0 then Some zeros
  else Np.div vec n.

Definition compute_distance (r1 r2 : Vec3) : R := linalg_norm (sub r1 r2).

Definition compute_relative_velocity (v1 v2 : Vec3) : R := linalg_norm (sub v1 v2).

Definition compute_angle_between (v1 v2 : Vec3) : option R :=
  let dv := dot v1 v2 in
  let n1 := linalg_norm v1 in
  let n2 := linalg_norm v2 in
  if Py.eqb n1 0 || Py.eqb n2 0 then Some 0.0
  else
    let? q := Py.div dv (n1 * n2) in
    let cosang := clip q (-1.0) 1.0 in
    Some (degrees (acos cosang)).

Definition altitude_from_radius (r_vec : Vec3) : R :=
  let r := linalg_norm r_vec in
  r - EARTH_RADIUS_KM.

Definition time_of_closest_approach (r1 v1 r2 v2 : Vec3) : option (R * R) :=
  let r_rel0 := sub r2 r1 in
  let v_rel := sub v2 v1 in
  let v_rel_sq := dot v_rel v_rel in
  let? tstar :=
    if Py.ltb v_rel_sq 1e-12 then Some 0.0
    else
      let? q := Py.div (dot r_rel0 v_rel) v_rel_sq in
      Some (- q) in
  let r_rel_t := add r_rel0 (mul v_rel tstar) in
  let dist := linalg_norm r_rel_t in
  Some (tstar, dist).

Definition time_until_tca_seconds (tca_seconds now_seconds : R) : R := tca_seconds.

(** The feature dictionary of [compute_physics_features]. *)
Record Features : Type := mkFeatures {
  distance : R;
  rel_velocity : R;
  angle : R;
  altitude_diff : R;
  tca_seconds : R;
  distance_at_tca : R
}.

Definition compute_physics_features (sat deb : State) : option Features :=
  let r1 := array (x sat) (y sat) (z sat) in
  let v1 := array (vx sat) (vy sat) (vz sat) in
  let r2 := array (x deb) (y deb) (z deb) in
  let v2 := array (vx deb) (vy deb) (vz deb) in
  let distance := compute_distance r1 r2 in
  let rel_velocity := compute_relative_velocity v1 v2 in
  let? angle := compute_angle_between v1 v2 in
  let alt_diff := Rabs (altitude_from_radius r1 - altitude_from_radius r2) in
  let? (tca_seconds, dist_at_tca) := time_of_closest_approach r1 v1 r2 v2 in
  Some (mkFeatures distance rel_velocity angle alt_diff tca_seconds dist_at_tca).

End PhysicsUtils.

(** ** core/ai/model2_risk_classifier.py *)

Module Model2.

Definition classify_distance (distance : R) : Z :=
  if Py.gtb distance 50 then 0%Z
  else if Py.gtb distance 20 then 1%Z
  else if Py.gtb distance 5 then 2%Z
  else 3%Z.

(** The result dictionary of [classify_risk_advanced]. *)
Record Classification : Type := mkClassification {
  risk_level : Z;
  label : string;
  color : string;
  action : string
}.

Definition Entry : Type := (string * string * string)%type.

(** The [labels] dictionary of [classify_risk_advanced], in source order. *)
Definition labels : list (Z * Entry) :=
  [ (0%Z, ("No Risk", "green", "Continue monitoring"));
    (1%Z, ("Low Risk", "yellow", "Increase monitoring frequency"));
    (2%Z, ("Medium Risk", "orange", "Prepare avoidance maneuver"));
    (3%Z, ("High Risk", "red", "Execute immediate avoidance maneuver")) ]%string.

(** [labels.get(k, default)]. *)
Fixpoint dict_get (d : list (Z * Entry)) (k : Z) (default : Entry) : Entry :=
  match d with
  | [] => default
  | (k', v) :: d' => if Z.eqb k k' then v else dict_get d' k default
  end.

(** [labels[k]] for a key that the source writes as a literal. *)
Definition labels_at (k : Z) : Entry :=
  dict_get labels k (""%string, ""%string, ""%string).

Definition classify_risk_advanced (distance relative_velocity angle : R)
  : Classification :=
  let risk_level := classify_distance distance in
  let '(label, color, action) := dict_get labels risk_level (labels_at 0) in
  if Py.gtb relative_velocity 10.0 && Py.gtb angle 150 then
    let risk_level := Z.min (risk_level + 1) 3 in
    let '(label, color, action) := dict_get labels risk_level (labels_at 3) in
    mkClassification risk_level label color action
  else
    mkClassification risk_level label color action.

(** The result dictionary of [classify_for_sat_debris], with its keys
    risk_level and features. *)
Record PairClassification : Type := mkPairClassification {
  pair_risk_level : Z;
  pair_features : PhysicsUtils.Features
}.

Definition classify_for_sat_debris (sat deb : PhysicsUtils.State)
  : option PairClassification :=
  let? feats := PhysicsUtils.compute_physics_features sat deb in
  let cls := classify_distance (PhysicsUtils.distance feats) in
  Some (mkPairClassification cls feats).

End Model2.

(** ** core/ai/model1_risk_predictor.py (scoring formula) *)

Module Model1.

Definition predict_risk_from_features
  (distance rel_velocity angle altitude_diff : R)
  (distance_at_tca tca_seconds : option R) : R :=
  let d := Rmax distance 0.001 in
  let base := exp (- d / 30.0) in
  let base :=
    match distance_at_tca with
    | Some distance_at_tca =>
        let base_tca := exp (- Rmax distance_at_tca 0.001 / 20.0) * 0.8 in
        match tca_seconds with
        | Some tca_seconds =>
            let time_factor :=
              if Py.geb tca_seconds 0
              then 1.0 + Rmax 0.0 ((72 * 3600 - tca_seconds) / (72 * 3600)) * 0.5
              else 1.0 in
            Rmax base (base_tca * time_factor)
        | None => base
        end
    | None => base
    end in
  let rv := rel_velocity in
  let vel_factor := Rmin (rv / 12.0) 1.0 * 0.4 in
  let ang_norm := Rabs (angle - 180.0) / 180.0 in
  let ang_factor := angle / 180.0 in
  let angle_contrib := ang_factor * 0.2 in
  let alt_factor := Rmax 0.0 (1.0 - Rmin (altitude_diff / 50.0) 1.0) * 0.3 in
  let prob := base * 0.7 + vel_factor * 1.0 + angle_contrib + alt_factor * 0.5 in
  let prob := Rmax 0.0 (Rmin 1.0 prob) in
  prob.

(** The legacy interface. *)
Definition predict_risk (distance relative_velocity angle altitude : R) : R :=
  predict_risk_from_features distance relative_velocity angle 0.0
    (Some distance) None.

(** The result dictionary of [predict_for_sat_debris]. *)
Record Prediction : Type := mkPrediction {
  probability : R;
  features : PhysicsUtils.Features
}.

Definition predict_for_sat_debris (sat deb : PhysicsUtils.State)
  : option Prediction :=
  let? feats := PhysicsUtils.compute_physics_features sat deb in
  let prob :=
    predict_risk_from_features
      (PhysicsUtils.distance feats)
      (PhysicsUtils.rel_velocity feats)
      (PhysicsUtils.angle feats)
      (PhysicsUtils.altitude_diff feats)
      (Some (PhysicsUtils.distance_at_tca feats))
      (Some (PhysicsUtils.tca_seconds feats)) in
  Some (mkPrediction prob feats).

End Model1.

(** ** core/ai/rl_maneuver_agent.py *)

Module RlManeuverAgent.
Import Np.

(** The result dictionary of [suggest_maneuver_simple]. *)
Record SimpleManeuver : Type := mkSimpleManeuver {
  delta_vx : R;
  delta_vy : R;
  delta_vz : R;
  total_delta_v : R;
  expected_increase_in_miss_km : R;
  confidence : R;
  features : PhysicsUtils.Features
}.

Definition suggest_maneuver_simple (sat deb : PhysicsUtils.State)
  : option SimpleManeuver :=
  let? feats := PhysicsUtils.compute_physics_features sat deb in
  let distance := PhysicsUtils.distance feats in
  let relv := PhysicsUtils.rel_velocity feats in
  let tca := PhysicsUtils.tca_seconds feats in
  let dist_at_tca := PhysicsUtils.distance_at_tca feats in
  let r1 := array (PhysicsUtils.x sat) (PhysicsUtils.y sat) (PhysicsUtils.z sat) in
  let v1 := array (PhysicsUtils.vx sat) (PhysicsUtils.vy sat) (PhysicsUtils.vz sat) in
  let r2 := array (PhysicsUtils.x deb) (PhysicsUtils.y deb) (PhysicsUtils.z deb) in
  let v2 := array (PhysicsUtils.vx deb) (PhysicsUtils.vy deb) (PhysicsUtils.vz deb) in
  let r_rel0 := sub r2 r1 in
  let v_rel := sub v2 v1 in
  let perp :=
    if Py.ltb (linalg_norm v_rel) 1e-6 then
      let perp := cross r_rel0 (array 0.0 0.0 1.0) in
      if Py.ltb (linalg_norm perp) 1e-6 then array 1.0 0.0 0.0 else perp
    else
      let perp := cross v_rel r_rel0 in
      if Py.ltb (linalg_norm perp) 1e-6 then
        let perp := cross v_rel (array 0.0 0.0 1.0) in
        if Py.ltb (linalg_norm perp) 1e-6 then array 1.0 0.0 0.0 else perp
      else perp in
  let? perp_dir := PhysicsUtils.unit perp in
  let severity :=
    if Py.leb dist_at_tca 1.0 then 1.0
    else Rmax 0.0 (Rmin 1.0 ((50.0 - dist_at_tca) / 50.0)) in
  let dv_mag := 0.0005 + severity * 0.0495 in
  let? along_vrel :=
    if Py.gtb (linalg_norm v_rel) 1e-6
    then (let? u := PhysicsUtils.unit v_rel in Some (neg u))
    else Some zeros in
  let dv_vector :=
    add (mul (mul perp_dir dv_mag) 0.9) (mul (mul along_vrel dv_mag) 0.1) in
  let expected_delta_d :=
    if Py.geb tca 0
    then linalg_norm dv_vector * Rmax tca 1.0
    else linalg_norm dv_vector * 3600.0 in
  let confidence := Rmax 0.4 (Rmin 0.98 (0.6 + severity * 0.35)) in
  Some (mkSimpleManeuver (c0 dv_vector) (c1 dv_vector) (c2 dv_vector)
          (linalg_norm dv_vector) expected_delta_d confidence feats).

(** A direction dictionary with the keys x, y, z. *)
Record Direction : Type := mkDirection { x : R; y : R; z : R }.

(** The result dictionary of [suggest_maneuver_legacy]. *)
Record LegacyManeuver : Type := mkLegacyManeuver {
  delta_v : R;
  legacy_direction_vector : Direction;
  burn_duration : R;
  fuel_cost : R;
  safety_margin : R
}.

Definition suggest_maneuver_legacy (distance relative_velocity angle urgency : R)
  : LegacyManeuver :=
  let base_dv := 15.0 in
  let urgency_factor := 1.0 + (urgency * 2.5) in
  let delta_v := base_dv * urgency_factor in
  let altitude_estimate := 400.0 in
  let direction :=
    if Py.ltb altitude_estimate 600
    then mkDirection 0.707 0.707 0.0
    else mkDirection 0.0 1.0 0.0 in
  let burn_duration := delta_v / 10.0 in
  let isp := 300.0 in
  let g0 := 9.81 in
  let fuel_cost := 1000.0 * (1 - exp (- delta_v / (isp * g0))) in
  let safety_margin := delta_v * 0.1 in
  mkLegacyManeuver (Py.round delta_v 2) direction (Py.round burn_duration 2)
    (Py.round fuel_cost 3) (Py.round safety_margin 2).

(** The velocity dictionary inside a satellite state; every key is optional. *)
Record Velocity : Type := mkVelocity {
  vx : option R; vy : option R; vz : option R
}.

(** The satellite state given to the planner; the keys the code reads. *)
Record SatelliteState : Type := mkSatelliteState {
  threat_distance_km : option R;
  velocity : option Velocity
}.

(** A maneuver plan in the schema of the maneuver service. *)
Record Maneuver : Type := mkManeuver {
  delta_v_mps : R;
  direction_vector : Direction;
  burn_duration_s : R;
  fuel_cost_kg : R;
  safety_margin_km : R
}.

Definition _compute_basic_maneuver (satellite_state : SatelliteState) : Maneuver :=
  let distance := Py.get (threat_distance_km satellite_state) 10.0 in
  let urgency := Rmax 0.0 (Rmin 1.0 ((15.0 - distance) / 15.0)) in
  let empty := mkVelocity None None None in
  let rel_vel_mag :=
    sqrt (Py.get (vx (Py.get (velocity satellite_state) empty)) 7.5 ^ 2 +
          Py.get (vy (Py.get (velocity satellite_state) empty)) 0.0 ^ 2 +
          Py.get (vz (Py.get (velocity satellite_state) empty)) 0.0 ^ 2) / 10.0 in
  let angle := 45.0 in
  let legacy := suggest_maneuver_legacy distance rel_vel_mag angle urgency in
  mkManeuver (delta_v legacy) (legacy_direction_vector legacy)
    (burn_duration legacy) (fuel_cost legacy) (safety_margin legacy).

Definition suggest_maneuver (satellite_state : SatelliteState) : Maneuver :=
  _compute_basic_maneuver satellite_state.

(** [range(n)]: empty when [n] is not positive. *)
Definition range (n : Z) : list nat := seq 0 (Z.to_nat n).

(** A [for] loop that appends one result per index, stopping at a failure. *)
Fixpoint for_each {A : Type} (indices : list nat) (body : nat -> option A)
  : option (list A) :=
  match indices with
  | [] => Some []
  | i :: rest =>
      let? a := body i in
      let? others := for_each rest body in
      Some (a :: others)
  end.

Definition suggest_multi_burn_maneuver
  (satellite_state : SatelliteState) (num_burns : Z) : option (list Maneuver) :=
  let base := _compute_basic_maneuver satellite_state in
  let total_dv := delta_v_mps base in
  let factors := map (fun i => 0.5 ^ i) (range num_burns) in
  let? scale := Py.div total_dv (Py.sum factors) in
  for_each (range num_burns) (fun i =>
    let dv := nth i factors 0 * scale in
    let? share := Py.div dv total_dv in
    Some (mkManeuver
            (Py.round dv 2)
            (direction_vector base)
            (Py.round (burn_duration_s base * share) 2)
            (Py.round (fuel_cost_kg base * share) 3)
            (Py.round (safety_margin_km base * share) 2))).

(** The float entries of a maneuver plan, as the dictionary that
    [evaluate_maneuver_safety] and [simulate_maneuver_effect] read. *)
Definition as_dict (m : Maneuver) : Py.dict :=
  fun key =>
    if String.eqb key "delta_v_mps" then Some (delta_v_mps m)
    else if String.eqb key "burn_duration_s" then Some (burn_duration_s m)
    else if String.eqb key "fuel_cost_kg" then Some (fuel_cost_kg m)
    else if String.eqb key "safety_margin_km" then Some (safety_margin_km m)
    else None.

(** The result dictionary of [evaluate_maneuver_safety]. *)
Record SafetyEvaluation : Type := mkSafetyEvaluation {
  risk_reduction_km : R;
  fuel_efficiency : R;
  evaluation_confidence : R;
  recommendation : string
}.

Definition evaluate_maneuver_safety
  (maneuver : Py.dict) (satellite_state : SatelliteState)
  : option SafetyEvaluation :=
  let dv := Py.get (maneuver "delta_v_mps"%string) 0.0 in
  let safety_margin := Py.get (maneuver "safety_margin_km"%string) 0.0 in
  let fuel_cost := Py.or_else (Py.get (maneuver "fuel_cost_kg"%string) 1.0) 1.0 in
  let? efficiency := Py.div safety_margin fuel_cost in
  let confidence := Rmax 0.5 (Rmin 0.99 (0.6 + (dv / 50.0))) in
  let recommendation :=
    if Py.gtb efficiency 0.05 && Py.gtb safety_margin 0.5 then "execute"%string
    else if Py.gtb efficiency 0.02 then "review"%string
    else "inefficient"%string in
  Some (mkSafetyEvaluation
          (Py.round safety_margin 2)
          (Py.round efficiency 3)
          (Py.round confidence 2)
          recommendation).

(** The result dictionary of [simulate_maneuver_effect]. *)
Record Simulation : Type := mkSimulation {
  baseline_miss_distance_km : R;
  predicted_miss_distance_km : R;
  baseline_risk_prob : R;
  residual_risk_prob : R;
  risk_reduction_prob : R
}.

Definition simulate_maneuver_effect
  (satellite_state : SatelliteState) (maneuver : Py.dict) : Simulation :=
  let base_distance := Py.get (threat_distance_km satellite_state) 10.0 in
  let safety_margin := Py.get (maneuver "safety_margin_km"%string) 0.0 in
  let new_miss_distance := base_distance + safety_margin in
  let residual_prob := exp (- new_miss_distance / 20.0) in
  let baseline_prob := exp (- base_distance / 20.0) in
  let reduction := Rmax 0.0 (baseline_prob - residual_prob) in
  mkSimulation
    (Py.round base_distance 3)
    (Py.round new_miss_distance 3)
    (Py.round baseline_prob 4)
    (Py.round residual_prob 4)
    (Py.round reduction 4).

End RlManeuverAgent.

(** ** core/ai in binary64 *)

Module Binary64.
Import Uint63 PrimFloat FloatOps SpecFloat.
#[local] Open Scope float_scope.

(** *** Exact values *)

(** The exact value [m * 2^e] of a finite number; 0 for the others. *)
Definition Dyadic : Type := (Z * Z)%type.

Definition exact (v : float) : Dyadic :=
  match Prim2SF v with
  | S754_finite s m e => (if s then Z.neg m else Z.pos m, e)
  | _ => (0, 0)%Z
  end.

Definition dyadic_add (a b : Dyadic) : Dyadic :=
  let '(ma, ea) := a in
  let '(mb, eb) := b in
  let e := Z.min ea eb in
  (ma * 2 ^ (ea - e) + mb * 2 ^ (eb - e), e)%Z.

Definition dyadic_opp (a : Dyadic) : Dyadic :=
  let '(m, e) := a in (- m, e)%Z.

(** [k * |a| <= |b|], decided exactly. *)
Definition dyadic_scaled_le (k : Z) (a b : Dyadic) : bool :=
  let '(ma, ea) := a in
  let '(mb, eb) := b in
  let e := Z.min ea eb in
  (k * Z.abs ma * 2 ^ (ea - e) <=? Z.abs mb * 2 ^ (eb - e))%Z.

(** The binary64 number of an integer below 2^63 in size. *)
Definition of_Z (z : Z) : float :=
  if (z <? 0)%Z then - of_uint63 (Uint63.of_Z (- z))
  else of_uint63 (Uint63.of_Z z).

(** The binary64 number nearest to [T / 100]: what Python reads in a
    decimal of two places. *)
Definition hundredths (T : Z) : float := of_Z T / 100.

(** *** Python's arithmetic on floats *)

(** [10 ** ndigits] as a 63-bit integer. *)
Definition pow10 (ndigits : nat) : Uint63.int :=
  Nat.iter ndigits (fun p => (p * 10)%uint63) 1%uint63.

(** The integer nearest to [|v| * 10^ndigits], ties to even, for a finite
    [v] below 2^53 in size and [ndigits] up to 3.  [|v|] is
    [mantissa / 2^k] with [mantissa] between 2^52 and 2^53, so that
    [mantissa * 10^ndigits] is below 2^63; [q] is the quotient of that
    product by [2^k] and [r] the remainder, compared with the half of
    [2^k].  With [k] above 63 the value is below 2^-11 and the integer is
    0. *)
Definition nearest (v : float) (ndigits : nat) : Uint63.int :=
  let '(fraction, exponent) := frshiftexp (abs v) in
  let mantissa := normfr_mantissa fraction in
  let k := (2154 - exponent)%uint63 in
  let num := (mantissa * pow10 ndigits)%uint63 in
  if (63 <? k)%uint63 then 0%uint63
  else
    let q := (num >> k)%uint63 in
    let r := (num - (q << k))%uint63 in
    let half := (1 << (k - 1))%uint63 in
    if (r <? half)%uint63 then q
    else if (half <? r)%uint63 then (q + 1)%uint63
    else if (q land 1 =? 0)%uint63 then q else (q + 1)%uint63.

(** Python's [round(v, ndigits)] for [ndigits] from 0 to 3: the exact
    value of [v] is rounded to that many decimals, ties to even, and the
    decimal is read back as the nearest binary64 number.  NaN, the
    infinities and the zeros are returned as they are, and so is a number
    whose decimal has 2^53 units or more: its neighbours are further from it
    than a unit of the decimal. *)
Definition round (v : float) (ndigits : nat) : float :=
  if is_nan v || is_infinity v || is_zero v then v
  else if (2154 <=? snd (frshiftexp (abs v)))%uint63 then v
  else
    let units := nearest v ndigits in
    if (9007199254740992 <=? units)%uint63 then v
    else
      let magnitude := of_uint63 units / of_uint63 (pow10 ndigits) in
      if v <? 0 then - magnitude else magnitude.

(** The same rounding computed on the exact value [m * 2^e] with unbounded
    integers, for a number whose decimal has fewer than 2^53 units. *)
Definition round_half_even_scaled (m e k : Z) : Z :=
  let num := (m * k)%Z in
  let d := (2 ^ (- e))%Z in
  let q := (num / d)%Z in
  let r := (num mod d)%Z in
  if (2 * r <? d)%Z then q
  else if (d <? 2 * r)%Z then (q + 1)%Z
  else if Z.even q then q else (q + 1)%Z.

Definition round_by_value (v : float) (ndigits : nat) : float :=
  match Prim2SF v with
  | S754_finite s m e =>
      if (0 <=? e)%Z then v
      else
        let k := (10 ^ Z.of_nat ndigits)%Z in
        of_Z (round_half_even_scaled (if s then Z.neg m else Z.pos m) e k)
        / of_Z k
  | _ => v
  end.

(** Python's two-argument [max] and [min]: the second argument is taken
    only when it compares strictly beyond the first. *)
Definition max (a b : float) : float := if a <? b then b else a.
Definition min (a b : float) : float := if b <? a then b else a.

(** Python's [sum], term by term from 0.  On the geometric factors every
    partial sum up to the 53rd term is exact, so that a compensated
    summation returns the same number. *)
Definition sum (l : list float) : float := fold_left add l 0.

(** [a / b] on Python floats: ZeroDivisionError, here [None], when [b] is
    a zero. *)
Definition true_div (a b : float) : option float :=
  if b =? 0 then None else Some (a / b).

(** [v ** 2] on a Python float: OverflowError, here [None], when the
    square of a finite number is beyond the largest float. *)
Definition square (v : float) : option float :=
  let p := v * v in
  if is_infinity p && negb (is_infinity v) then None else Some p.

(** [0.5 ** i]: a power of two, reached exactly by halving. *)
Definition half_pow (i : nat) : float := Nat.iter i (fun v => v * 0.5) 1.

(** *** numpy arrays of three binary64 numbers

    A division by zero yields an infinity or NaN and does not raise.  The
    three products of [dot] are added from left to right. *)

Module Np.

Record Vec3 : Type := array { c0 : float; c1 : float; c2 : float }.

Definition zeros : Vec3 := array 0 0 0.
Definition add (a b : Vec3) : Vec3 :=
  array (c0 a + c0 b) (c1 a + c1 b) (c2 a + c2 b).
Definition sub (a b : Vec3) : Vec3 :=
  array (c0 a - c0 b) (c1 a - c1 b) (c2 a - c2 b).
Definition neg (a : Vec3) : Vec3 := array (- c0 a) (- c1 a) (- c2 a).
Definition mul (a : Vec3) (k : float) : Vec3 :=
  array (c0 a * k) (c1 a * k) (c2 a * k).
Definition div (a : Vec3) (k : float) : Vec3 :=
  array (c0 a / k) (c1 a / k) (c2 a / k).
Definition dot (a b : Vec3) : float := c0 a * c0 b + c1 a * c1 b + c2 a * c2 b.
Definition cross (a b : Vec3) : Vec3 :=
  array (c1 a * c2 b - c2 a * c1 b)
        (c2 a * c0 b - c0 a * c2 b)
        (c0 a * c1 b - c1 a * c0 b).
Definition linalg_norm (a : Vec3) : float := sqrt (dot a a).

End Np.

(** *** core/ai/physics_utils.py *)

Module PhysicsUtils.
Import Np.

Record State : Type := mkState {
  x : float; y : float; z : float; vx : float; vy : float; vz : float
}.

Definition unit (vec : Vec3) : Vec3 :=
  let n := linalg_norm vec in
  if n =? 0 then zeros else Np.div vec n.

#[warnings="-inexact-float"]
Definition time_of_closest_approach (r1 v1 r2 v2 : Vec3) : float * float :=
  let r_rel0 := Np.sub r2 r1 in
  let v_rel := Np.sub v2 v1 in
  let v_rel_sq := dot v_rel v_rel in
  let tstar :=
    if v_rel_sq <? 1e-12 then 0.0
    else - (dot r_rel0 v_rel / v_rel_sq) in
  let r_rel_t := Np.add r_rel0 (Np.mul v_rel tstar) in
  let dist := linalg_norm r_rel_t in
  (tstar, dist).

End PhysicsUtils.

(** *** core/ai/rl_maneuver_agent.py: the heuristic maneuver *)

(** The entries of the result of [suggest_maneuver_simple] other than
    ["features"].  Of the features the function reads the time and the
    distance of the closest approach; [compute_physics_features] computes
    the others from the same vectors with numpy operations, which do not
    raise. *)
Record SimpleManeuver : Type := mkSimpleManeuver {
  delta_vx : float;
  delta_vy : float;
  delta_vz : float;
  total_delta_v : float;
  expected_increase_in_miss_km : float;
  confidence : float
}.

#[warnings="-inexact-float"]
Definition suggest_maneuver_simple (sat deb : PhysicsUtils.State)
  : SimpleManeuver :=
  let r1 := Np.array (PhysicsUtils.x sat) (PhysicsUtils.y sat) (PhysicsUtils.z sat) in
  let v1 := Np.array (PhysicsUtils.vx sat) (PhysicsUtils.vy sat) (PhysicsUtils.vz sat) in
  let r2 := Np.array (PhysicsUtils.x deb) (PhysicsUtils.y deb) (PhysicsUtils.z deb) in
  let v2 := Np.array (PhysicsUtils.vx deb) (PhysicsUtils.vy deb) (PhysicsUtils.vz deb) in
  let '(tca, dist_at_tca) := PhysicsUtils.time_of_closest_approach r1 v1 r2 v2 in
  let r_rel0 := Np.sub r2 r1 in
  let v_rel := Np.sub v2 v1 in
  let perp :=
    if Np.linalg_norm v_rel <? 1e-6 then
      let perp := Np.cross r_rel0 (Np.array 0.0 0.0 1.0) in
      if Np.linalg_norm perp <? 1e-6 then Np.array 1.0 0.0 0.0 else perp
    else
      let perp := Np.cross v_rel r_rel0 in
      if Np.linalg_norm perp <? 1e-6 then
        let perp := Np.cross v_rel (Np.array 0.0 0.0 1.0) in
        if Np.linalg_norm perp <? 1e-6 then Np.array 1.0 0.0 0.0 else perp
      else perp in
  let perp_dir := PhysicsUtils.unit perp in
  let severity :=
    if dist_at_tca <=? 1.0 then 1.0
    else max 0.0 (min 1.0 ((50.0 - dist_at_tca) / 50.0)) in
  let dv_mag := 0.0005 + severity * 0.0495 in
  let along_vrel :=
    if 1e-6 <? Np.linalg_norm v_rel
    then Np.neg (PhysicsUtils.unit v_rel)
    else Np.zeros in
  let dv_vector :=
    Np.add (Np.mul (Np.mul perp_dir dv_mag) 0.9)
           (Np.mul (Np.mul along_vrel dv_mag) 0.1) in
  let expected_delta_d :=
    if 0 <=? tca
    then Np.linalg_norm dv_vector * max tca 1.0
    else Np.linalg_norm dv_vector * 3600.0 in
  let confidence := max 0.4 (min 0.98 (0.6 + severity * 0.35)) in
  mkSimpleManeuver (Np.c0 dv_vector) (Np.c1 dv_vector) (Np.c2 dv_vector)
    (Np.linalg_norm dv_vector) expected_delta_d confidence.

(** *** core/ai/rl_maneuver_agent.py: the delta-v of the split *)

(** [_compute_basic_maneuver(satellite_state)["delta_v_mps"]]: the
    arithmetic of [_compute_basic_maneuver] and [suggest_maneuver_legacy]
    that leads to this entry. *)
Definition baseline_delta_v_mps (threat_distance_km : option float) : float :=
  let distance := Py.get threat_distance_km 10.0 in
  let urgency := max 0.0 (min 1.0 ((15.0 - distance) / 15.0)) in
  let base_dv := 15.0 in
  let urgency_factor := 1.0 + (urgency * 2.5) in
  let delta_v := base_dv * urgency_factor in
  round delta_v 2.

(** The ["delta_v_mps"] entries of the burns that
    [suggest_multi_burn_maneuver] builds from a baseline [total_dv]; [None]
    where a division by zero raises. *)
Definition split_delta_v_mps (total_dv : float) (num_burns : Z)
  : option (list float) :=
  let factors := map half_pow (RlManeuverAgent.range num_burns) in
  if sum factors =? 0 then None
  else
    let scale := total_dv / sum factors in
    if total_dv =? 0 then None
    else
      Some (map (fun i => let dv := nth i factors 0 * scale in round dv 2)
              (RlManeuverAgent.range num_burns)).

Definition suggest_multi_burn_maneuver_delta_v_mps
  (threat_distance_km : option float) (num_burns : Z) : option (list float) :=
  split_delta_v_mps (baseline_delta_v_mps threat_distance_km) num_burns.

(** *** core/ai/rl_maneuver_agent.py: the planner *)

Record Direction : Type := mkDirection { x : float; y : float; z : float }.

Record LegacyManeuver : Type := mkLegacyManeuver {
  delta_v : float;
  legacy_direction_vector : Direction;
  burn_duration : float;
  fuel_cost : float;
  safety_margin : float
}.

Record Velocity : Type := mkVelocity {
  vx : option float; vy : option float; vz : option float
}.

Record SatelliteState : Type := mkSatelliteState {
  threat_distance_km : option float;
  velocity : option Velocity
}.

Record Maneuver : Type := mkManeuver {
  delta_v_mps : float;
  direction_vector : Direction;
  burn_duration_s : float;
  fuel_cost_kg : float;
  safety_margin_km : float
}.

Section Planner.

(** [math.exp], the exponential of the C library, which IEEE 754 does not
    fix: the planner is embedded for any such function. *)
Variable exp : float -> float.

#[warnings="-inexact-float"]
Definition suggest_maneuver_legacy (distance relative_velocity angle urgency : float)
  : LegacyManeuver :=
  let base_dv := 15.0 in
  let urgency_factor := 1.0 + (urgency * 2.5) in
  let delta_v := base_dv * urgency_factor in
  let altitude_estimate := 400.0 in
  let direction :=
    if altitude_estimate <? 600
    then mkDirection 0.707 0.707 0.0
    else mkDirection 0.0 1.0 0.0 in
  let burn_duration := delta_v / 10.0 in
  let isp := 300.0 in
  let g0 := 9.81 in
  let fuel_cost := 1000.0 * (1 - exp (- delta_v / (isp * g0))) in
  let safety_margin := delta_v * 0.1 in
  mkLegacyManeuver (round delta_v 2) direction (round burn_duration 2)
    (round fuel_cost 3) (round safety_margin 2).

Definition _compute_basic_maneuver (satellite_state : SatelliteState)
  : option Maneuver :=
  let distance := Py.get (threat_distance_km satellite_state) 10.0 in
  let urgency := max 0.0 (min 1.0 ((15.0 - distance) / 15.0)) in
  let empty := mkVelocity None None None in
  let? vx2 := square (Py.get (vx (Py.get (velocity satellite_state) empty)) 7.5) in
  let? vy2 := square (Py.get (vy (Py.get (velocity satellite_state) empty)) 0.0) in
  let? vz2 := square (Py.get (vz (Py.get (velocity satellite_state) empty)) 0.0) in
  let rel_vel_mag := sqrt (vx2 + vy2 + vz2) / 10.0 in
  let angle := 45.0 in
  let legacy := suggest_maneuver_legacy distance rel_vel_mag angle urgency in
  Some (mkManeuver (delta_v legacy) (legacy_direction_vector legacy)
          (burn_duration legacy) (fuel_cost legacy) (safety_margin legacy)).

Definition suggest_maneuver (satellite_state : SatelliteState) : option Maneuver :=
  _compute_basic_maneuver satellite_state.

Definition suggest_multi_burn_maneuver
  (satellite_state : SatelliteState) (num_burns : Z) : option (list Maneuver) :=
  let? base := _compute_basic_maneuver satellite_state in
  let total_dv := delta_v_mps base in
  let factors := map half_pow (RlManeuverAgent.range num_burns) in
  let? scale := true_div total_dv (sum factors) in
  RlManeuverAgent.for_each (RlManeuverAgent.range num_burns) (fun i =>
    let dv := nth i factors 0 * scale in
    let? share := true_div dv total_dv in
    Some (mkManeuver
            (round dv 2)
            (direction_vector base)
            (round (burn_duration_s base * share) 2)
            (round (fuel_cost_kg base * share) 3)
            (round (safety_margin_km base * share) 2))).

End Planner.

(** *** Tolerances *)

(** The sum of [burns] is within the relative tolerance 1e-6 of [total],
    decided on the exact values. *)
Definition within_tolerance (burns : list float) (total : float) : bool :=
  dyadic_scaled_le (10 ^ 6)
    (dyadic_add (fold_right dyadic_add (0, 0)%Z (map exact burns))
       (dyadic_opp (exact total)))
    (exact total).

(** [abs(a - b) <= 1e-6 * abs(b)], as a test evaluates it. *)
#[warnings="-inexact-float"]
Definition close (a b : float) : bool := abs (a - b) <=? 1e-6 * abs b.

(** A threat 14.996 km away. *)
#[warnings="-inexact-float"]
Definition near_the_threshold : option float := Some 14.996.

(** *** The split on every baseline of whole hundredths

    For the factors of a burn count, their sum [s] and the baseline
    [T / 100]: the shares [f * scale] and their roundings to hundredths
    [units / 100], with what is checked of them. *)
Definition split_checked (factors : list float) (s : float) (T : Z) : bool :=
  let total := hundredths T in
  let scale := total / s in
  let dvs := map (fun f => f * scale) factors in
  let units := map (fun dv => nearest dv 2) dvs in
  negb (total =? 0)
  && forallb (fun dv => Leibniz.eqb (round dv 2) (of_uint63 (nearest dv 2) / 100)) dvs
  && forallb (fun k => (k <=? 5250)%uint63) units
  && (fold_right Uint63.add 0%uint63 units =? Uint63.of_Z T)%uint63
  && close (sum (map (fun dv => round dv 2) dvs)) total
  && close (sum dvs) total.

Fixpoint zseq (start : Z) (count : nat) : list Z :=
  match count with
  | O => []
  | S c => start :: zseq (start + 1) c
  end.

(** The multiples of 1/128 below 64, among them every tie of the
    rounding to two decimals in that range. *)
Definition dyadic_samples : list float :=
  map (fun j => of_Z (Z.of_nat j) / 128) (seq 0 (64 * 128)).

End Binary64.

(** ** core/orbital/vector_math.py *)

Module VectorMath.

(** A position dictionary; every key is read with a default of 0. *)
Record Position : Type := mkPosition {
  x : option R; y : option R; z : option R
}.

(** A velocity dictionary; every key is read with a default of 0. *)
Record Velocity : Type := mkVelocity {
  vx : option R; vy : option R; vz : option R
}.

Definition compute_distance (pos1 pos2 : Position) : R :=
  let dx := Py.get (x pos2) 0 - Py.get (x pos1) 0 in
  let dy := Py.get (y pos2) 0 - Py.get (y pos1) 0 in
  let dz := Py.get (z pos2) 0 - Py.get (z pos1) 0 in
  sqrt (dx ^ 2 + dy ^ 2 + dz ^ 2).

Definition compute_relative_velocity (vel1 vel2 : Velocity) : R :=
  let dvx := Py.get (vx vel2) 0 - Py.get (vx vel1) 0 in
  let dvy := Py.get (vy vel2) 0 - Py.get (vy vel1) 0 in
  let dvz := Py.get (vz vel2) 0 - Py.get (vz vel1) 0 in
  sqrt (dvx ^ 2 + dvy ^ 2 + dvz ^ 2).

Definition compute_altitude_diff (alt1 alt2 : R) : R := Rabs (alt2 - alt1).

Definition compute_closest_approach
  (pos1 : Position) (vel1 : Velocity) (pos2 : Position) (vel2 : Velocity)
  (time_window_sec : Z) : option (R * R) :=
  let current_distance := compute_distance pos1 pos2 in
  let rel_velocity := compute_relative_velocity vel1 vel2 in
  let dx := Py.get (x pos2) 0 - Py.get (x pos1) 0 in
  let dy := Py.get (y pos2) 0 - Py.get (y pos1) 0 in
  let dz := Py.get (z pos2) 0 - Py.get (z pos1) 0 in
  let dvx := Py.get (vx vel2) 0 - Py.get (vx vel1) 0 in
  let dvy := Py.get (vy vel2) 0 - Py.get (vy vel1) 0 in
  let dvz := Py.get (vz vel2) 0 - Py.get (vz vel1) 0 in
  let numerator := - (dx * dvx + dy * dvy + dz * dvz) in
  let denominator := dvx ^ 2 + dvy ^ 2 + dvz ^ 2 in
  if Py.ltb denominator 1e-10 then Some (0.0, current_distance)
  else
    let? time_to_closest := Py.div numerator denominator in
    let time_to_closest :=
      if Py.ltb time_to_closest 0 then 0
      else if Py.gtb time_to_closest (IZR time_window_sec)
           then IZR time_window_sec
           else time_to_closest in
    let x1_future := Py.get (x pos1) 0 + Py.get (vx vel1) 0 * time_to_closest in
    let y1_future := Py.get (y pos1) 0 + Py.get (vy vel1) 0 * time_to_closest in
    let z1_future := Py.get (z pos1) 0 + Py.get (vz vel1) 0 * time_to_closest in
    let x2_future := Py.get (x pos2) 0 + Py.get (vx vel2) 0 * time_to_closest in
    let y2_future := Py.get (y pos2) 0 + Py.get (vy vel2) 0 * time_to_closest in
    let z2_future := Py.get (z pos2) 0 + Py.get (vz vel2) 0 * time_to_closest in
    let min_distance :=
      sqrt ((x2_future - x1_future) ^ 2 +
            (y2_future - y1_future) ^ 2 +
            (z2_future - z1_future) ^ 2) in
    Some (time_to_closest, min_distance).

Definition vector_magnitude (vec : Py.dict) : R :=
  let x := Py.get (vec "x"%string) (Py.get (vec "vx"%string) 0) in
  let y := Py.get (vec "y"%string) (Py.get (vec "vy"%string) 0) in
  let z := Py.get (vec "z"%string) (Py.get (vec "vz"%string) 0) in
  sqrt (x ^ 2 + y ^ 2 + z ^ 2).

(** The result has the keys x, y and z. *)
Definition normalize_vector (vec : Py.dict) : option Position :=
  let mag := vector_magnitude vec in
  if Py.ltb mag 1e-10 then Some (mkPosition (Some 0) (Some 0) (Some 1))
  else
    let? qx := Py.div (Py.get (vec "x"%string) 0) mag in
    let? qy := Py.div (Py.get (vec "y"%string) 0) mag in
    let? qz := Py.div (Py.get (vec "z"%string) 0) mag in
    Some (mkPosition (Some qx) (Some qy) (Some qz)).

(** A position dictionary as a dictionary of floats. *)
Definition position_dict (p : Position) : Py.dict :=
  fun key =>
    if String.eqb key "x" then x p
    else if String.eqb key "y" then y p
    else if String.eqb key "z" then z p
    else None.

End VectorMath.

(** ** config/settings.py (the thresholds the engine reads) *)

Module Settings.

Record Settings : Type := mkSettings {
  COLLISION_THRESHOLD_KM : R;
  HIGH_RISK_THRESHOLD_KM : R;
  MEDIUM_RISK_THRESHOLD_KM : R
}.

(** The values of the class when the environment overrides nothing. *)
Definition settings : Settings := mkSettings 10.0 5.0 7.5.

End Settings.

(** ** core/orbital/collision_detection.py *)

Module CollisionDetection.
Import Settings.

(** A satellite or debris dictionary; the keys the batch check reads. *)
Record SpaceObject : Type := mkSpaceObject {
  id : option string;
  x : option R;
  y : option R;
  z : option R
}.

(** One entry of the list returned by [batch_collision_check]. *)
Record Collision : Type := mkCollision {
  satellite_id : option string;
  debris_id : option string;
  distance_km : R;
  is_high_risk : bool
}.

Definition detect_collision_simple
  (sat_position debris_position : VectorMath.Position) (threshold_km : option R)
  : bool * R :=
  let threshold_km :=
    match threshold_km with
    | None => COLLISION_THRESHOLD_KM settings
    | Some t => t
    end in
  let distance := VectorMath.compute_distance sat_position debris_position in
  let is_risk := Py.ltb distance threshold_km in
  (is_risk, distance).

(** [{k: obj.get(k, 0) for k in ["x", "y", "z"]}]. *)
Definition position_of (obj : SpaceObject) : VectorMath.Position :=
  VectorMath.mkPosition
    (Some (Py.get (x obj) 0)) (Some (Py.get (y obj) 0)) (Some (Py.get (z obj) 0)).

Definition cell_size : R := 50.0.

(** The inner function [cell] of [batch_collision_check]. *)
Definition cell (point : VectorMath.Position) : Z * Z * Z :=
  (Zfloor (Py.get (VectorMath.x point) 0 / cell_size),
   Zfloor (Py.get (VectorMath.y point) 0 / cell_size),
   Zfloor (Py.get (VectorMath.z point) 0 / cell_size)).

(** [sum(abs(a - b) for a, b in zip(c1, c2))]. *)
Definition manhattan (c1 c2 : Z * Z * Z) : Z :=
  let '(a0, a1, a2) := c1 in
  let '(b0, b1, b2) := c2 in
  (Z.abs (a0 - b0) + Z.abs (a1 - b1) + Z.abs (a2 - b2))%Z.

(** The first loop: debris whose cell neighbours the satellite's cell. *)
Definition candidate_debris (satellite : SpaceObject) (debris_list : list SpaceObject)
  : list SpaceObject :=
  let sat_pos := position_of satellite in
  let sat_cell := cell sat_pos in
  filter (fun debris =>
            let d_pos := position_of debris in
            (manhattan sat_cell (cell d_pos) <=? 1)%Z)
         debris_list.

Definition batch_collision_check
  (satellite : SpaceObject) (debris_list : list SpaceObject) (threshold_km : option R)
  : list Collision :=
  let threshold_km :=
    match threshold_km with
    | None => COLLISION_THRESHOLD_KM settings
    | Some t => t
    end in
  let sat_pos := position_of satellite in
  flat_map (fun debris =>
              let debris_pos := position_of debris in
              let '(is_risk, distance) :=
                detect_collision_simple sat_pos debris_pos (Some threshold_km) in
              if is_risk then
                [ mkCollision (id satellite) (id debris) distance
                    (Py.ltb distance (HIGH_RISK_THRESHOLD_KM settings)) ]
              else [])
           (candidate_debris satellite debris_list).



(** The sizes default to 5.0 m and 1.0 m. *)
Definition compute_collision_probability
  (distance_km relative_velocity_kmps : R)
  (satellite_size_m debris_size_m : option R) : R :=
  let satellite_size_m := Py.get satellite_size_m 5.0 in
  let debris_size_m := Py.get debris_size_m 1.0 in
  let combined_radius_km := (satellite_size_m + debris_size_m) / 2000.0 in
  if Py.leb distance_km combined_radius_km then 0.99
  else
    let velocity_factor := Rmin (relative_velocity_kmps / 15.0) 1.0 in
    let decay_rate := 0.5 in
    let probability :=
      exp (- decay_rate * (distance_km - combined_radius_km)) * velocity_factor in
    Rmin (Rmax probability 0.0) 0.99.

End CollisionDetection.

(** ** services/collision_service.py (the ranking of a scan's events) *)

Module CollisionService.

(** The event dictionary assembled for one satellite-debris pair. *)
Record Event : Type := mkEvent {
  id : string;
  satellite_id : string;
  satellite_name : string;
  debris_id : string;
  debris_name : string;
  distance_km : R;
  relative_velocity_kmps : R;
  altitude_diff_km : R;
  risk_score : R;
  risk_level : Z;
  risk_label : string;
  time_to_closest_approach_sec : R;
  minimum_distance_km : R;
  collision_probability : R;
  recommended_action : string;
  timestamp : string
}.

(** A satellite or debris row as the services return it; the keys the
    scan reads before its first model call. *)
Record Row : Type := mkRow {
  longitude : option R;
  latitude : option R;
  altitude_km : option R;
  velocity_kmps : option R
}.

(** [sat_pos] and [debris_pos] of the scan. *)
Definition scan_position (row : Row) : VectorMath.Position :=
  VectorMath.mkPosition
    (Some (Py.get (longitude row) 0 * 100))
    (Some (Py.get (latitude row) 0 * 100))
    (Some (Py.get (altitude_km row) 400)).

(** The body of the inner loop for one pair.  A pair at 50 km or more
    appends nothing.  For a closer pair the first model call is
    [predict_risk(distance_km=..., relative_velocity_kmps=..., angle_deg=90,
    altitude_diff_km=...)], while [predict_risk] has the parameters
    [distance], [relative_velocity], [angle] and [altitude]: the call raises
    TypeError before an event is built, here [None]. *)
Definition scan_pair (satellite debris : Row) : option (list Event) :=
  let sat_pos := scan_position satellite in
  let debris_pos := scan_position debris in
  let distance := VectorMath.compute_distance sat_pos debris_pos in
  if Py.ltb distance 50 then None else Some [].

(** The inner loop over the debris and the outer loop over the satellites. *)
Fixpoint scan_debris (satellite : Row) (debris_list : list Row)
  : option (list Event) :=
  match debris_list with
  | [] => Some []
  | debris :: rest =>
      let? events := scan_pair satellite debris in
      let? others := scan_debris satellite rest in
      Some (events ++ others)
  end.

Fixpoint scan_satellites (satellites debris_list : list Row)
  : option (list Event) :=
  match satellites with
  | [] => Some []
  | satellite :: rest =>
      let? events := scan_debris satellite debris_list in
      let? others := scan_satellites rest debris_list in
      Some (events ++ others)
  end.

(** [calculate_collision_risks] on the rows that the two services return:
    the loops, then
    [collision_events.sort(key=lambda x: x["risk_level"], reverse=True)]
    and the return of the sorted list.  The method takes no list of events:
    the only events it sorts are those its own loops have appended. *)
Definition calculate_collision_risks_of_rows (satellites debris_list : list Row)
  : option (list Event) :=
  let? collision_events := scan_satellites satellites debris_list in
  Some (Py.sort_reverse risk_level collision_events).

End CollisionService.

(** ** core/ai/on_click_handler.py *)

Module OnClickHandler.

(** One entry of the list under the key nearest. *)
Record Item : Type := mkItem {
  debris : PhysicsUtils.State;
  distance_now_km : R;
  features : PhysicsUtils.Features;
  model1_risk : Model1.Prediction;
  model2_class : Model2.PairClassification;
  maneuver : option RlManeuverAgent.SimpleManeuver
}.

(** The result dictionary of [handle_satellite_click]. *)
Record Click : Type := mkClick {
  sat : PhysicsUtils.State;
  nearest : list Item
}.

Definition Measured : Type :=
  (R * PhysicsUtils.State * PhysicsUtils.Features)%type.

(** The first loop: one triple of distance, debris and features per debris
    object, in the order of the list. *)
Fixpoint measure (sat : PhysicsUtils.State) (debris_list : list PhysicsUtils.State)
  : option (list Measured) :=
  match debris_list with
  | [] => Some []
  | d :: rest =>
      let? feats := PhysicsUtils.compute_physics_features sat d in
      let? others := measure sat rest in
      Some ((PhysicsUtils.distance feats, d, feats) :: others)
  end.

(** The body of the second loop, for one triple. *)
Definition item_of (sat : PhysicsUtils.State) (include_maneuver : bool)
  (entry : Measured) : option Item :=
  let '(dist, deb, feats) := entry in
  let? m1 := Model1.predict_for_sat_debris sat deb in
  let? m2 := Model2.classify_for_sat_debris sat deb in
  let? man :=
    if include_maneuver
    then (let? m := RlManeuverAgent.suggest_maneuver_simple sat deb in Some (Some m))
    else Some None in
  Some (mkItem deb dist feats m1 m2 man).

(** The second loop over [dists[i]] for [i] in [range(min(top_n, len(dists)))]. *)
Fixpoint items_of (sat : PhysicsUtils.State) (include_maneuver : bool)
  (entries : list Measured) : option (list Item) :=
  match entries with
  | [] => Some []
  | entry :: rest =>
      let? item := item_of sat include_maneuver entry in
      let? others := items_of sat include_maneuver rest in
      Some (item :: others)
  end.

Definition handle_satellite_click
  (sat : PhysicsUtils.State) (debris_list : list PhysicsUtils.State)
  (top_n : Z) (include_maneuver : bool) : option Click :=
  let? dists := measure sat debris_list in
  let dists := Py.sort_by (fun entry => fst (fst entry)) dists in
  let count := Z.to_nat (Z.min top_n (Z.of_nat (Datatypes.length dists))) in
  let? out_items := items_of sat include_maneuver (firstn count dists) in
  Some (mkClick sat out_items).

End OnClickHandler.

(** ** The stated formulas, written from their wording *)

Module Spec.

Definition clamp (v lo hi : R) : R := Rmax lo (Rmin hi v).

(** The amplification of a near-future closest approach (259200 s = 72 h);
    1 for a past or missing time. *)
Definition time_factor (tca_seconds : option R) : R :=
  match tca_seconds with
  | Some t =>
      if Rle_dec 0 t then 1 + Rmax 0 ((259200 - t) / 259200) * 0.5 else 1
  | None => 1
  end.

Definition base (distance : R) (distance_at_tca tca_seconds : option R) : R :=
  let base := exp (- Rmax distance 0.001 / 30) in
  match distance_at_tca with
  | Some dtca =>
      Rmax base (exp (- Rmax dtca 0.001 / 20) * 0.8 * time_factor tca_seconds)
  | None => base
  end.

Definition probability
  (distance rel_velocity angle altitude_diff : R)
  (distance_at_tca tca_seconds : option R) : R :=
  clamp (base distance distance_at_tca tca_seconds * 0.7
         + Rmin (rel_velocity / 12) 1 * 0.4
         + (angle / 180) * 0.2
         + Rmax 0 (1 - Rmin (altitude_diff / 50) 1) * 0.3 * 0.5) 0 1.

(** The distance bands of the discrete classifier. *)
Definition band (distance : R) (level : Z) : Prop :=
  (distance > 50 /\ level = 0%Z) \/
  (20 < distance <= 50 /\ level = 1%Z) \/
  (5 < distance <= 20 /\ level = 2%Z) \/
  (distance <= 5 /\ level = 3%Z).

Definition escalates (relative_speed approach_angle : R) : Prop :=
  relative_speed > 10 /\ approach_angle > 150.

(** Label, color and action of a level. *)
Definition metadata (level : Z) : string * string * string :=
  match level with
  | 0%Z => ("No Risk", "green", "Continue monitoring")
  | 1%Z => ("Low Risk", "yellow", "Increase monitoring frequency")
  | 2%Z => ("Medium Risk", "orange", "Prepare avoidance maneuver")
  | _ => ("High Risk", "red", "Execute immediate avoidance maneuver")
  end%string.

Definition assessment (level : Z) : Model2.Classification :=
  let '(label, color, action) := metadata level in
  Model2.mkClassification level label color action.

(** Separation of two objects in linear motion, [t] seconds from now. *)
Definition separation
  (pos1 : VectorMath.Position) (vel1 : VectorMath.Velocity)
  (pos2 : VectorMath.Position) (vel2 : VectorMath.Velocity) (t : R) : R :=
  let dx := Py.get (VectorMath.x pos2) 0 - Py.get (VectorMath.x pos1) 0 in
  let dy := Py.get (VectorMath.y pos2) 0 - Py.get (VectorMath.y pos1) 0 in
  let dz := Py.get (VectorMath.z pos2) 0 - Py.get (VectorMath.z pos1) 0 in
  let dvx := Py.get (VectorMath.vx vel2) 0 - Py.get (VectorMath.vx vel1) 0 in
  let dvy := Py.get (VectorMath.vy vel2) 0 - Py.get (VectorMath.vy vel1) 0 in
  let dvz := Py.get (VectorMath.vz vel2) 0 - Py.get (VectorMath.vz vel1) 0 in
  sqrt ((dx + dvx * t) ^ 2 + (dy + dvy * t) ^ 2 + (dz + dvz * t) ^ 2).

(** Squared relative speed. *)
Definition relative_speed_sq (vel1 vel2 : VectorMath.Velocity) : R :=
  let dvx := Py.get (VectorMath.vx vel2) 0 - Py.get (VectorMath.vx vel1) 0 in
  let dvy := Py.get (VectorMath.vy vel2) 0 - Py.get (VectorMath.vy vel1) 0 in
  let dvz := Py.get (VectorMath.vz vel2) 0 - Py.get (VectorMath.vz vel1) 0 in
  dvx ^ 2 + dvy ^ 2 + dvz ^ 2.

(** The unclamped time at which linear motion minimizes the separation. *)
Definition minimizer
  (pos1 : VectorMath.Position) (vel1 : VectorMath.Velocity)
  (pos2 : VectorMath.Position) (vel2 : VectorMath.Velocity) : R :=
  let dx := Py.get (VectorMath.x pos2) 0 - Py.get (VectorMath.x pos1) 0 in
  let dy := Py.get (VectorMath.y pos2) 0 - Py.get (VectorMath.y pos1) 0 in
  let dz := Py.get (VectorMath.z pos2) 0 - Py.get (VectorMath.z pos1) 0 in
  let dvx := Py.get (VectorMath.vx vel2) 0 - Py.get (VectorMath.vx vel1) 0 in
  let dvy := Py.get (VectorMath.vy vel2) 0 - Py.get (VectorMath.vy vel1) 0 in
  let dvz := Py.get (VectorMath.vz vel2) 0 - Py.get (VectorMath.vz vel1) 0 in
  - (dx * dvx + dy * dvy + dz * dvz) / relative_speed_sq vel1 vel2.



(** Ranking by level alone. *)
Definition level_before (a b : CollisionService.Event) : Prop :=
  (CollisionService.risk_level a >= CollisionService.risk_level b)%Z.

(** The events of one level, in the order of the list. *)
Definition of_level (level : Z) (events : list CollisionService.Event)
  : list CollisionService.Event :=
  filter (fun e => (CollisionService.risk_level e =? level)%Z) events.

(** The normalized geometric weight of burn [i] among [num_burns]. *)
Definition weight (num_burns : Z) (i : nat) : R :=
  0.5 ^ i / Py.sum (map (fun j => 0.5 ^ j) (RlManeuverAgent.range num_burns)).

(** A burn that takes the share [w] of a baseline: the direction is kept,
    delta-v, duration, fuel and margin are scaled and rounded as the
    baseline's are. *)
Definition share (base : RlManeuverAgent.Maneuver) (w : R) : RlManeuverAgent.Maneuver :=
  RlManeuverAgent.mkManeuver
    (Py.round (RlManeuverAgent.delta_v_mps base * w) 2)
    (RlManeuverAgent.direction_vector base)
    (Py.round (RlManeuverAgent.burn_duration_s base * w) 2)
    (Py.round (RlManeuverAgent.fuel_cost_kg base * w) 3)
    (Py.round (RlManeuverAgent.safety_margin_km base * w) 2).

End Spec.

(** ** Concrete inputs *)

Module Examples.

(** An object at rest at the origin and one 1 km away along x that recedes
    at 1 km/s. *)
Definition origin : VectorMath.Position :=
  VectorMath.mkPosition (Some 0) (Some 0) (Some 0).
Definition at_rest : VectorMath.Velocity :=
  VectorMath.mkVelocity (Some 0) (Some 0) (Some 0).
Definition one_km_away : VectorMath.Position :=
  VectorMath.mkPosition (Some 1) (Some 0) (Some 0).
Definition receding : VectorMath.Velocity :=
  VectorMath.mkVelocity (Some 1) (Some 0) (Some 0).

(** A satellite 1 km inside the corner of its grid cell and a debris object
    1 km beyond that corner, in the cell diagonally across. *)
Definition corner_satellite : CollisionDetection.SpaceObject :=
  CollisionDetection.mkSpaceObject (Some "SAT-1"%string) (Some 49) (Some 49) (Some 0).
Definition corner_debris : CollisionDetection.SpaceObject :=
  CollisionDetection.mkSpaceObject (Some "DEB-1"%string) (Some 51) (Some 51) (Some 0).


(** A satellite state that leaves every key to its default
    (threat at 10 km). *)
Definition default_state : RlManeuverAgent.SatelliteState :=
  RlManeuverAgent.mkSatelliteState None None.

Import PrimFloat.
#[local] Open Scope float_scope.

(** The same state in binary64, and a stand-in for [math.exp]: the series
    up to the third power, within 1e-8 of the exponential on the arguments
    that the planner passes (between -0.018 and 0). *)
Definition binary64_default_state : Binary64.SatelliteState :=
  Binary64.mkSatelliteState None None.
Definition exp_by_series (v : PrimFloat.float) : PrimFloat.float :=
  1 + v * (1 + v * (0.5 + v / 6)).

(** Binary64 states at rest: at the origin, 1e200 km from it along x, and
    at 1e308 km from it on either side along x. *)
Definition binary64_origin : Binary64.PhysicsUtils.State :=
  Binary64.PhysicsUtils.mkState 0 0 0 0 0 0.
#[warnings="-inexact-float"]
Definition binary64_far_away : Binary64.PhysicsUtils.State :=
  Binary64.PhysicsUtils.mkState 1e200 0 0 0 0 0.
#[warnings="-inexact-float"]
Definition binary64_east : Binary64.PhysicsUtils.State :=
  Binary64.PhysicsUtils.mkState 1e308 0 0 0 0 0.
#[warnings="-inexact-float"]
Definition binary64_west : Binary64.PhysicsUtils.State :=
  Binary64.PhysicsUtils.mkState (-1e308) 0 0 0 0 0.

(** Binary64 states of ordinary size for the degenerate cases of the
    heuristic: a debris object at rest 5 km away along x; one at rest 5 km
    above; one 10 km away along x that closes head-on at 2 km/s; one 10 km
    above that descends at 2 km/s. *)
Definition binary64_beside : Binary64.PhysicsUtils.State :=
  Binary64.PhysicsUtils.mkState 5 0 0 0 0 0.
Definition binary64_above : Binary64.PhysicsUtils.State :=
  Binary64.PhysicsUtils.mkState 0 0 5 0 0 0.
Definition binary64_head_on : Binary64.PhysicsUtils.State :=
  Binary64.PhysicsUtils.mkState 10 0 0 (-2) 0 0.
Definition binary64_descending : Binary64.PhysicsUtils.State :=
  Binary64.PhysicsUtils.mkState 0 0 10 0 0 (-2).

End Examples.

(** * Properties *)

(** ** Truth values of comparisons *)

Lemma gtb_true a b : Py.gtb a b = true <-> a > b.
Proof. unfold Py.gtb; destruct (Rgt_dec a b); split; intros; try easy. Qed.

Lemma ltb_true a b : Py.ltb a b = true <-> a < b.
Proof. unfold Py.ltb; destruct (Rlt_dec a b); split; intros; try easy. Qed.

Lemma geb_true a b : Py.geb a b = true <-> a >= b.
Proof. unfold Py.geb; destruct (Rge_dec a b); split; intros; try easy. Qed.

Lemma leb_true a b : Py.leb a b = true <-> a <= b.
Proof. unfold Py.leb; destruct (Rle_dec a b); split; intros; try easy. Qed.

Lemma eqb_true a b : Py.eqb a b = true <-> a = b.
Proof. unfold Py.eqb; destruct (Req_dec_T a b); split; intros; try easy. Qed.

Lemma gtb_false a b : Py.gtb a b = false <-> a <= b.
Proof.
  unfold Py.gtb; destruct (Rgt_dec a b); split; intros; try easy; lra.
Qed.

Lemma ltb_false a b : Py.ltb a b = false <-> b <= a.
Proof.
  unfold Py.ltb; destruct (Rlt_dec a b); split; intros; try easy; lra.
Qed.

Lemma geb_false a b : Py.geb a b = false <-> a < b.
Proof.
  unfold Py.geb; destruct (Rge_dec a b); split; intros; try easy; lra.
Qed.

Lemma leb_false a b : Py.leb a b = false <-> b < a.
Proof.
  unfold Py.leb; destruct (Rle_dec a b); split; intros; try easy; lra.
Qed.

Lemma eqb_false a b : Py.eqb a b = false <-> a <> b.
Proof. unfold Py.eqb; destruct (Req_dec_T a b); split; intros; try easy. Qed.

(** Case analysis on every comparison of the goal, leaving the facts. *)
Ltac cmp_cases :=
  repeat match goal with
  | |- context [Py.gtb ?a ?b] =>
      let E := fresh "E" in
      destruct (Py.gtb a b) eqn:E;
      [apply gtb_true in E | apply gtb_false in E]
  | |- context [Py.ltb ?a ?b] =>
      let E := fresh "E" in
      destruct (Py.ltb a b) eqn:E;
      [apply ltb_true in E | apply ltb_false in E]
  | |- context [Py.geb ?a ?b] =>
      let E := fresh "E" in
      destruct (Py.geb a b) eqn:E;
      [apply geb_true in E | apply geb_false in E]
  | |- context [Py.leb ?a ?b] =>
      let E := fresh "E" in
      destruct (Py.leb a b) eqn:E;
      [apply leb_true in E | apply leb_false in E]
  | |- context [Py.eqb ?a ?b] =>
      let E := fresh "E" in
      destruct (Py.eqb a b) eqn:E;
      [apply eqb_true in E | apply eqb_false in E]
  end.

(** ** The discrete classifier *)

Lemma classify_distance_band distance :
  Spec.band distance (Model2.classify_distance distance).
Proof.
  unfold Spec.band, Model2.classify_distance.
  cmp_cases.
  - left. split; [lra | reflexivity].
  - right; left. split; [lra | reflexivity].
  - right; right; left. split; [lra | reflexivity].
  - right; right; right. split; [lra | reflexivity].
Qed.

Lemma classify_distance_range distance :
  (0 <= Model2.classify_distance distance <= 3)%Z.
Proof.
  unfold Model2.classify_distance. cmp_cases; lia.
Qed.

Lemma band_functional distance l1 l2 :
  Spec.band distance l1 -> Spec.band distance l2 -> l1 = l2.
Proof.
  unfold Spec.band. intros H1 H2.
  destruct H1 as [[? ->]|[[? ->]|[[? ->]|[? ->]]]];
  destruct H2 as [[? ->]|[[? ->]|[[? ->]|[? ->]]]];
  try reflexivity; lra.
Qed.

Lemma labels_get_metadata level default :
  (0 <= level <= 3)%Z ->
  Model2.dict_get Model2.labels level default = Spec.metadata level.
Proof.
  intros H.
  assert (level = 0 \/ level = 1 \/ level = 2 \/ level = 3)%Z as Hc by lia.
  destruct Hc as [->|[->|[->| ->]]]; reflexivity.
Qed.

(** C3.  The classifier returns the level of the distance band (0 above
    50 km, 1 in (20,50], 2 in (5,20], 3 at or below 5 km); exactly when the
    relative speed exceeds 10 km/s and the approach angle exceeds 150 degrees
    the level is raised by one, capped at 3; label, color and action are
    those of the level that is returned. *)
Theorem classify_risk_advanced_bands_and_escalation :
  forall distance relative_speed approach_angle : R,
  exists level : Z,
    Spec.band distance level /\
    (Spec.escalates relative_speed approach_angle ->
     Model2.classify_risk_advanced distance relative_speed approach_angle
     = Spec.assessment (Z.min (level + 1) 3)) /\
    (~ Spec.escalates relative_speed approach_angle ->
     Model2.classify_risk_advanced distance relative_speed approach_angle
     = Spec.assessment level).
Proof.
  intros d rv a.
  exists (Model2.classify_distance d).
  pose proof (classify_distance_range d) as Hr.
  split; [apply classify_distance_band|].
  unfold Model2.classify_risk_advanced, Spec.assessment, Spec.escalates.
  rewrite !labels_get_metadata by lia.
  split; intros H.
  - destruct H as [H1 H2].
    apply gtb_true in H2.
    assert (Py.gtb rv 10.0 = true) as -> by (apply gtb_true; lra).
    rewrite H2. simpl andb. cbv iota.
    destruct (Spec.metadata (Z.min (Model2.classify_distance d + 1) 3)) as [[? ?] ?].
    destruct (Spec.metadata (Model2.classify_distance d)) as [[? ?] ?].
    reflexivity.
  - destruct (Spec.metadata (Model2.classify_distance d)) as [[l c] ac].
    destruct (Py.gtb rv 10.0 && Py.gtb a 150) eqn:E; [|reflexivity].
    apply andb_true_iff in E. destruct E as [E1 E2].
    apply gtb_true in E1, E2. exfalso. apply H. split; lra.
Qed.

Lemma classify_risk_advanced_level distance relative_velocity angle :
  Model2.risk_level (Model2.classify_risk_advanced distance relative_velocity angle)
  = if Py.gtb relative_velocity 10.0 && Py.gtb angle 150
    then Z.min (Model2.classify_distance distance + 1) 3
    else Model2.classify_distance distance.
Proof.
  unfold Model2.classify_risk_advanced.
  destruct (Model2.dict_get Model2.labels (Model2.classify_distance distance)
              (Model2.labels_at 0)) as [[? ?] ?].
  destruct (Py.gtb relative_velocity 10.0 && Py.gtb angle 150).
  - destruct (Model2.dict_get Model2.labels _ (Model2.labels_at 3)) as [[? ?] ?].
    reflexivity.
  - reflexivity.
Qed.

Lemma classify_distance_antitone d1 d2 :
  d1 <= d2 -> (Model2.classify_distance d2 <= Model2.classify_distance d1)%Z.
Proof.
  intros H. unfold Model2.classify_distance.
  cmp_cases; try lia; lra.
Qed.

(** C9.  For a fixed relative speed and approach angle the returned level
    does not increase when the distance grows, and the escalation never
    returns less than the level of the distance band. *)
Theorem classify_risk_advanced_monotone :
  forall relative_speed approach_angle d1 d2 : R,
  d1 <= d2 ->
  (Model2.risk_level (Model2.classify_risk_advanced d2 relative_speed approach_angle)
   <= Model2.risk_level (Model2.classify_risk_advanced d1 relative_speed approach_angle))%Z
  /\ (Model2.classify_distance d1
      <= Model2.risk_level (Model2.classify_risk_advanced d1 relative_speed approach_angle))%Z
  /\ (Model2.classify_distance d2
      <= Model2.risk_level (Model2.classify_risk_advanced d2 relative_speed approach_angle))%Z.
Proof.
  intros rv a d1 d2 H.
  rewrite !classify_risk_advanced_level.
  pose proof (classify_distance_antitone d1 d2 H).
  pose proof (classify_distance_range d1).
  pose proof (classify_distance_range d2).
  destruct (Py.gtb rv 10.0 && Py.gtb a 150); lia.
Qed.

Lemma classify_risk_advanced_monotone_witness :
  4 <= 30 /\
  (Model2.risk_level (Model2.classify_risk_advanced 30 11 160)
   <= Model2.risk_level (Model2.classify_risk_advanced 4 11 160))%Z.
Proof.
  split.
  - lra.
  - apply (classify_risk_advanced_monotone 11 160 4 30). lra.
Defined.

(** ** The continuous risk scorer *)

(** The literals of the source written as the stated formulas write them. *)
Ltac plain_literals :=
  cbv zeta;
  repeat match goal with
  | |- context [0.0] => replace 0.0 with 0 by lra
  | |- context [1.0] => replace 1.0 with 1 by lra
  | |- context [12.0] => replace 12.0 with 12 by lra
  | |- context [20.0] => replace 20.0 with 20 by lra
  | |- context [30.0] => replace 30.0 with 30 by lra
  | |- context [50.0] => replace 50.0 with 50 by lra
  | |- context [180.0] => replace 180.0 with 180 by lra
  | |- context [(72 * 3600)%R] => replace (72 * 3600)%R with 259200 by lra
  end.

Lemma clamp_bounds v : 0 <= Spec.clamp v 0 1 <= 1.
Proof.
  unfold Spec.clamp.
  split.
  - apply Rmax_l.
  - apply Rmax_lub; [lra | apply Rmin_l].
Qed.

Lemma predict_without_tca_distance distance rel_velocity angle altitude_diff tca_seconds :
  Model1.predict_risk_from_features distance rel_velocity angle altitude_diff
    None tca_seconds
  = Spec.probability distance rel_velocity angle altitude_diff None tca_seconds.
Proof.
  unfold Model1.predict_risk_from_features, Spec.probability, Spec.base, Spec.clamp.
  plain_literals. f_equal. f_equal. lra.
Qed.

Lemma predict_with_tca distance rel_velocity angle altitude_diff dtca t :
  Model1.predict_risk_from_features distance rel_velocity angle altitude_diff
    (Some dtca) (Some t)
  = Spec.probability distance rel_velocity angle altitude_diff (Some dtca) (Some t).
Proof.
  unfold Model1.predict_risk_from_features, Spec.probability, Spec.base,
    Spec.clamp, Spec.time_factor.
  plain_literals.
  destruct (Rle_dec 0 t) as [Ht|Ht]; cmp_cases; try lra;
    f_equal; f_equal; lra.
Qed.

Lemma predict_without_tca_time distance rel_velocity angle altitude_diff dtca :
  Model1.predict_risk_from_features distance rel_velocity angle altitude_diff
    (Some dtca) None
  = Spec.probability distance rel_velocity angle altitude_diff None None.
Proof.
  unfold Model1.predict_risk_from_features, Spec.probability, Spec.base, Spec.clamp.
  plain_literals. f_equal. f_equal. lra.
Qed.

(** The legacy interface passes the distance as closest-approach distance
    and no time: it scores on the plain base term. *)
Lemma predict_risk_legacy distance relative_velocity angle altitude :
  Model1.predict_risk distance relative_velocity angle altitude
  = Spec.probability distance relative_velocity angle 0.0 None None.
Proof. apply predict_without_tca_time. Qed.

(** Where the closest-approach distance and its time are both given, or
    the closest-approach distance is missing, the scorer returns the clamped
    sum of the stated formula. *)
Lemma predict_risk_from_features_formula :
  (forall distance rel_velocity angle altitude_diff distance_at_tca tca_seconds,
     Model1.predict_risk_from_features distance rel_velocity angle altitude_diff
       (Some distance_at_tca) (Some tca_seconds)
     = Spec.probability distance rel_velocity angle altitude_diff
         (Some distance_at_tca) (Some tca_seconds))
  /\
  (forall distance rel_velocity angle altitude_diff tca_seconds,
     Model1.predict_risk_from_features distance rel_velocity angle altitude_diff
       None tca_seconds
     = Spec.probability distance rel_velocity angle altitude_diff None tca_seconds).
Proof.
  split; intros.
  - apply predict_with_tca.
  - apply predict_without_tca_distance.
Qed.

Lemma exp_minus_one_below_half : exp (- 1) < 1 / 2.
Proof.
  replace (- 1) with (- (1)) by lra.
  rewrite exp_Ropp.
  assert (2 < exp 1) as H.
  { pose proof (exp_ineq1 1) as H. lra. }
  apply Rmult_lt_reg_r with (exp 1); [lra|].
  rewrite Rinv_l; lra.
Qed.

(** C1.  With a closest-approach distance and no closest-approach time the
    code computes the closest-approach term and then drops it: the
    assignment that takes the larger of the two terms sits under the test of
    the time.  For two objects 30 km apart with a closest approach of 0 km
    (relative speed 0, angle 0, altitude difference 50 km) the code returns
    0.7 exp(-1), below 0.35, where the stated formula gives
    0.56 exp(-0.00005), above 0.55; whatever the inputs, a closest-approach
    distance given without its time changes nothing. *)
Theorem predict_risk_from_features_drops_closest_approach :
  Model1.predict_risk_from_features 30 0 0 50 (Some 0) None = 0.7 * exp (- 1) /\
  Spec.probability 30 0 0 50 (Some 0) None = 0.56 * exp (- (0.001) / 20) /\
  Model1.predict_risk_from_features 30 0 0 50 (Some 0) None < 0.35 /\
  0.55 < Spec.probability 30 0 0 50 (Some 0) None /\
  (forall distance rel_velocity angle altitude_diff distance_at_tca,
     Model1.predict_risk_from_features distance rel_velocity angle altitude_diff
       (Some distance_at_tca) None
     = Model1.predict_risk_from_features distance rel_velocity angle altitude_diff
         None None).
Proof.
  pose proof exp_minus_one_below_half as Hlow.
  pose proof (exp_pos (- 1)) as Hpos.
  pose proof (exp_ineq1_le (- (0.001) / 20)) as Hhigh.
  assert (exp (- (0.001) / 20) <= 1) as Hone.
  { rewrite <- exp_0. apply Rlt_le, exp_increasing. lra. }
  assert (Model1.predict_risk_from_features 30 0 0 50 (Some 0) None
          = 0.7 * exp (- 1)) as Hcode.
  { rewrite predict_without_tca_time.
    unfold Spec.probability, Spec.base, Spec.clamp.
    rewrite (Rmax_left 30 0.001) by lra.
    replace (- (30) / 30) with (- 1) by lra.
    replace (Rmin (0 / 12) 1) with 0 by (rewrite Rmin_left; lra).
    replace (Rmin (50 / 50) 1) with 1 by (rewrite Rmin_left; lra).
    replace (Rmax 0 (1 - 1)) with 0 by (rewrite Rmax_left; lra).
    rewrite (Rmin_right 1) by lra.
    rewrite (Rmax_right 0) by lra.
    lra. }
  assert (Spec.probability 30 0 0 50 (Some 0) None
          = 0.56 * exp (- (0.001) / 20)) as Hclaim.
  { unfold Spec.probability, Spec.base, Spec.clamp, Spec.time_factor.
    rewrite (Rmax_left 30 0.001) by lra.
    rewrite (Rmax_right 0 0.001) by lra.
    replace (- (30) / 30) with (- 1) by lra.
    replace (Rmin (0 / 12) 1) with 0 by (rewrite Rmin_left; lra).
    replace (Rmin (50 / 50) 1) with 1 by (rewrite Rmin_left; lra).
    replace (Rmax 0 (1 - 1)) with 0 by (rewrite Rmax_left; lra).
    rewrite (Rmax_right (exp (- 1))) by lra.
    rewrite (Rmin_right 1) by lra.
    rewrite (Rmax_right 0) by lra.
    lra. }
  split; [exact Hcode|]. split; [exact Hclaim|].
  split; [rewrite Hcode; lra|]. split; [rewrite Hclaim; lra|].
  intros. rewrite predict_without_tca_time, predict_without_tca_distance.
  reflexivity.
Qed.

(** C2.  Whatever the features, the returned probability lies in [0, 1]. *)
Theorem predict_risk_from_features_range :
  forall (distance rel_velocity angle altitude_diff : R)
         (distance_at_tca tca_seconds : option R),
  0 <= Model1.predict_risk_from_features distance rel_velocity angle altitude_diff
         distance_at_tca tca_seconds <= 1.
Proof.
  intros.
  unfold Model1.predict_risk_from_features.
  cbv zeta.
  split.
  - apply Rle_trans with 0.0; [lra | apply Rmax_l].
  - apply Rmax_lub; [lra|].
    apply Rle_trans with 1.0; [apply Rmin_l | lra].
Qed.

(** ** Vectors *)

Section Vectors.
Import Np.

Lemma dot_nonneg a : 0 <= dot a a.
Proof. destruct a as [a0 a1 a2]. unfold dot; simpl. nra. Qed.

Lemma dot_sym a b : dot a b = dot b a.
Proof. unfold dot. ring. Qed.

Lemma linalg_norm_nonneg a : 0 <= linalg_norm a.
Proof. apply sqrt_pos. Qed.

Lemma linalg_norm_sqr a : linalg_norm a * linalg_norm a = dot a a.
Proof. unfold linalg_norm. apply sqrt_sqrt, dot_nonneg. Qed.

Lemma linalg_norm_sub_sym a b : linalg_norm (sub a b) = linalg_norm (sub b a).
Proof.
  unfold linalg_norm. f_equal.
  destruct a, b. unfold dot, sub; simpl. ring.
Qed.

Lemma linalg_norm_pos a : 0 < dot a a -> 0 < linalg_norm a.
Proof. intros H. unfold linalg_norm. apply sqrt_lt_R0, H. Qed.

Lemma linalg_norm_zero a : linalg_norm a = 0 -> dot a a = 0.
Proof. intros H. rewrite <- linalg_norm_sqr, H. ring. Qed.

(** Squared separation along a line: a quadratic in the time. *)
Lemma dot_add_mul r v t :
  dot (add r (mul v t)) (add r (mul v t))
  = dot r r + 2 * t * dot r v + t * t * dot v v.
Proof. destruct r, v. unfold dot, add, mul; simpl. ring. Qed.

(** Lagrange's identity, from which the Cauchy-Schwarz inequality. *)
Lemma lagrange a b :
  dot a a * dot b b - dot a b * dot a b = dot (cross a b) (cross a b).
Proof. destruct a, b. unfold dot, cross; simpl. ring. Qed.

Lemma cauchy_schwarz a b : dot a b * dot a b <= dot a a * dot b b.
Proof.
  pose proof (lagrange a b) as H.
  pose proof (dot_nonneg (cross a b)). lra.
Qed.

End Vectors.

(** ** Checked division *)

Lemma div_some a b : b <> 0 -> Py.div a b = Some (a / b).
Proof.
  intros H. unfold Py.div. destruct (Req_dec_T b 0); [contradiction | reflexivity].
Qed.

Lemma np_div_some a k :
  k <> 0 ->
  Np.div a k = Some (Np.array (Np.c0 a / k) (Np.c1 a / k) (Np.c2 a / k)).
Proof.
  intros H. unfold Np.div. rewrite !div_some by exact H. reflexivity.
Qed.

(** ** Closest approach of the feature extractor *)

Lemma time_of_closest_approach_stationary r1 v1 r2 v2 :
  Np.dot (Np.sub v2 v1) (Np.sub v2 v1) < 1e-12 ->
  PhysicsUtils.time_of_closest_approach r1 v1 r2 v2
  = Some (0.0, Np.linalg_norm (Np.add (Np.sub r2 r1) (Np.mul (Np.sub v2 v1) 0.0))).
Proof.
  intros H. unfold PhysicsUtils.time_of_closest_approach. cbv zeta.
  apply ltb_true in H. rewrite H. reflexivity.
Qed.

Lemma time_of_closest_approach_moving r1 v1 r2 v2 :
  Np.dot (Np.sub v2 v1) (Np.sub v2 v1) >= 1e-12 ->
  let tstar :=
    - (Np.dot (Np.sub r2 r1) (Np.sub v2 v1)
       / Np.dot (Np.sub v2 v1) (Np.sub v2 v1)) in
  PhysicsUtils.time_of_closest_approach r1 v1 r2 v2
  = Some (tstar, Np.linalg_norm (Np.add (Np.sub r2 r1) (Np.mul (Np.sub v2 v1) tstar))).
Proof.
  intros H tstar. unfold PhysicsUtils.time_of_closest_approach. cbv zeta.
  assert (Py.ltb (Np.dot (Np.sub v2 v1) (Np.sub v2 v1)) 1e-12 = false) as ->
    by (apply ltb_false; lra).
  rewrite div_some by lra. reflexivity.
Qed.



(** ** Closest approach of the scanner *)

Lemma sum_sq_nonneg a b c : 0 <= a ^ 2 + b ^ 2 + c ^ 2.
Proof.
  pose proof (pow2_ge_0 a). pose proof (pow2_ge_0 b). pose proof (pow2_ge_0 c).
  lra.
Qed.

Section ClosestApproach.

Variables (pos1 pos2 : VectorMath.Position) (vel1 vel2 : VectorMath.Velocity).

Let sep := Spec.separation pos1 vel1 pos2 vel2.
Let tmin := Spec.minimizer pos1 vel1 pos2 vel2.
Let speed_sq := Spec.relative_speed_sq vel1 vel2.

Lemma separation_nonneg t : 0 <= sep t.
Proof. apply sqrt_pos. Qed.

Lemma separation_now : sep 0 = VectorMath.compute_distance pos1 pos2.
Proof.
  unfold sep, Spec.separation, VectorMath.compute_distance. cbv zeta.
  f_equal. ring.
Qed.

(** The squared separation is the quadratic with its vertex at [tmin]. *)
Lemma separation_sq t :
  0 < speed_sq ->
  sep t * sep t = sep tmin * sep tmin + (t - tmin) * (t - tmin) * speed_sq.
Proof.
  intros Hpos.
  unfold sep, Spec.separation. cbv zeta.
  rewrite !sqrt_sqrt by apply sum_sq_nonneg.
  unfold tmin, Spec.minimizer, speed_sq in *. cbv zeta.
  unfold Spec.relative_speed_sq in *. cbv zeta in *.
  field. lra.
Qed.

Lemma separation_minimum t : 0 < speed_sq -> sep tmin <= sep t.
Proof.
  intros Hpos.
  pose proof (separation_sq t Hpos) as H.
  pose proof (Rle_0_sqr (t - tmin)) as Hsq. unfold Rsqr in Hsq.
  apply Rsqr_incr_0_var; [|apply separation_nonneg].
  unfold Rsqr. rewrite H.
  assert (0 <= (t - tmin) * (t - tmin) * speed_sq) by (apply Rmult_le_pos; lra).
  lra.
Qed.

Lemma separation_above_minimum t :
  0 < speed_sq -> t <> tmin -> sep tmin < sep t.
Proof.
  intros Hpos Hneq.
  pose proof (separation_sq t Hpos) as H.
  assert (0 < (t - tmin) * (t - tmin)) as Hsq.
  { apply Rsqr_pos_lt. lra. }
  apply Rsqr_incrst_0; [|apply separation_nonneg|apply separation_nonneg].
  unfold Rsqr. rewrite H.
  assert (0 < (t - tmin) * (t - tmin) * speed_sq) by (apply Rmult_lt_0_compat; lra).
  lra.
Qed.

Lemma compute_closest_approach_parallel time_window_sec :
  speed_sq < 1e-10 ->
  VectorMath.compute_closest_approach pos1 vel1 pos2 vel2 time_window_sec
  = Some (0.0, VectorMath.compute_distance pos1 pos2).
Proof.
  intros H. unfold VectorMath.compute_closest_approach. cbv zeta.
  apply ltb_true in H. unfold speed_sq, Spec.relative_speed_sq in H.
  cbv zeta in H. rewrite H. reflexivity.
Qed.

(** The time the code keeps after clamping the minimizer to the window. *)
Lemma compute_closest_approach_moving time_window_sec :
  speed_sq >= 1e-10 ->
  let t :=
    if Py.ltb tmin 0 then 0
    else if Py.gtb tmin (IZR time_window_sec) then IZR time_window_sec
         else tmin in
  VectorMath.compute_closest_approach pos1 vel1 pos2 vel2 time_window_sec
  = Some (t, sep t).
Proof.
  intros H t. unfold VectorMath.compute_closest_approach. cbv zeta.
  unfold speed_sq, Spec.relative_speed_sq in H. cbv zeta in H.
  assert (Py.ltb _ 1e-10 = false) as -> by (apply ltb_false; apply Rge_le, H).
  rewrite div_some by lra.
  cbn [Py.bind]. unfold t, sep, tmin, Spec.minimizer, Spec.relative_speed_sq,
    Spec.separation. cbv zeta.
  f_equal. f_equal. f_equal. ring.
Qed.

End ClosestApproach.

(** C10.  For a window that is not negative the scanner's routine returns a
    time inside the window and the separation at that time.  A negative
    minimizer gives time 0 and a minimizer beyond the window gives the end of
    the window; in both cases the returned distance is strictly above the
    minimum of the linear motion, which is never above the returned one. *)
Theorem compute_closest_approach_clamped :
  forall (pos1 : VectorMath.Position) (vel1 : VectorMath.Velocity)
         (pos2 : VectorMath.Position) (vel2 : VectorMath.Velocity)
         (time_window_sec : Z),
  (0 <= time_window_sec)%Z ->
  exists time_to_closest min_distance : R,
    VectorMath.compute_closest_approach pos1 vel1 pos2 vel2 time_window_sec
    = Some (time_to_closest, min_distance) /\
    0 <= time_to_closest <= IZR time_window_sec /\
    min_distance = Spec.separation pos1 vel1 pos2 vel2 time_to_closest /\
    (Spec.relative_speed_sq vel1 vel2 < 1e-10 ->
     time_to_closest = 0 /\
     min_distance = VectorMath.compute_distance pos1 pos2) /\
    (Spec.relative_speed_sq vel1 vel2 >= 1e-10 ->
     let tmin := Spec.minimizer pos1 vel1 pos2 vel2 in
     let true_minimum := Spec.separation pos1 vel1 pos2 vel2 tmin in
     (forall t, true_minimum <= Spec.separation pos1 vel1 pos2 vel2 t) /\
     (tmin < 0 -> time_to_closest = 0 /\ true_minimum < min_distance) /\
     (tmin > IZR time_window_sec ->
      time_to_closest = IZR time_window_sec /\ true_minimum < min_distance) /\
     (0 <= tmin <= IZR time_window_sec ->
      time_to_closest = tmin /\ min_distance = true_minimum)).
Proof.
  intros pos1 vel1 pos2 vel2 W HW.
  apply IZR_le in HW.
  destruct (Rlt_dec (Spec.relative_speed_sq vel1 vel2) 1e-10) as [Hs|Hm].
  - eexists. eexists.
    split; [apply compute_closest_approach_parallel; exact Hs|].
    split; [lra|].
    split.
    { rewrite <- (separation_now pos1 pos2 vel1 vel2). f_equal. lra. }
    split; [intros _; split; [lra | reflexivity]|].
    intros; lra.
  - assert (Spec.relative_speed_sq vel1 vel2 >= 1e-10) as Hge by lra.
    assert (0 < Spec.relative_speed_sq vel1 vel2) as Hpos by lra.
    eexists. eexists.
    split; [apply compute_closest_approach_moving; exact Hge|].
    set (tmin := Spec.minimizer pos1 vel1 pos2 vel2).
    split; [cmp_cases; lra|].
    split; [reflexivity|].
    split; [intros; lra|].
    intros _. cbv zeta.
    split; [intros t; apply separation_minimum; exact Hpos|].
    split; [|split].
    + intros Hneg.
      assert (Py.ltb tmin 0 = true) as -> by (apply ltb_true; exact Hneg).
      split; [reflexivity|].
      apply separation_above_minimum; [exact Hpos | fold tmin; lra].
    + intros Hbeyond.
      assert (Py.ltb tmin 0 = false) as -> by (apply ltb_false; lra).
      assert (Py.gtb tmin (IZR W) = true) as -> by (apply gtb_true; exact Hbeyond).
      split; [reflexivity|].
      apply separation_above_minimum; [exact Hpos | fold tmin; lra].
    + intros Hin.
      assert (Py.ltb tmin 0 = false) as -> by (apply ltb_false; lra).
      assert (Py.gtb tmin (IZR W) = false) as -> by (apply gtb_false; lra).
      split; reflexivity.
Qed.

(** A receding pair in the default window: the routine answers time 0 and
    the current distance, above the minimum that linear motion reached one
    second ago. *)
Lemma compute_closest_approach_clamped_witness :
  (0 <= 3600)%Z /\
  exists time_to_closest min_distance : R,
    VectorMath.compute_closest_approach
      Examples.origin Examples.at_rest Examples.one_km_away Examples.receding 3600
    = Some (time_to_closest, min_distance) /\
    time_to_closest = 0 /\
    Spec.separation Examples.origin Examples.at_rest Examples.one_km_away
      Examples.receding
      (Spec.minimizer Examples.origin Examples.at_rest Examples.one_km_away
         Examples.receding)
    < min_distance.
Proof.
  split; [lia|].
  destruct (compute_closest_approach_clamped
              Examples.origin Examples.at_rest Examples.one_km_away
              Examples.receding 3600)
    as (t & d & Hrun & _ & _ & _ & Hmoving); [lia|].
  exists t, d. split; [exact Hrun|].
  assert (Spec.relative_speed_sq Examples.at_rest Examples.receding = 1) as Hspeed.
  { unfold Spec.relative_speed_sq; simpl. lra. }
  assert (Spec.minimizer Examples.origin Examples.at_rest Examples.one_km_away
            Examples.receding = - 1) as Hmin.
  { unfold Spec.minimizer. rewrite Hspeed. simpl. lra. }
  destruct Hmoving as (_ & Hneg & _); [lra|].
  apply Hneg. lra.
Defined.

(** ** The single-burn heuristic *)

Section Unit.
Import Np.

Lemma unit_of_nonzero vec :
  linalg_norm vec <> 0 ->
  exists u, PhysicsUtils.unit vec = Some u /\ dot u u = 1.
Proof.
  intros Hn. unfold PhysicsUtils.unit. cbv zeta.
  assert (Py.eqb (linalg_norm vec) 0 = false) as -> by (apply eqb_false; exact Hn).
  rewrite np_div_some by exact Hn.
  eexists. split; [reflexivity|].
  pose proof (linalg_norm_sqr vec) as Hsq.
  unfold dot in *; simpl.
  set (n := linalg_norm vec) in *.
  field_simplify_eq; [|exact Hn]. lra.
Qed.

Lemma unit_total vec :
  exists u, PhysicsUtils.unit vec = Some u /\ 0 <= dot u u <= 1.
Proof.
  destruct (Req_dec_T (linalg_norm vec) 0) as [Hz|Hn].
  - exists zeros. unfold PhysicsUtils.unit. cbv zeta.
    apply eqb_true in Hz. rewrite Hz.
    split; [reflexivity|]. unfold dot, zeros; simpl. lra.
  - destruct (unit_of_nonzero vec Hn) as (u & Hu & H1).
    exists u. split; [exact Hu | lra].
Qed.

Lemma dot_neg u : dot (neg u) (neg u) = dot u u.
Proof. destruct u. unfold dot, neg; simpl. ring. Qed.

Lemma linalg_norm_x_axis : linalg_norm (array 1.0 0.0 0.0) = 1.
Proof.
  unfold linalg_norm, dot; simpl.
  replace (1.0 * 1.0 + 0.0 * 0.0 + 0.0 * 0.0) with 1 by lra.
  apply sqrt_1.
Qed.

(** The burn is nine parts across and one part along. *)
Lemma dot_burn p a k :
  dot (add (mul (mul p k) 0.9) (mul (mul a k) 0.1))
      (add (mul (mul p k) 0.9) (mul (mul a k) 0.1))
  = k * k * (0.81 * dot p p + 0.18 * dot p a + 0.01 * dot a a).
Proof. destruct p, a. unfold dot, add, mul; simpl. lra. Qed.

Lemma burn_nonzero p a k :
  dot p p = 1 -> 0 <= dot a a <= 1 -> 0 < k ->
  0 < linalg_norm (add (mul (mul p k) 0.9) (mul (mul a k) 0.1)).
Proof.
  intros Hp Ha Hk.
  apply linalg_norm_pos. rewrite dot_burn.
  pose proof (cauchy_schwarz p a) as Hcs. rewrite Hp in Hcs.
  assert (-1 <= dot p a) by nra.
  apply Rmult_lt_0_compat; [nra | lra].
Qed.

End Unit.

Lemma compute_angle_between_total v1 v2 :
  exists angle, PhysicsUtils.compute_angle_between v1 v2 = Some angle.
Proof.
  unfold PhysicsUtils.compute_angle_between. cbv zeta.
  destruct (Py.eqb (Np.linalg_norm v1) 0) eqn:E1;
    [eexists; reflexivity|].
  destruct (Py.eqb (Np.linalg_norm v2) 0) eqn:E2;
    [eexists; reflexivity|].
  apply eqb_false in E1, E2.
  rewrite div_some by (apply Rmult_integral_contrapositive; split; assumption).
  eexists; reflexivity.
Qed.

Lemma time_of_closest_approach_total r1 v1 r2 v2 :
  exists tca dist, PhysicsUtils.time_of_closest_approach r1 v1 r2 v2 = Some (tca, dist).
Proof.
  destruct (Rlt_dec (Np.dot (Np.sub v2 v1) (Np.sub v2 v1)) 1e-12) as [Hs|Hm].
  - eexists. eexists. apply time_of_closest_approach_stationary. exact Hs.
  - eexists. eexists. apply time_of_closest_approach_moving. lra.
Qed.

Lemma compute_physics_features_total sat deb :
  exists feats, PhysicsUtils.compute_physics_features sat deb = Some feats.
Proof.
  unfold PhysicsUtils.compute_physics_features. cbv zeta.
  match goal with
  | |- context [PhysicsUtils.compute_angle_between ?a ?b] =>
      destruct (compute_angle_between_total a b) as (angle & ->)
  end.
  match goal with
  | |- context [PhysicsUtils.time_of_closest_approach ?a ?b ?c ?d] =>
      destruct (time_of_closest_approach_total a b c d) as (tca & dist & ->)
  end.
  eexists; reflexivity.
Qed.

(** The direction chosen by the fallback chain is never degenerate. *)
Lemma perpendicular_choice_nonzero (r_rel0 v_rel : Np.Vec3) :
  Np.linalg_norm
    (if Py.ltb (Np.linalg_norm v_rel) 1e-6 then
       let perp := Np.cross r_rel0 (Np.array 0.0 0.0 1.0) in
       if Py.ltb (Np.linalg_norm perp) 1e-6 then Np.array 1.0 0.0 0.0 else perp
     else
       let perp := Np.cross v_rel r_rel0 in
       if Py.ltb (Np.linalg_norm perp) 1e-6 then
         let perp := Np.cross v_rel (Np.array 0.0 0.0 1.0) in
         if Py.ltb (Np.linalg_norm perp) 1e-6 then Np.array 1.0 0.0 0.0 else perp
       else perp) <> 0.
Proof.
  cbv zeta. pose proof linalg_norm_x_axis as Hx.
  cmp_cases; lra.
Qed.

(** ** The spatial prefilter *)

Lemma cell_floor point :
  let '(cx, cy, cz) := CollisionDetection.cell point in
  50 * IZR cx <= Py.get (VectorMath.x point) 0 < 50 * (IZR cx + 1) /\
  50 * IZR cy <= Py.get (VectorMath.y point) 0 < 50 * (IZR cy + 1) /\
  50 * IZR cz <= Py.get (VectorMath.z point) 0 < 50 * (IZR cz + 1).
Proof.
  unfold CollisionDetection.cell, CollisionDetection.cell_size.
  pose proof (Zfloor_bound (Py.get (VectorMath.x point) 0 / 50.0)).
  pose proof (Zfloor_bound (Py.get (VectorMath.y point) 0 / 50.0)).
  pose proof (Zfloor_bound (Py.get (VectorMath.z point) 0 / 50.0)).
  lra.
Qed.

Lemma candidate_debris_spec satellite debris_list debris :
  In debris (CollisionDetection.candidate_debris satellite debris_list) <->
  In debris debris_list /\
  (CollisionDetection.manhattan
     (CollisionDetection.cell (CollisionDetection.position_of satellite))
     (CollisionDetection.cell (CollisionDetection.position_of debris)) <= 1)%Z.
Proof.
  unfold CollisionDetection.candidate_debris. cbv zeta.
  rewrite filter_In, Z.leb_le. reflexivity.
Qed.

Lemma batch_collision_check_spec satellite debris_list threshold_km c :
  In c (CollisionDetection.batch_collision_check satellite debris_list threshold_km)
  <->
  exists debris,
    In debris (CollisionDetection.candidate_debris satellite debris_list) /\
    let distance :=
      VectorMath.compute_distance (CollisionDetection.position_of satellite)
        (CollisionDetection.position_of debris) in
    distance < Py.get threshold_km
                 (Settings.COLLISION_THRESHOLD_KM Settings.settings) /\
    c = CollisionDetection.mkCollision
          (CollisionDetection.id satellite) (CollisionDetection.id debris) distance
          (Py.ltb distance (Settings.HIGH_RISK_THRESHOLD_KM Settings.settings)).
Proof.
  unfold CollisionDetection.batch_collision_check. cbv zeta.
  rewrite in_flat_map.
  assert (match threshold_km with
          | Some t => t
          | None => Settings.COLLISION_THRESHOLD_KM Settings.settings
          end
          = Py.get threshold_km (Settings.COLLISION_THRESHOLD_KM Settings.settings))
    as -> by (destruct threshold_km; reflexivity).
  set (thr := Py.get threshold_km _).
  unfold CollisionDetection.detect_collision_simple. cbv zeta.
  split.
  - intros (debris & Hin & Hc). exists debris. split; [exact Hin|].
    destruct (Py.ltb _ thr) eqn:E in Hc.
    + apply ltb_true in E. destruct Hc as [<-|[]]. split; [exact E | reflexivity].
    + destruct Hc.
  - intros (debris & Hin & Hlt & ->). exists debris. split; [exact Hin|].
    apply ltb_true in Hlt. rewrite Hlt. left. reflexivity.
Qed.

Lemma corner_cells :
  CollisionDetection.cell (CollisionDetection.position_of Examples.corner_satellite)
  = (0, 0, 0)%Z /\
  CollisionDetection.cell (CollisionDetection.position_of Examples.corner_debris)
  = (1, 1, 0)%Z.
Proof.
  unfold CollisionDetection.cell, CollisionDetection.cell_size; simpl.
  rewrite (Zfloor_eq 0 (49 / 50.0)) by lra.
  rewrite (Zfloor_eq 0 (0 / 50.0)) by lra.
  rewrite (Zfloor_eq 1 (51 / 50.0)) by lra.
  split; reflexivity.
Qed.

Lemma corner_distance :
  VectorMath.compute_distance
    (CollisionDetection.position_of Examples.corner_satellite)
    (CollisionDetection.position_of Examples.corner_debris) = sqrt 8.
Proof.
  unfold VectorMath.compute_distance; simpl. f_equal. lra.
Qed.

Lemma sqrt_8_below_10 : sqrt 8 < 10.
Proof.
  replace 10 with (sqrt 100).
  - apply sqrt_lt_1_alt. lra.
  - replace 100 with (10 * 10) by lra. apply sqrt_square. lra.
Qed.

(** C8.  Each coordinate is floor-divided by the 50 km cell size; a debris
    object reaches the distance check exactly when the Manhattan distance of
    its cell to the satellite's is at most 1, and the returned list holds
    exactly the checked objects closer than the threshold.  There is a pair
    closer than the threshold (about 2.83 km against 10 km), which the exact
    check flags, in cells at Manhattan distance 2, and the returned list
    leaves it out. *)
Theorem batch_collision_check_prefilter :
  (forall point : VectorMath.Position,
     let '(cx, cy, cz) := CollisionDetection.cell point in
     50 * IZR cx <= Py.get (VectorMath.x point) 0 < 50 * (IZR cx + 1) /\
     50 * IZR cy <= Py.get (VectorMath.y point) 0 < 50 * (IZR cy + 1) /\
     50 * IZR cz <= Py.get (VectorMath.z point) 0 < 50 * (IZR cz + 1)) /\
  (forall satellite debris_list debris,
     In debris (CollisionDetection.candidate_debris satellite debris_list) <->
     In debris debris_list /\
     (CollisionDetection.manhattan
        (CollisionDetection.cell (CollisionDetection.position_of satellite))
        (CollisionDetection.cell (CollisionDetection.position_of debris)) <= 1)%Z) /\
  (forall satellite debris_list threshold_km c,
     In c (CollisionDetection.batch_collision_check satellite debris_list threshold_km)
     <->
     exists debris,
       In debris (CollisionDetection.candidate_debris satellite debris_list) /\
       let distance :=
         VectorMath.compute_distance (CollisionDetection.position_of satellite)
           (CollisionDetection.position_of debris) in
       distance < Py.get threshold_km
                    (Settings.COLLISION_THRESHOLD_KM Settings.settings) /\
       c = CollisionDetection.mkCollision
             (CollisionDetection.id satellite) (CollisionDetection.id debris) distance
             (Py.ltb distance (Settings.HIGH_RISK_THRESHOLD_KM Settings.settings))) /\
  (exists satellite debris : CollisionDetection.SpaceObject,
     VectorMath.compute_distance (CollisionDetection.position_of satellite)
       (CollisionDetection.position_of debris)
     < Settings.COLLISION_THRESHOLD_KM Settings.settings /\
     fst (CollisionDetection.detect_collision_simple
            (CollisionDetection.position_of satellite)
            (CollisionDetection.position_of debris) None) = true /\
     CollisionDetection.manhattan
       (CollisionDetection.cell (CollisionDetection.position_of satellite))
       (CollisionDetection.cell (CollisionDetection.position_of debris)) = 2%Z /\
     CollisionDetection.batch_collision_check satellite [debris] None = []).
Proof.
  split; [exact cell_floor|].
  split; [exact candidate_debris_spec|].
  split; [exact batch_collision_check_spec|].
  exists Examples.corner_satellite, Examples.corner_debris.
  destruct corner_cells as [Hs Hd].
  assert (VectorMath.compute_distance
            (CollisionDetection.position_of Examples.corner_satellite)
            (CollisionDetection.position_of Examples.corner_debris)
          < Settings.COLLISION_THRESHOLD_KM Settings.settings) as Hnear.
  { rewrite corner_distance. pose proof sqrt_8_below_10.
    unfold Settings.settings; simpl. lra. }
  split; [exact Hnear|]. split; [|split].
  - unfold CollisionDetection.detect_collision_simple. cbv zeta.
    cbn [fst]. apply ltb_true. exact Hnear.
  - rewrite Hs, Hd. reflexivity.
  - unfold CollisionDetection.batch_collision_check,
      CollisionDetection.candidate_debris. cbv zeta.
    cbn [filter]. rewrite Hs, Hd. reflexivity.
Qed.

(** ** Sorting with [reverse=True] *)

Section SortReverse.

Context {A : Type} (key : A -> Z).

Let before (a b : A) : Prop := (key a >= key b)%Z.

Lemma insert_reverse_perm a l :
  Permutation (a :: l) (Py.insert_reverse key a l).
Proof.
  induction l as [|b l IH]; simpl.
  - apply Permutation_refl.
  - destruct (key a <? key b)%Z.
    + apply perm_trans with (b :: a :: l).
      * apply perm_swap.
      * apply perm_skip, IH.
    + apply Permutation_refl.
Qed.

Lemma sort_reverse_perm l : Permutation l (Py.sort_reverse key l).
Proof.
  induction l as [|a l IH]; simpl.
  - apply perm_nil.
  - apply perm_trans with (a :: Py.sort_reverse key l).
    + apply perm_skip, IH.
    + apply insert_reverse_perm.
Qed.

Lemma insert_reverse_sorted a l :
  StronglySorted before l -> StronglySorted before (Py.insert_reverse key a l).
Proof.
  induction l as [|b l IH]; simpl; intros Hs.
  - constructor; [constructor | constructor].
  - apply StronglySorted_inv in Hs. destruct Hs as [Hl Hb].
    destruct (key a <? key b)%Z eqn:E.
    + apply Z.ltb_lt in E.
      constructor; [apply IH, Hl|].
      apply Forall_forall. intros c Hc.
      apply (Permutation_in _ (Permutation_sym (insert_reverse_perm a l))) in Hc.
      destruct Hc as [<-|Hc].
      * unfold before. lia.
      * rewrite Forall_forall in Hb. apply Hb, Hc.
    + apply Z.ltb_ge in E.
      constructor; [constructor; assumption|].
      constructor; [unfold before; lia|].
      apply Forall_forall. intros c Hc.
      rewrite Forall_forall in Hb. specialize (Hb c Hc).
      unfold before in *. lia.
Qed.

Lemma sort_reverse_sorted l : StronglySorted before (Py.sort_reverse key l).
Proof.
  induction l as [|a l IH]; simpl.
  - constructor.
  - apply insert_reverse_sorted, IH.
Qed.

(** Stability: the elements of one key keep the order they came in. *)
Lemma insert_reverse_stable k a l :
  StronglySorted before l ->
  filter (fun e => (key e =? k)%Z) (Py.insert_reverse key a l)
  = filter (fun e => (key e =? k)%Z) (a :: l).
Proof.
  induction l as [|b l IH]; intros Hs; [reflexivity|].
  apply StronglySorted_inv in Hs. destruct Hs as [Hl Hb].
  cbn [Py.insert_reverse].
  destruct (key a <? key b)%Z eqn:E; [|reflexivity].
  apply Z.ltb_lt in E.
  cbn [filter]. rewrite (IH Hl). cbn [filter].
  destruct (key a =? k)%Z eqn:Ea; destruct (key b =? k)%Z eqn:Eb;
    try reflexivity.
  apply Z.eqb_eq in Ea, Eb. lia.
Qed.

Lemma sort_reverse_stable k l :
  filter (fun e => (key e =? k)%Z) (Py.sort_reverse key l)
  = filter (fun e => (key e =? k)%Z) l.
Proof.
  induction l as [|a l IH]; [reflexivity|].
  cbn [Py.sort_reverse fold_right].
  change (fold_right (Py.insert_reverse key) [] l) with (Py.sort_reverse key l).
  rewrite insert_reverse_stable by apply sort_reverse_sorted.
  cbn [filter]. rewrite IH. reflexivity.
Qed.

End SortReverse.

(** ** The sort statement of the scan *)

(** [sort(key=lambda x: x["risk_level"], reverse=True)] on any list of
    events: the result holds the same events, in descending order of risk
    level; events of one level stay in the order given. *)
Lemma sort_by_risk_level :
  forall collision_events : list CollisionService.Event,
  Permutation collision_events
    (Py.sort_reverse CollisionService.risk_level collision_events) /\
  StronglySorted Spec.level_before
    (Py.sort_reverse CollisionService.risk_level collision_events) /\
  (forall level : Z,
     Spec.of_level level (Py.sort_reverse CollisionService.risk_level collision_events)
     = Spec.of_level level collision_events).
Proof.
  intros l.
  split; [apply sort_reverse_perm|].
  split; [apply sort_reverse_sorted|].
  intros k. apply sort_reverse_stable.
Qed.

(** ** Rounding *)

Lemma round_half_even_floor x : (Zfloor x <= Py.round_half_even x)%Z.
Proof.
  unfold Py.round_half_even. cbv zeta.
  destruct (Rlt_dec _ _); [lia|].
  destruct (Rgt_dec _ _); [lia|].
  destruct (Z.even _); lia.
Qed.

Lemma round_half_even_integer (z : Z) : Py.round_half_even (IZR z) = z.
Proof.
  unfold Py.round_half_even. cbv zeta. rewrite ZfloorZ.
  destruct (Rlt_dec _ _) as [_|H]; [reflexivity | lra].
Qed.

(** Away from a tie, rounding is the floor of the double less the floor. *)
Lemma round_half_even_no_tie x :
  x - IZR (Zfloor x) <> 1 / 2 ->
  Py.round_half_even x = (Zfloor (2 * x) - Zfloor x)%Z.
Proof.
  intros Htie. unfold Py.round_half_even. cbv zeta.
  pose proof (Zfloor_bound x) as Hb.
  destruct (Rlt_dec (x - IZR (Zfloor x)) (1 / 2)) as [Hlow|Hhigh].
  - rewrite (Zfloor_eq (2 * Zfloor x) (2 * x)); [lia|].
    rewrite mult_IZR. lra.
  - destruct (Rgt_dec (x - IZR (Zfloor x)) (1 / 2)) as [Hgt|Hle]; [|lra].
    rewrite (Zfloor_eq (2 * Zfloor x + 1) (2 * x)); [lia|].
    rewrite plus_IZR, mult_IZR. lra.
Qed.

(** ** Sums *)

Lemma py_sum_fold_right l : Py.sum l = fold_right Rplus 0 l.
Proof.
  unfold Py.sum. apply fold_symmetric; intros; ring.
Qed.

Lemma py_sum_cons a l : Py.sum (a :: l) = a + Py.sum l.
Proof. rewrite !py_sum_fold_right. reflexivity. Qed.

Lemma py_sum_nil : Py.sum [] = 0.
Proof. reflexivity. Qed.

Lemma py_sum_map_scale {A : Type} (f : A -> R) (k : R) (l : list A) :
  Py.sum (map (fun a => f a * k) l) = Py.sum (map f l) * k.
Proof.
  induction l as [|a l IH]; cbn [map].
  - rewrite py_sum_nil. ring.
  - rewrite !py_sum_cons, IH. ring.
Qed.

Lemma py_sum_map_ext {A : Type} (f g : A -> R) (l : list A) :
  (forall a, In a l -> f a = g a) ->
  Py.sum (map f l) = Py.sum (map g l).
Proof.
  intros H. f_equal. apply map_ext_in, H.
Qed.

(** The geometric factors, from any starting exponent. *)
Lemma geometric_sum a n :
  Py.sum (map (fun i => (/ 2) ^ i) (seq a n)) = 2 * (/ 2) ^ a * (1 - (/ 2) ^ n).
Proof.
  revert a. induction n as [|n IH]; intros a; cbn [seq map].
  - rewrite py_sum_nil. simpl. ring.
  - rewrite py_sum_cons, IH. simpl. field.
Qed.

Lemma half_pow_bounds n : 0 < (/ 2) ^ n <= 1.
Proof.
  induction n as [|n IH]; simpl; lra.
Qed.

Lemma half_pow_succ_bounds n : 0 < (/ 2) ^ S n <= / 2.
Proof.
  pose proof (half_pow_bounds n). simpl. lra.
Qed.

(** Rounded halvings telescope. *)
Lemma rounded_halvings c n a :
  (forall i, (i < n)%nat ->
     c * (/ 2) ^ (a + i) - IZR (Zfloor (c * (/ 2) ^ (a + i))) <> 1 / 2) ->
  Py.sum (map (fun i => IZR (Py.round_half_even (c * (/ 2) ^ i))) (seq a n))
  = IZR (Zfloor (2 * (c * (/ 2) ^ a)) - Zfloor (2 * (c * (/ 2) ^ (a + n)))).
Proof.
  revert a. induction n as [|n IH]; intros a Htie; cbn [seq map].
  - rewrite py_sum_nil, Nat.add_0_r, Z.sub_diag. reflexivity.
  - rewrite py_sum_cons, IH.
    + rewrite round_half_even_no_tie.
      * rewrite <- plus_IZR. f_equal.
        replace (2 * (c * (/ 2) ^ S a)) with (c * (/ 2) ^ a) by (simpl; field).
        replace (S a + n)%nat with (a + S n)%nat by lia.
        lia.
      * specialize (Htie 0%nat). rewrite Nat.add_0_r in Htie. apply Htie. lia.
    + intros i Hi. replace (S a + i)%nat with (a + S i)%nat by lia.
      apply Htie. lia.
Qed.

Lemma half_pow_two_pow n : (/ 2) ^ n * 2 ^ n = 1.
Proof.
  induction n as [|n IH]; simpl; [lra|].
  replace (/ 2 * (/ 2) ^ n * (2 * 2 ^ n)) with ((/ 2) ^ n * 2 ^ n) by field.
  exact IH.
Qed.

(** An odd number times an odd number is not an even number. *)
Lemma odd_product_not_even (t f a b : Z) :
  (t * (2 * a) = (2 * f + 1) * (2 * b - 1))%Z -> False.
Proof. intros H. lia. Qed.

(** No share of a whole number of hundredths falls on a rounding tie. *)
Lemma geometric_share_no_tie (T : Z) (n i : nat) :
  (i < n)%nat ->
  let c := IZR T / (2 * (1 - (/ 2) ^ n)) in
  c * (/ 2) ^ i - IZR (Zfloor (c * (/ 2) ^ i)) <> 1 / 2.
Proof.
  intros Hi c Htie.
  set (f := Zfloor (c * (/ 2) ^ i)) in *.
  assert (exists k, n = (i + S k)%nat) as (k & ->) by (exists (n - S i)%nat; lia).
  pose proof (half_pow_succ_bounds (i + k)) as Hp.
  replace (S (i + k)) with (i + S k)%nat in Hp by lia.
  pose proof (half_pow_two_pow i) as Hpi.
  pose proof (half_pow_two_pow (S k)) as Hpk.
  assert ((/ 2) ^ (i + S k) = (/ 2) ^ i * (/ 2) ^ S k) as Hsplit
    by apply pow_add.
  set (hi := (/ 2) ^ i) in *. set (hk := (/ 2) ^ S k) in *.
  set (hn := (/ 2) ^ (i + S k)) in *.
  assert (IZR T * hi = (2 * IZR f + 1) * (1 - hi * hk)) as E1.
  { replace (IZR T * hi) with ((c * hi) * (2 * (1 - hn)))
      by (unfold c; field; lra).
    replace (c * hi) with (IZR f + 1 / 2) by lra.
    rewrite Hsplit. field. }
  assert (IZR T * 2 ^ S k = (2 * IZR f + 1) * (2 ^ i * 2 ^ S k - 1)) as E2.
  { replace (IZR T * 2 ^ S k) with ((IZR T * hi) * 2 ^ i * 2 ^ S k).
    - rewrite E1.
      replace ((2 * IZR f + 1) * (1 - hi * hk) * 2 ^ i * 2 ^ S k)
        with ((2 * IZR f + 1) * (2 ^ i * 2 ^ S k - (hi * 2 ^ i) * (hk * 2 ^ S k)))
        by ring.
      rewrite Hpi, Hpk. ring.
    - replace (IZR T * hi * 2 ^ i * 2 ^ S k)
        with (IZR T * (hi * 2 ^ i) * 2 ^ S k) by ring.
      rewrite Hpi. ring. }
  rewrite <- pow_add in E2.
  replace (i + S k)%nat with (S (i + k)) in E2 by lia.
  rewrite !pow_IZR in E2.
  rewrite <- !mult_IZR, <- plus_IZR, <- minus_IZR, <- mult_IZR in E2.
  apply eq_IZR in E2.
  rewrite !Nat2Z.inj_succ, !Z.pow_succ_r in E2 by lia.
  apply (odd_product_not_even _ _ _ _ E2).
Qed.

(** The rounded geometric shares of [T] hundredths add up to [T]. *)
Lemma rounded_shares_sum (T : Z) (n : nat) :
  (1 <= n)%nat ->
  let c := IZR T / (2 * (1 - (/ 2) ^ n)) in
  Py.sum (map (fun i => IZR (Py.round_half_even (c * (/ 2) ^ i))) (seq 0 n))
  = IZR T.
Proof.
  intros Hn c.
  rewrite rounded_halvings
    by (intros i Hi; apply (geometric_share_no_tie T n i Hi)).
  f_equal. cbn [Nat.add].
  destruct n as [|m]; [lia|].
  pose proof (half_pow_succ_bounds m) as Hp.
  set (p := (/ 2) ^ S m) in *.
  replace (2 * (c * (/ 2) ^ 0)) with (2 * (c * p) + IZR T)
    by (unfold c; simpl; field; lra).
  rewrite Zfloor_addz. lia.
Qed.

(** ** The multi-burn plan *)

Lemma for_each_some {A : Type} (f : nat -> A) body indices :
  (forall i, In i indices -> body i = Some (f i)) ->
  RlManeuverAgent.for_each indices body = Some (map f indices).
Proof.
  induction indices as [|i rest IH]; intros H; cbn [RlManeuverAgent.for_each map].
  - reflexivity.
  - rewrite (H i) by (left; reflexivity). cbn [Py.bind].
    rewrite IH by (intros j Hj; apply H; right; exact Hj).
    reflexivity.
Qed.

Lemma nth_map_seq (f : nat -> R) n i d :
  (i < n)%nat -> nth i (map f (seq 0 n)) d = f i.
Proof.
  intros Hi.
  rewrite (nth_indep _ d (f 0%nat)) by (rewrite length_map, length_seq; exact Hi).
  rewrite map_nth, seq_nth by exact Hi. reflexivity.
Qed.

Lemma round_hundredths x :
  Py.round x 2 = IZR (Py.round_half_even (x * 100)) / 100.
Proof.
  unfold Py.round. replace (10 ^ 2) with 100 by (simpl; lra). reflexivity.
Qed.

(** The single-burn baseline is a whole number of hundredths, at least 15. *)
Lemma baseline_hundredths satellite_state :
  exists T : Z,
    (1500 <= T)%Z /\
    RlManeuverAgent.delta_v_mps
      (RlManeuverAgent._compute_basic_maneuver satellite_state) = IZR T / 100.
Proof.
  unfold RlManeuverAgent._compute_basic_maneuver,
    RlManeuverAgent.suggest_maneuver_legacy. cbv zeta.
  cbn [RlManeuverAgent.delta_v_mps RlManeuverAgent.delta_v].
  rewrite round_hundredths.
  eexists. split; [|reflexivity].
  eapply Z.le_trans; [|apply round_half_even_floor].
  apply Zfloor_lub.
  set (urgency := Rmax 0.0 _).
  assert (0 <= urgency) by (apply Rle_trans with 0.0; [lra | apply Rmax_l]).
  lra.
Qed.

Lemma factors_sum n :
  Py.sum (map (fun i => 0.5 ^ i) (seq 0 n)) = 2 * (1 - (/ 2) ^ n).
Proof.
  replace 0.5 with (/ 2) by lra.
  rewrite geometric_sum. simpl. ring.
Qed.

Lemma factors_sum_positive n :
  (1 <= n)%nat -> 1 <= Py.sum (map (fun i => 0.5 ^ i) (seq 0 n)).
Proof.
  intros Hn. rewrite factors_sum.
  destruct n as [|m]; [lia|].
  pose proof (half_pow_succ_bounds m). lra.
Qed.

Section MultiBurn.

Variables (satellite_state : RlManeuverAgent.SatelliteState) (n : nat).
Hypothesis n_positive : (1 <= n)%nat.

Let base := RlManeuverAgent._compute_basic_maneuver satellite_state.
Let total_dv := RlManeuverAgent.delta_v_mps base.
Let factors := map (fun i => 0.5 ^ i) (seq 0 n).

Lemma weights_sum :
  Py.sum (map (fun i => 0.5 ^ i / Py.sum factors) (seq 0 n)) = 1.
Proof.
  pose proof (factors_sum_positive n n_positive) as HS. fold factors in HS.
  unfold Rdiv.
  rewrite (py_sum_map_scale (fun i => 0.5 ^ i) (/ Py.sum factors)).
  fold factors. field. lra.
Qed.

Lemma burn_of_index i :
  (i < n)%nat ->
  let scale := total_dv / Py.sum factors in
  let dv := nth i factors 0 * scale in
  (let? share := Py.div dv total_dv in
   Some (RlManeuverAgent.mkManeuver
           (Py.round dv 2)
           (RlManeuverAgent.direction_vector base)
           (Py.round (RlManeuverAgent.burn_duration_s base * share) 2)
           (Py.round (RlManeuverAgent.fuel_cost_kg base * share) 3)
           (Py.round (RlManeuverAgent.safety_margin_km base * share) 2)))
  = Some (Spec.share base (0.5 ^ i / Py.sum factors)).
Proof.
  intros Hi scale dv.
  pose proof (factors_sum_positive n n_positive) as HS. fold factors in HS.
  destruct (baseline_hundredths satellite_state) as (T & HT & Hbase).
  fold base in Hbase. fold total_dv in Hbase.
  apply IZR_le in HT.
  assert (total_dv <> 0) as Hnz by lra.
  rewrite div_some by exact Hnz. cbn [Py.bind].
  unfold dv, scale, factors. rewrite nth_map_seq by exact Hi. fold factors.
  assert (0.5 ^ i * (total_dv / Py.sum factors) / total_dv
          = 0.5 ^ i / Py.sum factors) as -> by (field; lra).
  unfold Spec.share. fold total_dv.
  replace (total_dv * (0.5 ^ i / Py.sum factors))
    with (0.5 ^ i * (total_dv / Py.sum factors)) by (field; lra).
  reflexivity.
Qed.

Lemma rounded_burns_sum :
  Py.sum (map (fun i => Py.round (total_dv * (0.5 ^ i / Py.sum factors)) 2)
            (seq 0 n))
  = total_dv.
Proof.
  pose proof (factors_sum_positive n n_positive) as HS. fold factors in HS.
  destruct (baseline_hundredths satellite_state) as (T & HT & Hbase).
  fold base in Hbase. fold total_dv in Hbase.
  pose proof (factors_sum n) as Hsum. fold factors in Hsum.
  rewrite (py_sum_map_ext _
             (fun i => IZR (Py.round_half_even
                              (IZR T / (2 * (1 - (/ 2) ^ n)) * (/ 2) ^ i)) * / 100)).
  - rewrite (py_sum_map_scale
               (fun i => IZR (Py.round_half_even
                                (IZR T / (2 * (1 - (/ 2) ^ n)) * (/ 2) ^ i)))).
    rewrite (rounded_shares_sum T n n_positive). rewrite Hbase. reflexivity.
  - intros i _. rewrite round_hundredths. unfold Rdiv at 1. f_equal. f_equal. f_equal.
    rewrite Hbase, Hsum.
    replace 0.5 with (/ 2) by lra.
    field. lra.
Qed.

End MultiBurn.

Lemma suggest_multi_burn_maneuver_shares satellite_state num_burns :
  (1 <= num_burns)%Z ->
  RlManeuverAgent.suggest_multi_burn_maneuver satellite_state num_burns
  = Some (map (fun i =>
                 Spec.share (RlManeuverAgent.suggest_maneuver satellite_state)
                   (Spec.weight num_burns i))
            (RlManeuverAgent.range num_burns)).
Proof.
  intros Hnb.
  assert (1 <= Z.to_nat num_burns)%nat as Hn by lia.
  pose proof (factors_sum_positive _ Hn) as HS.
  unfold RlManeuverAgent.suggest_multi_burn_maneuver. cbv zeta.
  unfold RlManeuverAgent.range.
  rewrite div_some by lra. cbn [Py.bind].
  apply for_each_some. intros i Hi. apply in_seq in Hi.
  apply (burn_of_index satellite_state (Z.to_nat num_burns) Hn i). lia.
Qed.

Lemma shares_delta_v_sum satellite_state num_burns :
  (1 <= num_burns)%Z ->
  Py.sum (map RlManeuverAgent.delta_v_mps
            (map (fun i =>
                    Spec.share (RlManeuverAgent.suggest_maneuver satellite_state)
                      (Spec.weight num_burns i))
               (RlManeuverAgent.range num_burns)))
  = RlManeuverAgent.delta_v_mps (RlManeuverAgent.suggest_maneuver satellite_state).
Proof.
  intros Hnb.
  assert (1 <= Z.to_nat num_burns)%nat as Hn by lia.
  rewrite map_map. cbn [Spec.share RlManeuverAgent.delta_v_mps].
  apply (rounded_burns_sum satellite_state (Z.to_nat num_burns) Hn).
Qed.

(** ** The multi-burn plan in binary64 *)

(** C6 (as stated) fails in binary64.  For a threat 14.996 km away the
    baseline is 15.01 m/s.  With 54 burns the sum of the factors rounds to
    2.0, the burns are 7.5, 3.75, 1.88, 0.94, 0.47, 0.23, 0.12, 0.06, 0.03,
    0.01, 0.01 and 43 times 0, and they total 15.00 m/s: off by more than
    1e-6 of the baseline. *)
Lemma suggest_multi_burn_maneuver_sum_counterexample :
  exists burns : list PrimFloat.float,
    Binary64.suggest_multi_burn_maneuver_delta_v_mps Binary64.near_the_threshold 54
    = Some burns /\
    Binary64.baseline_delta_v_mps Binary64.near_the_threshold
    = PrimFloat.div (Binary64.of_Z 1501) (Binary64.of_Z 100) /\
    Binary64.sum (map Binary64.half_pow (RlManeuverAgent.range 54))
    = Binary64.of_Z 2 /\
    firstn 12 burns
    = map (fun hundredths =>
             PrimFloat.div (Binary64.of_Z hundredths) (Binary64.of_Z 100))
        [750; 375; 188; 94; 47; 23; 12; 6; 3; 1; 1; 0]%Z /\
    Binary64.within_tolerance burns
      (Binary64.baseline_delta_v_mps Binary64.near_the_threshold) = false.
Proof.
  eexists. split; [vm_compute; reflexivity|].
  repeat split; vm_compute; reflexivity.
Qed.

(** *** The checks behind the binary64 plan *)

Section Binary64Checks.
Import Uint63 PrimFloat.

(** Every baseline from 15.00 to 52.50 m/s with every burn count from 1
    to 53. *)
Lemma every_split_checked :
  forallb (fun n =>
             let factors := map Binary64.half_pow (seq 0 n) in
             let s := Binary64.sum factors in
             negb (s =? 0)%float
             && forallb (Binary64.split_checked factors s) (Binary64.zseq 1500 3751))
    (seq 1 53) = true.
Proof. vm_compute. reflexivity. Qed.

(** The rounding on 63-bit integers agrees with the rounding on the exact
    value on every multiple of 1/128 below 64, to two and to three
    decimals. *)
Lemma round_agrees_with_round_by_value :
  forall v : PrimFloat.float,
  In v Binary64.dyadic_samples ->
  Binary64.round v 2 = Binary64.round_by_value v 2 /\
  Binary64.round v 3 = Binary64.round_by_value v 3.
Proof.
  assert (forallb
            (fun v =>
               PrimFloat.Leibniz.eqb (Binary64.round v 2) (Binary64.round_by_value v 2)
               && PrimFloat.Leibniz.eqb (Binary64.round v 3) (Binary64.round_by_value v 3))
            Binary64.dyadic_samples = true) as Hall
    by (vm_compute; reflexivity).
  rewrite forallb_forall in Hall.
  intros v Hv. specialize (Hall v Hv).
  apply andb_true_iff in Hall. destruct Hall as [H2 H3].
  split; apply FloatAxioms.Leibniz.eqb_spec; assumption.
Qed.

Lemma zseq_in (T start : Z) (count : nat) :
  (start <= T < start + Z.of_nat count)%Z -> In T (Binary64.zseq start count).
Proof.
  revert start. induction count as [|c IH]; intros start H; [lia|].
  cbn [Binary64.zseq].
  destruct (Z.eq_dec start T) as [->|Hne]; [left; reflexivity|].
  right. apply IH. lia.
Qed.

Lemma split_checked_of (T : Z) (n : nat) :
  (1500 <= T <= 5250)%Z -> (1 <= n <= 53)%nat ->
  let factors := map Binary64.half_pow (seq 0 n) in
  PrimFloat.eqb (Binary64.sum factors) 0%float = false /\
  Binary64.split_checked factors (Binary64.sum factors) T = true.
Proof.
  intros HT Hn factors.
  pose proof every_split_checked as Hall.
  rewrite forallb_forall in Hall.
  specialize (Hall n). cbv zeta in Hall.
  assert (In n (seq 1 53)) as Hin by (apply in_seq; lia).
  specialize (Hall Hin).
  apply andb_true_iff in Hall. destruct Hall as [Hs Hall].
  split; [apply negb_true_iff; exact Hs|].
  rewrite forallb_forall in Hall. apply Hall.
  apply zseq_in. lia.
Qed.

Lemma of_uint63_hundredths (k : Uint63.int) :
  PrimFloat.div (PrimFloat.of_uint63 k) 100%float
  = Binary64.hundredths (Uint63.to_Z k).
Proof.
  unfold Binary64.hundredths, Binary64.of_Z.
  pose proof (Uint63.to_Z_bounded k) as Hk.
  destruct (Z.ltb_spec (Uint63.to_Z k) 0) as [Hneg|_]; [lia|].
  rewrite Uint63.of_to_Z. reflexivity.
Qed.

Lemma uint63_sum (units : list Uint63.int) :
  (Z.of_nat (Datatypes.length units) <= 1000)%Z ->
  Forall (fun k => (Uint63.to_Z k <= 5250)%Z) units ->
  Uint63.to_Z (fold_right Uint63.add 0%uint63 units)
  = fold_right Z.add 0%Z (map Uint63.to_Z units) /\
  (fold_right Z.add 0%Z (map Uint63.to_Z units)
   <= 5250 * Z.of_nat (Datatypes.length units))%Z.
Proof.
  induction units as [|k rest IH]; intros Hlen Hall.
  - cbn. split; [reflexivity | lia].
  - apply Forall_cons_iff in Hall. destruct Hall as [Hk Hrest].
    cbn [Datatypes.length] in Hlen.
    destruct IH as [IHsum IHle]; [lia | exact Hrest |].
    cbn [fold_right map Datatypes.length].
    pose proof (Uint63.to_Z_bounded k) as Hk0.
    assert (0 <= fold_right Z.add 0 (map Uint63.to_Z rest))%Z as Hnonneg.
    { rewrite <- IHsum. apply Uint63.to_Z_bounded. }
    rewrite Uint63.add_spec, IHsum.
    assert (Uint63.wB = 9223372036854775808)%Z as HwB by reflexivity.
    rewrite Z.mod_small by lia.
    split; [reflexivity | lia].
Qed.

Lemma map_nth_seq (factors : list PrimFloat.float) (f : PrimFloat.float -> PrimFloat.float) d :
  map (fun i => f (nth i factors d)) (seq 0 (Datatypes.length factors))
  = map f factors.
Proof.
  induction factors as [|a rest IH]; [reflexivity|].
  cbn [Datatypes.length seq map nth]. f_equal.
  rewrite <- seq_shift, map_map. exact IH.
Qed.

End Binary64Checks.

(** *** The burns of the binary64 plan *)

Section Binary64Plan.
Import Uint63 PrimFloat.

(** The burn of index [i] in a plan of [n] burns from the baseline [base]. *)
Lemma suggest_multi_burn_maneuver_value exp satellite_state base (n : nat) :
  Binary64._compute_basic_maneuver exp satellite_state = Some base ->
  PrimFloat.eqb (Binary64.sum (map Binary64.half_pow (seq 0 n))) 0%float = false ->
  PrimFloat.eqb (Binary64.delta_v_mps base) 0%float = false ->
  let total_dv := Binary64.delta_v_mps base in
  let scale := PrimFloat.div total_dv (Binary64.sum (map Binary64.half_pow (seq 0 n))) in
  let dv i := PrimFloat.mul (Binary64.half_pow i) scale in
  Binary64.suggest_multi_burn_maneuver exp satellite_state (Z.of_nat n)
  = Some (map (fun i =>
                 Binary64.mkManeuver
                   (Binary64.round (dv i) 2)
                   (Binary64.direction_vector base)
                   (Binary64.round
                      (PrimFloat.mul (Binary64.burn_duration_s base)
                         (PrimFloat.div (dv i) total_dv)) 2)
                   (Binary64.round
                      (PrimFloat.mul (Binary64.fuel_cost_kg base)
                         (PrimFloat.div (dv i) total_dv)) 3)
                   (Binary64.round
                      (PrimFloat.mul (Binary64.safety_margin_km base)
                         (PrimFloat.div (dv i) total_dv)) 2))
            (seq 0 n)).
Proof.
  intros Hbase Hs Htotal total_dv scale dv.
  unfold Binary64.suggest_multi_burn_maneuver.
  rewrite Hbase. cbn [Py.bind]. cbv zeta.
  unfold RlManeuverAgent.range. rewrite Nat2Z.id.
  unfold Binary64.true_div at 1. rewrite Hs. cbn [Py.bind].
  apply for_each_some. intros i Hi. apply in_seq in Hi.
  unfold Binary64.true_div. rewrite Htotal. cbn [Py.bind].
  assert (nth i (map Binary64.half_pow (seq 0 n)) 0%float = Binary64.half_pow i)
    as ->.
  { rewrite (nth_indep _ 0%float (Binary64.half_pow 0))
      by (rewrite length_map, length_seq; lia).
    rewrite map_nth, seq_nth by lia. reflexivity. }
  reflexivity.
Qed.

Lemma split_checked_parts (factors : list float) (s : float) (T : Z) :
  Binary64.split_checked factors s T = true ->
  let total := Binary64.hundredths T in
  let scale := (total / s)%float in
  let dvs := map (fun f => (f * scale)%float) factors in
  let units := map (fun dv => Binary64.nearest dv 2) dvs in
  (total =? 0)%float = false /\
  (forall dv, In dv dvs ->
     Binary64.round dv 2 = Binary64.hundredths (Uint63.to_Z (Binary64.nearest dv 2))) /\
  Forall (fun k => (Uint63.to_Z k <= 5250)%Z) units /\
  Uint63.to_Z (fold_right Uint63.add 0%uint63 units) = (T mod Uint63.wB)%Z /\
  Binary64.close (Binary64.sum (map (fun dv => Binary64.round dv 2) dvs)) total = true /\
  Binary64.close (Binary64.sum dvs) total = true.
Proof.
  intros H total scale dvs units.
  unfold Binary64.split_checked in H. cbv zeta in H.
  fold total in H. fold scale in H. fold dvs in H. fold units in H.
  apply andb_true_iff in H. destruct H as [H Hshares].
  apply andb_true_iff in H. destruct H as [H Hclose].
  apply andb_true_iff in H. destruct H as [H Hsum].
  apply andb_true_iff in H. destruct H as [H Hle].
  apply andb_true_iff in H. destruct H as [Htotal Hround].
  split; [apply negb_true_iff; exact Htotal|].
  split.
  { intros dv Hdv.
    rewrite forallb_forall in Hround. specialize (Hround dv Hdv).
    apply FloatAxioms.Leibniz.eqb_spec in Hround. rewrite Hround.
    apply of_uint63_hundredths. }
  split.
  { apply Forall_forall. intros k Hk.
    rewrite forallb_forall in Hle. specialize (Hle k Hk).
    apply Uint63.leb_spec in Hle. exact Hle. }
  split.
  { apply Uint63.eqb_spec in Hsum. rewrite Hsum.
    apply Uint63.of_Z_spec. }
  split; assumption.
Qed.

(** C6 (as amended).  In binary64, for every satellite state for which
    [suggest_maneuver] returns a baseline of a whole number of hundredths
    from 15.00 to 52.50 m/s, and for every burn count from 1 to 53, the
    planner returns one burn per index.  Burn [i] has the delta-v
    [dv = 0.5^i * scale] rounded to two decimals, where [scale] is the
    baseline delta-v divided by the sum of the weights 0.5^0, 0.5^1, ...;
    its duration, fuel cost and safety margin are the baseline's, multiplied
    by the share [dv / baseline] and rounded; its direction is the
    baseline's.  The rounded delta-v values are whole hundredths that add up
    to the hundredths of the baseline exactly; their binary64 sum, and the
    sum of the unrounded shares, are within the relative tolerance 1e-6 of
    the baseline delta-v. *)
Theorem suggest_multi_burn_maneuver_sum :
  forall (exp : float -> float) (satellite_state : Binary64.SatelliteState)
         (base : Binary64.Maneuver) (T : Z) (n : nat),
  Binary64.suggest_maneuver exp satellite_state = Some base ->
  (1500 <= T <= 5250)%Z ->
  Binary64.delta_v_mps base = Binary64.hundredths T ->
  (1 <= n <= 53)%nat ->
  let total_dv := Binary64.delta_v_mps base in
  let scale :=
    (total_dv / Binary64.sum (map Binary64.half_pow (seq 0 n)))%float in
  let dv (i : nat) := (Binary64.half_pow i * scale)%float in
  exists (burns : list Binary64.Maneuver) (units : list Z),
    Binary64.suggest_multi_burn_maneuver exp satellite_state (Z.of_nat n)
    = Some burns /\
    burns
    = map (fun i =>
             Binary64.mkManeuver
               (Binary64.round (dv i) 2)
               (Binary64.direction_vector base)
               (Binary64.round
                  (Binary64.burn_duration_s base * (dv i / total_dv))%float 2)
               (Binary64.round
                  (Binary64.fuel_cost_kg base * (dv i / total_dv))%float 3)
               (Binary64.round
                  (Binary64.safety_margin_km base * (dv i / total_dv))%float 2))
        (seq 0 n) /\
    Datatypes.length burns = n /\
    map Binary64.delta_v_mps burns = map Binary64.hundredths units /\
    Forall (fun k => (0 <= k <= 5250)%Z) units /\
    fold_right Z.add 0%Z units = T /\
    Binary64.close (Binary64.sum (map Binary64.delta_v_mps burns)) total_dv
    = true /\
    Binary64.close (Binary64.sum (map dv (seq 0 n))) total_dv = true.
Proof.
  intros exp st base T n Hbase HT Hdv Hn total_dv scale dv.
  destruct (split_checked_of T n HT Hn) as [Hs Hchk]. cbv zeta in Hs, Hchk.
  apply split_checked_parts in Hchk. cbv zeta in Hchk.
  destruct Hchk as (Htotal & Hround & Hle & Hsum & Hclose & Hshares).
  assert (total_dv = Binary64.hundredths T) as Htot by exact Hdv.
  assert (map (fun f => (f * (Binary64.hundredths T
                                / Binary64.sum (map Binary64.half_pow (seq 0 n))))%float)
            (map Binary64.half_pow (seq 0 n))
          = map dv (seq 0 n)) as Hdvs.
  { rewrite map_map. apply map_ext. intros i. unfold dv, scale.
    rewrite Htot. reflexivity. }
  rewrite Hdvs in Hround, Hle, Hsum, Hclose, Hshares.
  rewrite <- Htot in Hclose, Hshares.
  eexists.
  exists (map (fun i => Uint63.to_Z (Binary64.nearest (dv i) 2)) (seq 0 n)).
  split.
  { apply (suggest_multi_burn_maneuver_value exp st base n Hbase Hs).
    fold total_dv. rewrite Htot. exact Htotal. }
  split; [reflexivity|].
  split; [rewrite length_map; apply length_seq|].
  split.
  { rewrite !map_map. cbn [Binary64.delta_v_mps].
    apply map_ext_in. intros i Hi.
    apply Hround. apply (in_map dv). exact Hi. }
  split.
  { apply Forall_forall. intros k Hk.
    apply in_map_iff in Hk. destruct Hk as (i & <- & Hi).
    split; [apply Uint63.to_Z_bounded|].
    rewrite Forall_forall in Hle. apply Hle.
    apply (in_map (fun v => Binary64.nearest v 2) _ (dv i)).
    apply (in_map dv). exact Hi. }
  split.
  { rewrite map_map in Hle, Hsum.
    assert (Z.of_nat (Datatypes.length
                        (map (fun i => Binary64.nearest (dv i) 2) (seq 0 n)))
            <= 1000)%Z as Hlen
      by (rewrite length_map, length_seq; lia).
    destruct (uint63_sum _ Hlen Hle) as [Heq _].
    rewrite map_map in Heq. rewrite <- Heq, Hsum.
    apply Z.mod_small.
    assert (Uint63.wB = 9223372036854775808)%Z as HwB by reflexivity.
    lia. }
  split.
  { rewrite map_map in Hclose. rewrite map_map. exact Hclose. }
  exact Hshares.
Qed.

Lemma suggest_multi_burn_maneuver_sum_witness :
  exists (base : Binary64.Maneuver) (burns : list Binary64.Maneuver),
    Binary64.suggest_maneuver Examples.exp_by_series Examples.binary64_default_state
    = Some base /\
    Binary64.delta_v_mps base = Binary64.hundredths 2750 /\
    Binary64.suggest_multi_burn_maneuver
      Examples.exp_by_series Examples.binary64_default_state 3 = Some burns /\
    map Binary64.delta_v_mps burns = map Binary64.hundredths [1571; 786; 393]%Z /\
    Binary64.close (Binary64.sum (map Binary64.delta_v_mps burns))
      (Binary64.delta_v_mps base) = true.
Proof.
  assert (exists base,
            Binary64.suggest_maneuver
              Examples.exp_by_series Examples.binary64_default_state = Some base /\
            Binary64.delta_v_mps base = Binary64.hundredths 2750)
    as (base & Hbase & Hdv)
    by (eexists; split; vm_compute; reflexivity).
  destruct (suggest_multi_burn_maneuver_sum
              Examples.exp_by_series Examples.binary64_default_state base 2750 3
              Hbase ltac:(lia) Hdv ltac:(lia))
    as (burns & units & Hrun & Hburns & _ & _ & _ & _ & Hclose & _).
  exists base, burns.
  split; [exact Hbase|]. split; [exact Hdv|]. split; [exact Hrun|].
  split; [|exact Hclose].
  rewrite Hburns, map_map. cbn [Binary64.delta_v_mps].
  rewrite Hdv. vm_compute. reflexivity.
Defined.

(** The delta-v entries of the plan are those of the split of the
    baseline delta-v, whatever the exponential. *)
Lemma suggest_multi_burn_maneuver_delta_v_mps_agrees
  exp satellite_state base num_burns :
  Binary64._compute_basic_maneuver exp satellite_state = Some base ->
  Binary64.delta_v_mps base
  = Binary64.baseline_delta_v_mps (Binary64.threat_distance_km satellite_state) /\
  option_map (map Binary64.delta_v_mps)
    (Binary64.suggest_multi_burn_maneuver exp satellite_state num_burns)
  = Binary64.suggest_multi_burn_maneuver_delta_v_mps
      (Binary64.threat_distance_km satellite_state) num_burns.
Proof.
  intros Hbase.
  assert (Binary64.delta_v_mps base
          = Binary64.baseline_delta_v_mps
              (Binary64.threat_distance_km satellite_state)) as Hdv.
  { unfold Binary64._compute_basic_maneuver in Hbase. cbv zeta in Hbase.
    destruct (Binary64.square _); [|discriminate Hbase].
    destruct (Binary64.square _); [|discriminate Hbase].
    destruct (Binary64.square _); [|discriminate Hbase].
    cbn [Py.bind] in Hbase. injection Hbase as <-. reflexivity. }
  split; [exact Hdv|].
  unfold Binary64.suggest_multi_burn_maneuver,
    Binary64.suggest_multi_burn_maneuver_delta_v_mps, Binary64.split_delta_v_mps.
  rewrite Hbase. cbn [Py.bind]. cbv zeta. rewrite <- Hdv.
  unfold Binary64.true_div at 1.
  destruct (Binary64.sum _ =? 0)%float eqn:Hs; [reflexivity|].
  cbn [Py.bind].
  destruct (Binary64.delta_v_mps base =? 0)%float eqn:Htotal.
  - destruct (RlManeuverAgent.range num_burns) as [|i rest] eqn:Hrange.
    + cbn in Hs. discriminate Hs.
    + cbn [RlManeuverAgent.for_each]. unfold Binary64.true_div.
      rewrite Htotal. reflexivity.
  - rewrite (for_each_some
               (fun i =>
                  let dv :=
                    (nth i (map Binary64.half_pow (RlManeuverAgent.range num_burns)) 0
                     * (Binary64.delta_v_mps base
                        / Binary64.sum
                            (map Binary64.half_pow (RlManeuverAgent.range num_burns))))%float in
                  Binary64.mkManeuver
                    (Binary64.round dv 2)
                    (Binary64.direction_vector base)
                    (Binary64.round
                       (Binary64.burn_duration_s base
                        * (dv / Binary64.delta_v_mps base))%float 2)
                    (Binary64.round
                       (Binary64.fuel_cost_kg base
                        * (dv / Binary64.delta_v_mps base))%float 3)
                    (Binary64.round
                       (Binary64.safety_margin_km base
                        * (dv / Binary64.delta_v_mps base))%float 2))).
    + cbn [option_map]. rewrite map_map. reflexivity.
    + intros i _. unfold Binary64.true_div. rewrite Htotal. reflexivity.
Qed.

End Binary64Plan.

(** ** Worked examples *)

Lemma round_half_even_near x (z : Z) :
  IZR z - 1 / 2 < x < IZR z + 1 / 2 -> Py.round_half_even x = z.
Proof.
  intros Hx. unfold Py.round_half_even. cbv zeta.
  destruct (Rle_dec (IZR z) x) as [Hge|Hlt].
  - rewrite (Zfloor_eq z x) by lra.
    destruct (Rlt_dec (x - IZR z) (1 / 2)); [reflexivity | lra].
  - rewrite (Zfloor_eq (z - 1) x) by (rewrite minus_IZR; lra).
    rewrite minus_IZR.
    destruct (Rlt_dec (x - (IZR z - 1)) (1 / 2)); [lra|].
    destruct (Rgt_dec (x - (IZR z - 1)) (1 / 2)); [lia | lra].
Qed.

Lemma round_near x (z : Z) :
  IZR z - 1 / 2 < x * 100 < IZR z + 1 / 2 -> Py.round x 2 = IZR z / 100.
Proof.
  intros Hx. rewrite round_hundredths, (round_half_even_near _ z Hx). reflexivity.
Qed.

(** Co-moving objects 1 km apart are in the highest band; an object 80 km
    away at 1 km/s and 10 degrees is in the lowest. *)
Example classify_one_km :
  Model2.classify_risk_advanced 1.0 0 0
  = Model2.mkClassification 3 "High Risk" "red"
      "Execute immediate avoidance maneuver".
Proof.
  unfold Model2.classify_risk_advanced, Model2.classify_distance.
  cmp_cases; try lra; reflexivity.
Qed.

Example classify_eighty_km :
  Model2.classify_risk_advanced 80 1 10
  = Model2.mkClassification 0 "No Risk" "green" "Continue monitoring".
Proof.
  unfold Model2.classify_risk_advanced, Model2.classify_distance.
  cmp_cases; try lra; reflexivity.
Qed.

(** A fast, nearly head-on approach at 30 km is raised from level 1 to 2. *)
Example classify_escalated :
  Model2.classify_risk_advanced 30 11 160
  = Model2.mkClassification 2 "Medium Risk" "orange" "Prepare avoidance maneuver".
Proof.
  unfold Model2.classify_risk_advanced, Model2.classify_distance.
  cmp_cases; try lra; reflexivity.
Qed.

(** The baseline for a threat at the default 10 km is 27.5 m/s. *)
Example baseline_default :
  RlManeuverAgent.delta_v_mps
    (RlManeuverAgent.suggest_maneuver Examples.default_state) = 27.5.
Proof.
  unfold RlManeuverAgent.suggest_maneuver, RlManeuverAgent._compute_basic_maneuver,
    RlManeuverAgent.suggest_maneuver_legacy. cbv zeta.
  cbn [RlManeuverAgent.delta_v_mps RlManeuverAgent.delta_v
       Examples.default_state RlManeuverAgent.threat_distance_km Py.get].
  rewrite (Rmin_right 1.0) by lra.
  rewrite (Rmax_right 0.0) by lra.
  rewrite (round_near _ 2750) by lra. lra.
Qed.

(** Split in three it is burnt as 15.71, 7.86 and 3.93 m/s. *)
Example multi_burn_default :
  exists burns : list RlManeuverAgent.Maneuver,
    RlManeuverAgent.suggest_multi_burn_maneuver Examples.default_state 3
    = Some burns /\
    map RlManeuverAgent.delta_v_mps burns = [15.71; 7.86; 3.93].
Proof.
  eexists. split; [apply suggest_multi_burn_maneuver_shares; lia|].
  rewrite map_map. cbn [Spec.share RlManeuverAgent.delta_v_mps].
  rewrite baseline_default.
  unfold Spec.weight, RlManeuverAgent.range.
  change (Z.to_nat 3) with 3%nat.
  rewrite factors_sum.
  cbn [seq map].
  rewrite (round_near _ 1571) by (simpl; lra).
  rewrite (round_near _ 786) by (simpl; lra).
  rewrite (round_near _ 393) by (simpl; lra).
  repeat (f_equal; try lra).
Qed.

(** A debris object 10 km ahead closing at 1 km/s meets the satellite in
    10 seconds. *)
Example closing_head_on :
  PhysicsUtils.time_of_closest_approach
    (Np.array 0 0 0) (Np.array 0 0 0) (Np.array 10 0 0) (Np.array (- 1) 0 0)
  = Some (10, 0).
Proof.
  rewrite time_of_closest_approach_moving
    by (unfold Np.dot, Np.sub; simpl; lra).
  cbv zeta. unfold Np.linalg_norm, Np.dot, Np.add, Np.mul, Np.sub; simpl.
  f_equal. f_equal.
  - field.
  - match goal with
    | |- sqrt ?e = 0 => replace e with 0; [apply sqrt_0 | field; lra]
    end.
Qed.

(** * Further properties of the code *)

(** ** physics_utils.py: angle, unit vector, features *)

Section PhysicsFacts.
Import Np.

Lemma dot_sub_swap a b c d : dot (sub a b) (sub c d) = dot (sub b a) (sub d c).
Proof. unfold dot, sub; simpl. ring. Qed.

Lemma linalg_norm_eq a b : dot a a = dot b b -> linalg_norm a = linalg_norm b.
Proof. intros H. unfold linalg_norm. rewrite H. reflexivity. Qed.

Lemma linalg_norm_zeros : linalg_norm zeros = 0.
Proof.
  unfold linalg_norm, dot, zeros; simpl.
  replace (0 * 0 + 0 * 0 + 0 * 0) with 0 by ring. apply sqrt_0.
Qed.

Lemma linalg_norm_positive a : linalg_norm a <> 0 -> 0 < linalg_norm a.
Proof. intros H. pose proof (linalg_norm_nonneg a). lra. Qed.

(** For vectors that are not zero the quotient that is clipped already
    lies between -1 and 1. *)
Lemma cosine_bounds v1 v2 :
  linalg_norm v1 <> 0 -> linalg_norm v2 <> 0 ->
  -1 <= dot v1 v2 / (linalg_norm v1 * linalg_norm v2) <= 1.
Proof.
  intros H1 H2.
  apply linalg_norm_positive in H1. apply linalg_norm_positive in H2.
  pose proof (cauchy_schwarz v1 v2) as Hcs.
  rewrite <- (linalg_norm_sqr v1), <- (linalg_norm_sqr v2) in Hcs.
  set (n1 := linalg_norm v1) in *. set (n2 := linalg_norm v2) in *.
  set (d := dot v1 v2) in *.
  assert (0 < n1 * n2) as Hn by (apply Rmult_lt_0_compat; assumption).
  assert (d * d <= (n1 * n2) * (n1 * n2)) as Hd by lra.
  assert (- (n1 * n2) <= d <= n1 * n2) as Hb by nra.
  split.
  - apply Rmult_le_reg_r with (n1 * n2); [exact Hn|].
    unfold Rdiv. rewrite Rmult_assoc, Rinv_l by lra. lra.
  - apply Rmult_le_reg_r with (n1 * n2); [exact Hn|].
    unfold Rdiv. rewrite Rmult_assoc, Rinv_l by lra. lra.
Qed.

Lemma compute_angle_between_zero v1 v2 :
  linalg_norm v1 = 0 \/ linalg_norm v2 = 0 ->
  PhysicsUtils.compute_angle_between v1 v2 = Some 0.0.
Proof.
  intros H. unfold PhysicsUtils.compute_angle_between. cbv zeta.
  destruct H as [H|H]; apply eqb_true in H; rewrite H.
  - reflexivity.
  - rewrite orb_true_r. reflexivity.
Qed.

Lemma compute_angle_between_nonzero v1 v2 :
  linalg_norm v1 <> 0 -> linalg_norm v2 <> 0 ->
  PhysicsUtils.compute_angle_between v1 v2
  = Some (degrees (acos (dot v1 v2 / (linalg_norm v1 * linalg_norm v2)))).
Proof.
  intros H1 H2. unfold PhysicsUtils.compute_angle_between. cbv zeta.
  pose proof (cosine_bounds v1 v2 H1 H2) as Hb.
  apply eqb_false in H1. apply eqb_false in H2. rewrite H1, H2.
  cbn [orb]. apply eqb_false in H1. apply eqb_false in H2.
  rewrite div_some by (apply Rmult_integral_contrapositive; split; assumption).
  cbn [Py.bind]. unfold clip.
  rewrite Rmax_left by lra. rewrite Rmin_left by lra. reflexivity.
Qed.

Lemma compute_angle_between_sym v1 v2 :
  PhysicsUtils.compute_angle_between v1 v2 = PhysicsUtils.compute_angle_between v2 v1.
Proof.
  destruct (Req_dec_T (linalg_norm v1) 0) as [H1|H1].
  - rewrite !compute_angle_between_zero by tauto. reflexivity.
  - destruct (Req_dec_T (linalg_norm v2) 0) as [H2|H2].
    + rewrite !compute_angle_between_zero by tauto. reflexivity.
    + rewrite !compute_angle_between_nonzero by assumption.
      rewrite (dot_sym v2 v1), (Rmult_comm (linalg_norm v2)). reflexivity.
Qed.

Lemma degrees_acos_range q : 0 <= degrees (acos q) <= 180.
Proof.
  pose proof (acos_bound q) as Hb. pose proof PI_RGT_0 as Hpi.
  unfold degrees.
  assert (0 < / PI) as Hinv by (apply Rinv_0_lt_compat; lra).
  assert (acos q * (180 / PI) = 180 * (acos q * / PI)) as -> by (unfold Rdiv; ring).
  assert (0 <= acos q * / PI <= 1) as Hq.
  { split.
    - apply Rmult_le_pos; lra.
    - apply Rmult_le_reg_r with PI; [lra|].
      rewrite Rmult_assoc, Rinv_l by lra. lra. }
  lra.
Qed.

Lemma compute_angle_between_bounds v1 v2 angle :
  PhysicsUtils.compute_angle_between v1 v2 = Some angle -> 0 <= angle <= 180.
Proof.
  destruct (Req_dec_T (linalg_norm v1) 0) as [H1|H1].
  - rewrite compute_angle_between_zero by tauto. intros [= <-]. lra.
  - destruct (Req_dec_T (linalg_norm v2) 0) as [H2|H2].
    + rewrite compute_angle_between_zero by tauto. intros [= <-]. lra.
    + rewrite compute_angle_between_nonzero by assumption.
      intros [= <-]. apply degrees_acos_range.
Qed.

(** X1.  The angle between two velocities is always returned and lies
    between 0 and 180 degrees; it is 0 when either velocity is the zero
    vector, otherwise it is the angle whose cosine is the normalized dot
    product; the order of the two velocities does not matter. *)
Theorem compute_angle_between_is_an_angle :
  forall v1 v2 : Vec3,
  exists angle : R,
    PhysicsUtils.compute_angle_between v1 v2 = Some angle /\
    PhysicsUtils.compute_angle_between v2 v1 = Some angle /\
    0 <= angle <= 180 /\
    (linalg_norm v1 = 0 \/ linalg_norm v2 = 0 -> angle = 0) /\
    (linalg_norm v1 <> 0 -> linalg_norm v2 <> 0 ->
     cos (angle * (PI / 180)) = dot v1 v2 / (linalg_norm v1 * linalg_norm v2)).
Proof.
  intros v1 v2.
  destruct (compute_angle_between_total v1 v2) as (angle & Hrun).
  exists angle. split; [exact Hrun|].
  split; [rewrite compute_angle_between_sym; exact Hrun|].
  split; [apply (compute_angle_between_bounds v1 v2), Hrun|].
  split.
  - intros Hz. rewrite compute_angle_between_zero in Hrun by exact Hz.
    injection Hrun as <-. lra.
  - intros H1 H2. rewrite compute_angle_between_nonzero in Hrun by assumption.
    injection Hrun as <-. unfold degrees.
    pose proof PI_RGT_0.
    replace (acos (dot v1 v2 / (linalg_norm v1 * linalg_norm v2))
             * (180 / PI) * (PI / 180))
      with (acos (dot v1 v2 / (linalg_norm v1 * linalg_norm v2)))
      by (field; lra).
    apply cos_acos, cosine_bounds; assumption.
Qed.

Lemma unit_zero vec :
  linalg_norm vec = 0 -> PhysicsUtils.unit vec = Some zeros.
Proof.
  intros H. unfold PhysicsUtils.unit. cbv zeta.
  apply eqb_true in H. rewrite H. reflexivity.
Qed.

Lemma unit_nonzero vec :
  linalg_norm vec <> 0 ->
  PhysicsUtils.unit vec
  = Some (array (c0 vec / linalg_norm vec) (c1 vec / linalg_norm vec)
            (c2 vec / linalg_norm vec)).
Proof.
  intros H. unfold PhysicsUtils.unit. cbv zeta.
  assert (Py.eqb (linalg_norm vec) 0 = false) as -> by (apply eqb_false; exact H).
  apply np_div_some, H.
Qed.

(** X2.  [unit] never divides by zero: a vector of length 0 gives the
    zero vector, any other vector gives a vector of length 1 that, scaled by
    the original length, is the original vector. *)
Theorem unit_is_unit_or_zero :
  forall vec : Vec3,
  exists u : Vec3,
    PhysicsUtils.unit vec = Some u /\
    (linalg_norm vec = 0 -> u = zeros) /\
    (linalg_norm vec <> 0 ->
     linalg_norm u = 1 /\ mul u (linalg_norm vec) = vec).
Proof.
  intros vec.
  destruct (Req_dec_T (linalg_norm vec) 0) as [Hz|Hn].
  - exists zeros. split; [apply unit_zero, Hz|].
    split; [reflexivity | contradiction].
  - eexists. split; [apply unit_nonzero, Hn|].
    split; [contradiction|]. intros _.
    split.
    + destruct (unit_of_nonzero vec Hn) as (u & Hu & Hdot).
      rewrite unit_nonzero in Hu by exact Hn. injection Hu as <-.
      unfold linalg_norm at 1. rewrite Hdot. apply sqrt_1.
    + destruct vec as [a b c]. unfold mul; simpl.
      f_equal; field; exact Hn.
Qed.

End PhysicsFacts.

Section ClosestApproachFacts.
Import Np.

Lemma time_of_closest_approach_sym r1 v1 r2 v2 :
  PhysicsUtils.time_of_closest_approach r1 v1 r2 v2
  = PhysicsUtils.time_of_closest_approach r2 v2 r1 v1.
Proof.
  pose proof (dot_sub_swap v2 v1 v2 v1) as Hv.
  pose proof (dot_sub_swap r2 r1 v2 v1) as Hrv.
  pose proof (dot_sub_swap r2 r1 r2 r1) as Hr.
  destruct (Rlt_dec (dot (sub v2 v1) (sub v2 v1)) 1e-12) as [Hs|Hm].
  - rewrite (time_of_closest_approach_stationary r1 v1 r2 v2) by exact Hs.
    rewrite (time_of_closest_approach_stationary r2 v2 r1 v1) by (rewrite <- Hv; exact Hs).
    f_equal. f_equal. apply linalg_norm_eq.
    rewrite !dot_add_mul. rewrite Hv, Hrv, Hr. reflexivity.
  - rewrite (time_of_closest_approach_moving r1 v1 r2 v2) by lra.
    rewrite (time_of_closest_approach_moving r2 v2 r1 v1) by (rewrite <- Hv; lra).
    cbv zeta. rewrite <- Hv, <- Hrv.
    f_equal. f_equal. apply linalg_norm_eq.
    rewrite !dot_add_mul. rewrite <- Hv, <- Hrv, <- Hr. reflexivity.
Qed.





Lemma compute_physics_features_value sat deb :
  let r1 := array (PhysicsUtils.x sat) (PhysicsUtils.y sat) (PhysicsUtils.z sat) in
  let v1 := array (PhysicsUtils.vx sat) (PhysicsUtils.vy sat) (PhysicsUtils.vz sat) in
  let r2 := array (PhysicsUtils.x deb) (PhysicsUtils.y deb) (PhysicsUtils.z deb) in
  let v2 := array (PhysicsUtils.vx deb) (PhysicsUtils.vy deb) (PhysicsUtils.vz deb) in
  forall angle tca dist,
  PhysicsUtils.compute_angle_between v1 v2 = Some angle ->
  PhysicsUtils.time_of_closest_approach r1 v1 r2 v2 = Some (tca, dist) ->
  PhysicsUtils.compute_physics_features sat deb
  = Some (PhysicsUtils.mkFeatures
            (PhysicsUtils.compute_distance r1 r2)
            (PhysicsUtils.compute_relative_velocity v1 v2)
            angle
            (Rabs (PhysicsUtils.altitude_from_radius r1
                   - PhysicsUtils.altitude_from_radius r2))
            tca dist).
Proof.
  intros r1 v1 r2 v2 angle tca dist Ha Ht.
  unfold PhysicsUtils.compute_physics_features. cbv zeta.
  fold r1 v1 r2 v2. rewrite Ha, Ht. reflexivity.
Qed.

Lemma compute_physics_features_sym sat deb :
  PhysicsUtils.compute_physics_features sat deb
  = PhysicsUtils.compute_physics_features deb sat.
Proof.
  set (r1 := array (PhysicsUtils.x sat) (PhysicsUtils.y sat) (PhysicsUtils.z sat)).
  set (v1 := array (PhysicsUtils.vx sat) (PhysicsUtils.vy sat) (PhysicsUtils.vz sat)).
  set (r2 := array (PhysicsUtils.x deb) (PhysicsUtils.y deb) (PhysicsUtils.z deb)).
  set (v2 := array (PhysicsUtils.vx deb) (PhysicsUtils.vy deb) (PhysicsUtils.vz deb)).
  destruct (compute_angle_between_total v1 v2) as (angle & Ha).
  destruct (time_of_closest_approach_total r1 v1 r2 v2) as (tca & dist & Ht).
  rewrite (compute_physics_features_value sat deb angle tca dist Ha Ht).
  rewrite (compute_physics_features_value deb sat angle tca dist).
  - fold r1 v1 r2 v2. f_equal. f_equal.
    + apply linalg_norm_sub_sym.
    + apply linalg_norm_sub_sym.
    + apply Rabs_minus_sym.
  - fold v1 v2. rewrite compute_angle_between_sym. exact Ha.
  - fold r1 v1 r2 v2. rewrite time_of_closest_approach_sym. exact Ht.
Qed.

(** X4.  The features of a pair are always returned and do not depend on
    which of the two objects is given first. *)
Theorem compute_physics_features_symmetric :
  forall sat deb : PhysicsUtils.State,
  exists feats : PhysicsUtils.Features,
    PhysicsUtils.compute_physics_features sat deb = Some feats /\
    PhysicsUtils.compute_physics_features deb sat = Some feats.
Proof.
  intros sat deb.
  destruct (compute_physics_features_total sat deb) as (feats & H).
  exists feats. split; [exact H|].
  rewrite <- compute_physics_features_sym. exact H.
Qed.



End ClosestApproachFacts.

(** ** model1_risk_predictor.py: monotonicity and the pair interface *)

Lemma exp_antitone x y : x <= y -> exp (- y) <= exp (- x).
Proof.
  intros H. destruct (Req_dec_T x y) as [->|Hne]; [lra|].
  apply Rlt_le, exp_increasing. lra.
Qed.

Lemma base_term_antitone d1 d2 k :
  0 < k -> d1 <= d2 ->
  exp (- Rmax d2 0.001 / k) <= exp (- Rmax d1 0.001 / k).
Proof.
  intros Hk H.
  assert (0 < / k) as Hinv by (apply Rinv_0_lt_compat; exact Hk).
  assert (Rmax d1 0.001 <= Rmax d2 0.001) as Hm by (apply Rle_max_compat_r; exact H).
  replace (- Rmax d2 0.001 / k) with (- (Rmax d2 0.001 * / k)) by (unfold Rdiv; ring).
  replace (- Rmax d1 0.001 / k) with (- (Rmax d1 0.001 * / k)) by (unfold Rdiv; ring).
  apply exp_antitone. apply Rmult_le_compat_r; lra.
Qed.

Lemma time_factor_antitone t1 t2 :
  0 <= t1 <= t2 ->
  1 <= 1.0 + Rmax 0.0 ((72 * 3600 - t2) / (72 * 3600)) * 0.5
    <= 1.0 + Rmax 0.0 ((72 * 3600 - t1) / (72 * 3600)) * 0.5.
Proof.
  intros H.
  assert ((72 * 3600 - t2) / (72 * 3600) <= (72 * 3600 - t1) / (72 * 3600)) as Hq by lra.
  pose proof (Rle_max_compat_l _ _ 0.0 Hq) as Hm.
  pose proof (Rmax_l 0.0 ((72 * 3600 - t2) / (72 * 3600))).
  lra.
Qed.

Lemma clamp_monotone x y :
  x <= y -> Rmax 0.0 (Rmin 1.0 x) <= Rmax 0.0 (Rmin 1.0 y).
Proof.
  intros H. apply Rle_max_compat_l. apply Rle_min_compat_l. exact H.
Qed.

Lemma clamp_unit_interval x : 0 <= Rmax 0.0 (Rmin 1.0 x) <= 1.
Proof.
  split.
  - apply Rle_trans with 0.0; [lra | apply Rmax_l].
  - apply Rmax_lub; [lra|].
    apply Rle_trans with 1.0; [apply Rmin_l | lra].
Qed.

(** X6.  A closer pair is never scored as safer: with the other features
    fixed, a smaller current distance, a smaller closest-approach distance
    and an earlier future closest approach each leave the probability at
    least as high. *)
Theorem predict_risk_from_features_closer_not_safer :
  forall d1 d2 dtca1 dtca2 t1 t2 rel_velocity angle altitude_diff : R,
  d1 <= d2 -> dtca1 <= dtca2 -> 0 <= t1 <= t2 ->
  Model1.predict_risk_from_features d2 rel_velocity angle altitude_diff
    (Some dtca2) (Some t2)
  <= Model1.predict_risk_from_features d1 rel_velocity angle altitude_diff
       (Some dtca1) (Some t1)
  /\
  forall tca_seconds : option R,
    Model1.predict_risk_from_features d2 rel_velocity angle altitude_diff
      None tca_seconds
    <= Model1.predict_risk_from_features d1 rel_velocity angle altitude_diff
         None tca_seconds.
Proof.
  intros d1 d2 dtca1 dtca2 t1 t2 rv a alt Hd Hdtca Ht.
  pose proof (base_term_antitone d1 d2 30.0 ltac:(lra) Hd) as Hbase.
  pose proof (base_term_antitone dtca1 dtca2 20.0 ltac:(lra) Hdtca) as Htca.
  pose proof (exp_pos (- Rmax dtca2 0.001 / 20.0)) as Hpos.
  pose proof (time_factor_antitone t1 t2 Ht) as Htf.
  unfold Model1.predict_risk_from_features. cbv zeta.
  assert (Py.geb t1 0 = true) as -> by (apply geb_true; lra).
  assert (Py.geb t2 0 = true) as -> by (apply geb_true; lra).
  split.
  - apply clamp_monotone.
    assert (Rmax (exp (- Rmax d2 0.001 / 30.0))
              (exp (- Rmax dtca2 0.001 / 20.0) * 0.8
               * (1.0 + Rmax 0.0 ((72 * 3600 - t2) / (72 * 3600)) * 0.5))
            <= Rmax (exp (- Rmax d1 0.001 / 30.0))
                 (exp (- Rmax dtca1 0.001 / 20.0) * 0.8
                  * (1.0 + Rmax 0.0 ((72 * 3600 - t1) / (72 * 3600)) * 0.5)))
      as Hmax.
    { apply Rmax_lub.
      - eapply Rle_trans; [exact Hbase | apply Rmax_l].
      - eapply Rle_trans; [|apply Rmax_r].
        apply Rmult_le_compat; lra. }
    lra.
  - intros tca. apply clamp_monotone. lra.
Qed.

Lemma predict_risk_from_features_closer_not_safer_witness :
  1 <= 40 /\ 0.5 <= 30 /\ 0 <= 600 <= 86400 /\
  Model1.predict_risk_from_features 40 7 90 2 (Some 30) (Some 86400)
  <= Model1.predict_risk_from_features 1 7 90 2 (Some 0.5) (Some 600).
Proof.
  split; [lra|]. split; [lra|]. split; [lra|].
  apply (predict_risk_from_features_closer_not_safer 1 40 0.5 30 600 86400 7 90 2);
    lra.
Defined.

(** X7.  With distance and closest approach fixed, a higher relative
    speed, a larger approach angle and a smaller altitude difference each
    leave the probability at least as high. *)
Theorem predict_risk_from_features_faster_not_safer :
  forall (rv1 rv2 a1 a2 alt1 alt2 distance : R)
         (distance_at_tca tca_seconds : option R),
  rv1 <= rv2 -> a1 <= a2 -> alt2 <= alt1 ->
  Model1.predict_risk_from_features distance rv1 a1 alt1 distance_at_tca tca_seconds
  <= Model1.predict_risk_from_features distance rv2 a2 alt2 distance_at_tca
       tca_seconds.
Proof.
  intros rv1 rv2 a1 a2 alt1 alt2 d dtca tca Hrv Ha Halt.
  unfold Model1.predict_risk_from_features. cbv zeta.
  apply clamp_monotone.
  assert (Rmin (rv1 / 12.0) 1.0 <= Rmin (rv2 / 12.0) 1.0) as Hv
    by (apply Rle_min_compat_r; lra).
  assert (Rmin (alt2 / 50.0) 1.0 <= Rmin (alt1 / 50.0) 1.0) as Hm
    by (apply Rle_min_compat_r; lra).
  assert (Rmax 0.0 (1.0 - Rmin (alt1 / 50.0) 1.0)
          <= Rmax 0.0 (1.0 - Rmin (alt2 / 50.0) 1.0)) as Hh
    by (apply Rle_max_compat_l; lra).
  lra.
Qed.

Lemma predict_risk_from_features_faster_not_safer_witness :
  1 <= 11 /\ 10 <= 170 /\ 0 <= 40 /\
  Model1.predict_risk_from_features 25 1 10 40 None None
  <= Model1.predict_risk_from_features 25 11 170 0 None None.
Proof.
  split; [lra|]. split; [lra|]. split; [lra|].
  apply (predict_risk_from_features_faster_not_safer 1 11 10 170 40 0 25 None None);
    lra.
Defined.

(** X8.  The legacy interface does not read its altitude argument, and for
    a relative speed and an angle that are not negative its score is never
    below 0.15 (nor above 1), however far apart the objects are. *)
Theorem predict_risk_floor :
  forall distance relative_velocity angle altitude altitude' : R,
  0 <= relative_velocity -> 0 <= angle ->
  Model1.predict_risk distance relative_velocity angle altitude
  = Model1.predict_risk distance relative_velocity angle altitude' /\
  0.15 <= Model1.predict_risk distance relative_velocity angle altitude <= 1.
Proof.
  intros d rv a alt alt' Hrv Ha.
  split; [reflexivity|].
  unfold Model1.predict_risk, Model1.predict_risk_from_features. cbv zeta.
  split; [|apply clamp_unit_interval].
  pose proof (exp_pos (- Rmax d 0.001 / 30.0)) as Hb.
  assert (0 <= Rmin (rv / 12.0) 1.0) as Hv by (apply Rmin_glb; lra).
  assert (Rmin (0.0 / 50.0) 1.0 = 0) as -> by (rewrite Rmin_left; lra).
  rewrite (Rmax_right 0.0 (1.0 - 0)) by lra.
  apply Rle_trans with (Rmin 1.0 (exp (- Rmax d 0.001 / 30.0) * 0.7
                                  + Rmin (rv / 12.0) 1.0 * 0.4 * 1.0
                                  + a / 180.0 * 0.2 + (1.0 - 0) * 0.3 * 0.5));
    [|apply Rmax_r].
  apply Rmin_glb; lra.
Qed.

Lemma predict_risk_floor_witness :
  0 <= 0 /\ 0 <= 0 /\
  0.15 <= Model1.predict_risk 100000 0 0 400 <= 1.
Proof.
  split; [lra|]. split; [lra|].
  apply (predict_risk_floor 100000 0 0 400 400); lra.
Defined.

Lemma predict_for_sat_debris_value sat deb feats :
  PhysicsUtils.compute_physics_features sat deb = Some feats ->
  Model1.predict_for_sat_debris sat deb
  = Some (Model1.mkPrediction
            (Model1.predict_risk_from_features
               (PhysicsUtils.distance feats) (PhysicsUtils.rel_velocity feats)
               (PhysicsUtils.angle feats) (PhysicsUtils.altitude_diff feats)
               (Some (PhysicsUtils.distance_at_tca feats))
               (Some (PhysicsUtils.tca_seconds feats)))
            feats).
Proof.
  intros H. unfold Model1.predict_for_sat_debris. rewrite H. reflexivity.
Qed.

(** X9.  For every pair of states the pair interface returns the score
    of the pair's features, with closest-approach distance and time both
    given: a probability between 0 and 1; the order of the two objects does
    not change the result. *)
Theorem predict_for_sat_debris_probability :
  forall sat deb : PhysicsUtils.State,
  exists prediction : Model1.Prediction,
    Model1.predict_for_sat_debris sat deb = Some prediction /\
    Model1.predict_for_sat_debris deb sat = Some prediction /\
    PhysicsUtils.compute_physics_features sat deb
    = Some (Model1.features prediction) /\
    Model1.probability prediction
    = Model1.predict_risk_from_features
        (PhysicsUtils.distance (Model1.features prediction))
        (PhysicsUtils.rel_velocity (Model1.features prediction))
        (PhysicsUtils.angle (Model1.features prediction))
        (PhysicsUtils.altitude_diff (Model1.features prediction))
        (Some (PhysicsUtils.distance_at_tca (Model1.features prediction)))
        (Some (PhysicsUtils.tca_seconds (Model1.features prediction))) /\
    0 <= Model1.probability prediction <= 1.
Proof.
  intros sat deb.
  destruct (compute_physics_features_total sat deb) as (feats & Hf).
  eexists. split; [apply predict_for_sat_debris_value, Hf|].
  split; [apply predict_for_sat_debris_value;
          rewrite <- compute_physics_features_sym; exact Hf|].
  split; [exact Hf|].
  cbn [Model1.probability Model1.features].
  split; [reflexivity|].
  unfold Model1.predict_risk_from_features. cbv zeta.
  apply clamp_unit_interval.
Qed.

(** ** model2_risk_classifier.py: the pair interface *)

(** X10.  For every pair of states the pair classifier returns the level
    of the band in which the pair's current distance lies, a level from 0 to
    3, whichever of the two objects is given first. *)
Theorem classify_for_sat_debris_band :
  forall sat deb : PhysicsUtils.State,
  exists result : Model2.PairClassification,
    Model2.classify_for_sat_debris sat deb = Some result /\
    Model2.classify_for_sat_debris deb sat = Some result /\
    PhysicsUtils.compute_physics_features sat deb
    = Some (Model2.pair_features result) /\
    Spec.band (PhysicsUtils.distance (Model2.pair_features result))
      (Model2.pair_risk_level result) /\
    (0 <= Model2.pair_risk_level result <= 3)%Z.
Proof.
  intros sat deb.
  destruct (compute_physics_features_total sat deb) as (feats & Hf).
  exists (Model2.mkPairClassification
            (Model2.classify_distance (PhysicsUtils.distance feats)) feats).
  unfold Model2.classify_for_sat_debris.
  rewrite <- (compute_physics_features_sym sat deb), Hf. cbn.
  repeat split; try reflexivity.
  - apply classify_distance_band.
  - apply classify_distance_range.
  - apply classify_distance_range.
Qed.

(** ** Rounding: error, order and fixed points *)

Lemma round_half_even_error x :
  IZR (Py.round_half_even x) - 1 / 2 <= x <= IZR (Py.round_half_even x) + 1 / 2.
Proof.
  unfold Py.round_half_even. cbv zeta.
  pose proof (Zfloor_bound x) as Hb.
  destruct (Rlt_dec _ _) as [Hlt|Hge]; [lra|].
  destruct (Rgt_dec _ _) as [Hgt|Hle]; [rewrite plus_IZR; lra|].
  destruct (Z.even _); [lra | rewrite plus_IZR; lra].
Qed.

Lemma round_half_even_monotone x y :
  x <= y -> (Py.round_half_even x <= Py.round_half_even y)%Z.
Proof.
  intros Hxy.
  destruct (Z_le_gt_dec (Py.round_half_even x) (Py.round_half_even y))
    as [Hle|Hgt]; [exact Hle|].
  exfalso.
  pose proof (round_half_even_error x) as Hx.
  pose proof (round_half_even_error y) as Hy.
  assert (Py.round_half_even y + 1 <= Py.round_half_even x)%Z as Hz by lia.
  apply IZR_le in Hz. rewrite plus_IZR in Hz.
  assert (x = y) as Heq by lra.
  rewrite Heq in Hgt. lia.
Qed.

Lemma pow10_pos n : 0 < 10 ^ n.
Proof. apply pow_lt. lra. Qed.

Lemma round_monotone x y n : x <= y -> Py.round x n <= Py.round y n.
Proof.
  intros Hxy. unfold Py.round.
  pose proof (pow10_pos n) as Hp.
  apply Rmult_le_compat_r; [apply Rlt_le, Rinv_0_lt_compat, Hp|].
  apply IZR_le, round_half_even_monotone.
  apply Rmult_le_compat_r; lra.
Qed.

Lemma round_error x n :
  Py.round x n - / 2 / 10 ^ n <= x <= Py.round x n + / 2 / 10 ^ n.
Proof.
  unfold Py.round.
  pose proof (pow10_pos n) as Hp.
  pose proof (round_half_even_error (x * 10 ^ n)) as He.
  set (r := IZR (Py.round_half_even (x * 10 ^ n))) in *.
  replace (r / 10 ^ n - / 2 / 10 ^ n) with ((r - 1 / 2) / 10 ^ n) by (field; lra).
  replace (r / 10 ^ n + / 2 / 10 ^ n) with ((r + 1 / 2) / 10 ^ n) by (field; lra).
  split.
  - apply Rle_trans with (x * 10 ^ n / 10 ^ n).
    + apply Rmult_le_compat_r; [apply Rlt_le, Rinv_0_lt_compat, Hp | lra].
    + right. field. lra.
  - apply Rle_trans with (x * 10 ^ n / 10 ^ n).
    + right. field. lra.
    + apply Rmult_le_compat_r; [apply Rlt_le, Rinv_0_lt_compat, Hp | lra].
Qed.

Lemma round_decimal (z : Z) n : Py.round (IZR z / 10 ^ n) n = IZR z / 10 ^ n.
Proof.
  unfold Py.round.
  pose proof (pow10_pos n) as Hp.
  replace (IZR z / 10 ^ n * 10 ^ n) with (IZR z) by (field; lra).
  rewrite round_half_even_integer. reflexivity.
Qed.

Lemma round_idempotent x n : Py.round (Py.round x n) n = Py.round x n.
Proof. unfold Py.round at 2 3. apply round_decimal. Qed.

Lemma round_nonneg x n : 0 <= x -> 0 <= Py.round x n.
Proof.
  intros Hx.
  assert (Py.round 0 n = 0) as Hzero.
  { unfold Py.round. rewrite Rmult_0_l, round_half_even_integer.
    unfold Rdiv. apply Rmult_0_l. }
  rewrite <- Hzero at 1. apply round_monotone, Hx.
Qed.

Lemma round_between (lo hi : Z) x n :
  IZR lo / 10 ^ n <= x <= IZR hi / 10 ^ n ->
  IZR lo / 10 ^ n <= Py.round x n <= IZR hi / 10 ^ n.
Proof.
  intros [Hlo Hhi]. split.
  - rewrite <- (round_decimal lo n). apply round_monotone, Hlo.
  - rewrite <- (round_decimal hi n). apply round_monotone, Hhi.
Qed.

Lemma round_hundredths_between (lo hi : Z) x :
  IZR lo / 100 <= x <= IZR hi / 100 ->
  IZR lo / 100 <= Py.round x 2 <= IZR hi / 100.
Proof.
  intros H. replace 100 with (10 ^ 2) in * by (simpl; lra).
  apply round_between, H.
Qed.

Lemma round_thousandths_between (lo hi : Z) x :
  IZR lo / 1000 <= x <= IZR hi / 1000 ->
  IZR lo / 1000 <= Py.round x 3 <= IZR hi / 1000.
Proof.
  intros H. replace 1000 with (10 ^ 3) in * by (simpl; lra).
  apply round_between, H.
Qed.

(** ** rl_maneuver_agent.py: the single-burn plan *)

Lemma urgency_bounds distance :
  0 <= Rmax 0.0 (Rmin 1.0 ((15.0 - distance) / 15.0)) <= 1.
Proof. apply clamp_unit_interval. Qed.

Lemma urgency_antitone d1 d2 :
  d1 <= d2 ->
  Rmax 0.0 (Rmin 1.0 ((15.0 - d2) / 15.0))
  <= Rmax 0.0 (Rmin 1.0 ((15.0 - d1) / 15.0)).
Proof. intros H. apply clamp_monotone. lra. Qed.

(** The plan written out on the unrounded delta-v. *)
Lemma compute_basic_maneuver_fields satellite_state :
  let distance :=
    Py.get (RlManeuverAgent.threat_distance_km satellite_state) 10.0 in
  let dv := 15.0 * (1.0 + Rmax 0.0 (Rmin 1.0 ((15.0 - distance) / 15.0)) * 2.5) in
  RlManeuverAgent._compute_basic_maneuver satellite_state
  = RlManeuverAgent.mkManeuver
      (Py.round dv 2)
      (RlManeuverAgent.mkDirection 0.707 0.707 0.0)
      (Py.round (dv / 10.0) 2)
      (Py.round (1000.0 * (1 - exp (- dv / (300.0 * 9.81)))) 3)
      (Py.round (dv * 0.1) 2).
Proof.
  unfold RlManeuverAgent._compute_basic_maneuver,
    RlManeuverAgent.suggest_maneuver_legacy. cbv zeta.
  assert (Py.ltb 400.0 600 = true) as -> by (apply ltb_true; lra).
  reflexivity.
Qed.

Lemma fuel_cost_bounds dv :
  15 <= dv <= 52.5 ->
  5.07 <= 1000.0 * (1 - exp (- dv / (300.0 * 9.81))) <= 17.84.
Proof.
  intros Hdv.
  set (x := dv / (300.0 * 9.81)).
  replace (- dv / (300.0 * 9.81)) with (- x) by (unfold x, Rdiv; ring).
  assert (15 / 2943 <= x <= 52.5 / 2943) as Hx by (unfold x; lra).
  pose proof (exp_ineq1_le (- x)) as Hlow.
  pose proof (exp_ineq1_le x) as Hup.
  pose proof (exp_pos x) as Hpos.
  assert (exp (- x) = / exp x) as Hinv by apply exp_Ropp.
  assert (exp (- x) <= / (1 + x)) as Hle.
  { rewrite Hinv. apply Rinv_le_contravar; lra. }
  assert (/ (1 + x) <= 1 - 5.07 / 1000) as Hq.
  { apply Rmult_le_reg_r with (1 + x); [lra|].
    rewrite Rinv_l by lra. lra. }
  lra.
Qed.

Lemma compute_basic_maneuver_bounds satellite_state :
  let base := RlManeuverAgent._compute_basic_maneuver satellite_state in
  15 <= RlManeuverAgent.delta_v_mps base <= 52.5 /\
  1.5 <= RlManeuverAgent.burn_duration_s base <= 5.25 /\
  1.5 <= RlManeuverAgent.safety_margin_km base <= 5.25 /\
  5.07 <= RlManeuverAgent.fuel_cost_kg base <= 17.84.
Proof.
  rewrite compute_basic_maneuver_fields. cbv zeta.
  cbn [RlManeuverAgent.delta_v_mps RlManeuverAgent.burn_duration_s
       RlManeuverAgent.safety_margin_km RlManeuverAgent.fuel_cost_kg].
  pose proof (urgency_bounds
                (Py.get (RlManeuverAgent.threat_distance_km satellite_state) 10.0))
    as Hu.
  set (dv := 15.0 * (1.0 + _ * 2.5)).
  assert (15 <= dv <= 52.5) as Hdv by (unfold dv; lra).
  pose proof (fuel_cost_bounds dv Hdv) as Hfuel.
  repeat split.
  - apply Rle_trans with (IZR 1500 / 100); [lra|].
    apply (round_hundredths_between 1500 5250). lra.
  - apply Rle_trans with (IZR 5250 / 100); [|lra].
    apply (round_hundredths_between 1500 5250). lra.
  - apply Rle_trans with (IZR 150 / 100); [lra|].
    apply (round_hundredths_between 150 525). lra.
  - apply Rle_trans with (IZR 525 / 100); [|lra].
    apply (round_hundredths_between 150 525). lra.
  - apply Rle_trans with (IZR 150 / 100); [lra|].
    apply (round_hundredths_between 150 525). lra.
  - apply Rle_trans with (IZR 525 / 100); [|lra].
    apply (round_hundredths_between 150 525). lra.
  - apply Rle_trans with (IZR 5070 / 1000); [lra|].
    apply (round_thousandths_between 5070 17840). lra.
  - apply Rle_trans with (IZR 17840 / 1000); [|lra].
    apply (round_thousandths_between 5070 17840). lra.
Qed.

(** X11.  For every satellite state the single-burn plan stays in a fixed
    envelope: delta-v from 15 to 52.5 m/s, burn time from 1.5 to 5.25 s,
    safety margin from 1.5 to 5.25 km, fuel from 5.07 to 17.84 kg, and always
    the direction (0.707, 0.707, 0); the velocity entry of the state does not
    change the plan. *)
Theorem suggest_maneuver_envelope :
  forall satellite_state : RlManeuverAgent.SatelliteState,
  let plan := RlManeuverAgent.suggest_maneuver satellite_state in
  15 <= RlManeuverAgent.delta_v_mps plan <= 52.5 /\
  1.5 <= RlManeuverAgent.burn_duration_s plan <= 5.25 /\
  1.5 <= RlManeuverAgent.safety_margin_km plan <= 5.25 /\
  5.07 <= RlManeuverAgent.fuel_cost_kg plan <= 17.84 /\
  RlManeuverAgent.direction_vector plan
  = RlManeuverAgent.mkDirection 0.707 0.707 0.0 /\
  forall velocity : option RlManeuverAgent.Velocity,
    RlManeuverAgent.suggest_maneuver
      (RlManeuverAgent.mkSatelliteState
         (RlManeuverAgent.threat_distance_km satellite_state) velocity)
    = plan.
Proof.
  intros state plan. unfold plan, RlManeuverAgent.suggest_maneuver.
  destruct (compute_basic_maneuver_bounds state) as (Hdv & Hburn & Hsafe & Hfuel).
  split; [exact Hdv|]. split; [exact Hburn|]. split; [exact Hsafe|].
  split; [exact Hfuel|]. split.
  - rewrite compute_basic_maneuver_fields. reflexivity.
  - intros velocity. rewrite !compute_basic_maneuver_fields. reflexivity.
Qed.

(** X12.  A nearer threat never gets a smaller plan: of two states with
    threat distances d1 <= d2, the plan for d1 has at least the delta-v, burn
    time, fuel and safety margin of the plan for d2. *)
Theorem suggest_maneuver_antitone_in_distance :
  forall (s1 s2 : RlManeuverAgent.SatelliteState) (d1 d2 : R),
  RlManeuverAgent.threat_distance_km s1 = Some d1 ->
  RlManeuverAgent.threat_distance_km s2 = Some d2 ->
  d1 <= d2 ->
  let near := RlManeuverAgent.suggest_maneuver s1 in
  let far := RlManeuverAgent.suggest_maneuver s2 in
  RlManeuverAgent.delta_v_mps far <= RlManeuverAgent.delta_v_mps near /\
  RlManeuverAgent.burn_duration_s far <= RlManeuverAgent.burn_duration_s near /\
  RlManeuverAgent.fuel_cost_kg far <= RlManeuverAgent.fuel_cost_kg near /\
  RlManeuverAgent.safety_margin_km far <= RlManeuverAgent.safety_margin_km near.
Proof.
  intros s1 s2 d1 d2 H1 H2 Hd near far.
  unfold near, far, RlManeuverAgent.suggest_maneuver.
  rewrite !compute_basic_maneuver_fields. cbv zeta. rewrite H1, H2.
  cbn [RlManeuverAgent.delta_v_mps RlManeuverAgent.burn_duration_s
       RlManeuverAgent.safety_margin_km RlManeuverAgent.fuel_cost_kg Py.get].
  pose proof (urgency_antitone d1 d2 Hd) as Hu.
  set (u1 := Rmax 0.0 (Rmin 1.0 ((15.0 - d1) / 15.0))) in *.
  set (u2 := Rmax 0.0 (Rmin 1.0 ((15.0 - d2) / 15.0))) in *.
  assert (15.0 * (1.0 + u2 * 2.5) <= 15.0 * (1.0 + u1 * 2.5)) as Hdv by lra.
  repeat split; apply round_monotone; try lra.
  assert (exp (- (15.0 * (1.0 + u1 * 2.5)) / (300.0 * 9.81))
          <= exp (- (15.0 * (1.0 + u2 * 2.5)) / (300.0 * 9.81))) as He.
  { replace (- (15.0 * (1.0 + u1 * 2.5)) / (300.0 * 9.81))
      with (- ((15.0 * (1.0 + u1 * 2.5)) / (300.0 * 9.81)))
      by (unfold Rdiv; ring).
    replace (- (15.0 * (1.0 + u2 * 2.5)) / (300.0 * 9.81))
      with (- ((15.0 * (1.0 + u2 * 2.5)) / (300.0 * 9.81)))
      by (unfold Rdiv; ring).
    apply exp_antitone. lra. }
  lra.
Qed.

Lemma suggest_maneuver_antitone_in_distance_witness :
  2 <= 12 /\
  RlManeuverAgent.delta_v_mps
    (RlManeuverAgent.suggest_maneuver
       (RlManeuverAgent.mkSatelliteState (Some 12) None))
  <= RlManeuverAgent.delta_v_mps
       (RlManeuverAgent.suggest_maneuver
          (RlManeuverAgent.mkSatelliteState (Some 2) None)).
Proof.
  split; [lra|].
  apply (suggest_maneuver_antitone_in_distance
           (RlManeuverAgent.mkSatelliteState (Some 2) None)
           (RlManeuverAgent.mkSatelliteState (Some 12) None) 2 12);
    [reflexivity | reflexivity | lra].
Defined.

Lemma compute_basic_maneuver_of_urgency s1 s2 :
  Rmax 0.0 (Rmin 1.0
    ((15.0 - Py.get (RlManeuverAgent.threat_distance_km s1) 10.0) / 15.0))
  = Rmax 0.0 (Rmin 1.0
      ((15.0 - Py.get (RlManeuverAgent.threat_distance_km s2) 10.0) / 15.0)) ->
  RlManeuverAgent._compute_basic_maneuver s1
  = RlManeuverAgent._compute_basic_maneuver s2.
Proof.
  intros H. rewrite !compute_basic_maneuver_fields. cbv zeta. rewrite H.
  reflexivity.
Qed.

(** X13.  The plan saturates: every threat at distance 0 or less gets the
    plan of distance 0, with the maximal delta-v 52.5 m/s; every threat at
    15 km or more gets the plan of 15 km, with the minimal delta-v 15 m/s; a
    state without a threat distance is planned as a threat at 10 km; and a
    threat within 5 km gets at least 40 m/s. *)
Theorem suggest_maneuver_saturates :
  forall (distance : R) (velocity : option RlManeuverAgent.Velocity),
  let plan_at d :=
    RlManeuverAgent.suggest_maneuver
      (RlManeuverAgent.mkSatelliteState d velocity) in
  (distance <= 0 ->
   plan_at (Some distance) = plan_at (Some 0) /\
   RlManeuverAgent.delta_v_mps (plan_at (Some distance)) = 52.5) /\
  (15 <= distance ->
   plan_at (Some distance) = plan_at (Some 15) /\
   RlManeuverAgent.delta_v_mps (plan_at (Some distance)) = 15) /\
  (distance <= 5 ->
   40 <= RlManeuverAgent.delta_v_mps (plan_at (Some distance))) /\
  plan_at None = plan_at (Some 10).
Proof.
  intros d velocity plan_at. unfold plan_at, RlManeuverAgent.suggest_maneuver.
  repeat split.
  - apply compute_basic_maneuver_of_urgency. cbn.
    rewrite (Rmin_left 1.0 ((15.0 - d) / 15.0)) by lra.
    rewrite (Rmin_left 1.0 ((15.0 - 0) / 15.0)) by lra.
    reflexivity.
  - rewrite compute_basic_maneuver_fields. cbn.
    rewrite (Rmin_left 1.0 ((15.0 - d) / 15.0)) by lra.
    rewrite (Rmax_right 0.0 1.0) by lra.
    replace (15.0 * (1.0 + 1.0 * 2.5)) with (IZR 5250 / 10 ^ 2) by (simpl; lra).
    rewrite round_decimal. simpl. lra.
  - apply compute_basic_maneuver_of_urgency. cbn.
    rewrite (Rmin_right 1.0 ((15.0 - d) / 15.0)) by lra.
    rewrite (Rmin_right 1.0 ((15.0 - 15) / 15.0)) by lra.
    rewrite !Rmax_left by lra. reflexivity.
  - rewrite compute_basic_maneuver_fields. cbn.
    rewrite (Rmin_right 1.0 ((15.0 - d) / 15.0)) by lra.
    rewrite (Rmax_left 0.0 ((15.0 - d) / 15.0)) by lra.
    replace (15.0 * (1.0 + 0.0 * 2.5)) with (IZR 1500 / 10 ^ 2) by (simpl; lra).
    rewrite round_decimal. simpl. lra.
  - intros Hd. rewrite compute_basic_maneuver_fields. cbn.
    pose proof (urgency_antitone d 5 Hd) as Hu.
    assert (Rmax 0.0 (Rmin 1.0 ((15.0 - 5) / 15.0)) = 2 / 3) as Hfive.
    { rewrite Rmin_right by lra. rewrite Rmax_right by lra. lra. }
    rewrite Hfive in Hu.
    pose proof (urgency_bounds d) as Hb.
    set (u := Rmax 0.0 (Rmin 1.0 ((15.0 - d) / 15.0))) in *.
    apply Rle_trans with (IZR 4000 / 100); [lra|].
    apply (round_hundredths_between 4000 5250). lra.
  - apply compute_basic_maneuver_of_urgency. cbn.
    replace 10.0 with 10 by lra. reflexivity.
Qed.

(** ** rl_maneuver_agent.py: the split into several burns *)

Lemma compute_basic_maneuver_rounded satellite_state :
  let base := RlManeuverAgent._compute_basic_maneuver satellite_state in
  Py.round (RlManeuverAgent.delta_v_mps base) 2 = RlManeuverAgent.delta_v_mps base /\
  Py.round (RlManeuverAgent.burn_duration_s base) 2
  = RlManeuverAgent.burn_duration_s base /\
  Py.round (RlManeuverAgent.fuel_cost_kg base) 3 = RlManeuverAgent.fuel_cost_kg base /\
  Py.round (RlManeuverAgent.safety_margin_km base) 2
  = RlManeuverAgent.safety_margin_km base.
Proof.
  rewrite compute_basic_maneuver_fields. cbv zeta.
  cbn [RlManeuverAgent.delta_v_mps RlManeuverAgent.burn_duration_s
       RlManeuverAgent.safety_margin_km RlManeuverAgent.fuel_cost_kg].
  repeat split; apply round_idempotent.
Qed.

Lemma compute_basic_maneuver_positive satellite_state :
  let base := RlManeuverAgent._compute_basic_maneuver satellite_state in
  0 < RlManeuverAgent.delta_v_mps base /\
  0 < RlManeuverAgent.burn_duration_s base /\
  0 < RlManeuverAgent.fuel_cost_kg base /\
  0 < RlManeuverAgent.safety_margin_km base.
Proof.
  destruct (compute_basic_maneuver_bounds satellite_state)
    as (Hdv & Hburn & Hsafe & Hfuel).
  cbv zeta. repeat split; lra.
Qed.

(** X14.  Asked for no burn, or for a negative number of burns, the split
    does not return a plan: the sum of an empty list of factors is zero and
    the division by it raises. *)
Theorem suggest_multi_burn_maneuver_needs_a_burn :
  forall (satellite_state : RlManeuverAgent.SatelliteState) (num_burns : Z),
  (num_burns <= 0)%Z ->
  RlManeuverAgent.suggest_multi_burn_maneuver satellite_state num_burns = None.
Proof.
  intros state n Hn.
  unfold RlManeuverAgent.suggest_multi_burn_maneuver, RlManeuverAgent.range.
  cbv zeta.
  replace (Z.to_nat n) with 0%nat by lia.
  cbn [seq map]. rewrite py_sum_nil.
  unfold Py.div. destruct (Req_dec_T 0 0) as [_|Hne]; [reflexivity | lra].
Qed.

Lemma suggest_multi_burn_maneuver_needs_a_burn_witness :
  (0 <= 0)%Z /\
  RlManeuverAgent.suggest_multi_burn_maneuver
    (RlManeuverAgent.mkSatelliteState (Some 4) None) 0 = None.
Proof.
  split; [lia|].
  apply (suggest_multi_burn_maneuver_needs_a_burn
           (RlManeuverAgent.mkSatelliteState (Some 4) None) 0).
  lia.
Defined.

(** X15.  Split into a single burn, the plan is the single-burn plan
    itself: rounding the already rounded entries changes nothing. *)
Theorem suggest_multi_burn_maneuver_single :
  forall satellite_state : RlManeuverAgent.SatelliteState,
  RlManeuverAgent.suggest_multi_burn_maneuver satellite_state 1
  = Some [RlManeuverAgent.suggest_maneuver satellite_state].
Proof.
  intros state.
  rewrite suggest_multi_burn_maneuver_shares by lia.
  unfold RlManeuverAgent.range, Spec.weight, RlManeuverAgent.range.
  change (Z.to_nat 1) with 1%nat. cbn [seq map].
  rewrite py_sum_cons, py_sum_nil.
  replace (0.5 ^ 0 / (0.5 ^ 0 + 0)) with 1 by (simpl; field).
  unfold Spec.share, RlManeuverAgent.suggest_maneuver.
  rewrite !Rmult_1_r.
  destruct (compute_basic_maneuver_rounded state) as (-> & -> & -> & ->).
  destruct (RlManeuverAgent._compute_basic_maneuver state). reflexivity.
Qed.

Lemma weight_bounds num_burns i :
  (1 <= num_burns)%Z -> 0 < Spec.weight num_burns i <= 1.
Proof.
  intros Hn. unfold Spec.weight, RlManeuverAgent.range.
  assert (1 <= Z.to_nat num_burns)%nat as Hnat by lia.
  pose proof (factors_sum_positive _ Hnat) as HS.
  set (S := Py.sum _) in *.
  replace 0.5 with (/ 2) by lra.
  pose proof (half_pow_bounds i) as Hp.
  split.
  - apply Rdiv_lt_0_compat; lra.
  - apply Rmult_le_reg_r with S; [lra|].
    unfold Rdiv. rewrite Rmult_assoc, Rinv_l by lra. lra.
Qed.

Lemma weight_antitone num_burns i j :
  (1 <= num_burns)%Z -> (i <= j)%nat ->
  Spec.weight num_burns j <= Spec.weight num_burns i.
Proof.
  intros Hn Hij. unfold Spec.weight, RlManeuverAgent.range.
  assert (1 <= Z.to_nat num_burns)%nat as Hnat by lia.
  pose proof (factors_sum_positive _ Hnat) as HS.
  set (S := Py.sum _) in *.
  apply Rmult_le_compat_r; [apply Rlt_le, Rinv_0_lt_compat; lra|].
  replace j with (i + (j - i))%nat by lia.
  rewrite pow_add.
  assert (0 < 0.5 ^ i) by (apply pow_lt; lra).
  assert (0.5 ^ (j - i) <= 1).
  { replace 0.5 with (/ 2) by lra. apply half_pow_bounds. }
  nra.
Qed.

Lemma nth_error_map_seq {A : Type} (f : nat -> A) n i a :
  nth_error (map f (seq 0 n)) i = Some a -> (i < n)%nat /\ a = f i.
Proof.
  intros H.
  assert (i < n)%nat as Hi.
  { assert (i < Datatypes.length (map f (seq 0 n)))%nat as Hlen
      by (apply nth_error_Some; rewrite H; discriminate).
    rewrite length_map, length_seq in Hlen. exact Hlen. }
  split; [exact Hi|].
  rewrite nth_error_map, nth_error_seq in H.
  apply Nat.ltb_lt in Hi. rewrite Hi in H. cbn in H. congruence.
Qed.

(** X16.  For at least one burn the split returns exactly that many
    burns, all in the direction of the single-burn plan, and it tapers: a
    later burn never has more delta-v, burn time, fuel or safety margin than
    an earlier one, and no burn has more delta-v than the single-burn plan. *)
Theorem suggest_multi_burn_maneuver_tapers :
  forall (satellite_state : RlManeuverAgent.SatelliteState) (num_burns : Z),
  (1 <= num_burns)%Z ->
  exists burns : list RlManeuverAgent.Maneuver,
    RlManeuverAgent.suggest_multi_burn_maneuver satellite_state num_burns
    = Some burns /\
    Z.of_nat (Datatypes.length burns) = num_burns /\
    (forall burn, In burn burns ->
       RlManeuverAgent.direction_vector burn
       = RlManeuverAgent.direction_vector
           (RlManeuverAgent.suggest_maneuver satellite_state) /\
       0 <= RlManeuverAgent.delta_v_mps burn
         <= RlManeuverAgent.delta_v_mps
              (RlManeuverAgent.suggest_maneuver satellite_state)) /\
    (forall i j earlier later,
       nth_error burns i = Some earlier -> nth_error burns j = Some later ->
       (i <= j)%nat ->
       RlManeuverAgent.delta_v_mps later <= RlManeuverAgent.delta_v_mps earlier /\
       RlManeuverAgent.burn_duration_s later
       <= RlManeuverAgent.burn_duration_s earlier /\
       RlManeuverAgent.fuel_cost_kg later <= RlManeuverAgent.fuel_cost_kg earlier /\
       RlManeuverAgent.safety_margin_km later
       <= RlManeuverAgent.safety_margin_km earlier).
Proof.
  intros state n Hn.
  eexists. split; [apply suggest_multi_burn_maneuver_shares, Hn|].
  unfold RlManeuverAgent.suggest_maneuver.
  destruct (compute_basic_maneuver_positive state) as (Hdv & Hburn & Hfuel & Hsafe).
  destruct (compute_basic_maneuver_rounded state) as (Hrdv & _).
  set (base := RlManeuverAgent._compute_basic_maneuver state) in *.
  split; [|split].
  - unfold RlManeuverAgent.range. rewrite length_map, length_seq. lia.
  - intros burn Hin. apply in_map_iff in Hin. destruct Hin as (i & <- & _).
    cbn [Spec.share RlManeuverAgent.direction_vector RlManeuverAgent.delta_v_mps].
    split; [reflexivity|].
    pose proof (weight_bounds n i Hn) as Hw.
    split.
    + apply round_nonneg. nra.
    + rewrite <- Hrdv at 2. apply round_monotone. nra.
  - intros i j earlier later Hi Hj Hij.
    unfold RlManeuverAgent.range in Hi, Hj.
    apply nth_error_map_seq in Hi. destruct Hi as (_ & ->).
    apply nth_error_map_seq in Hj. destruct Hj as (_ & ->).
    pose proof (weight_antitone n i j Hn Hij) as Hw.
    cbn [Spec.share RlManeuverAgent.delta_v_mps RlManeuverAgent.burn_duration_s
         RlManeuverAgent.fuel_cost_kg RlManeuverAgent.safety_margin_km].
    repeat split; apply round_monotone; nra.
Qed.

Lemma suggest_multi_burn_maneuver_tapers_witness :
  (1 <= 3)%Z /\
  exists burns : list RlManeuverAgent.Maneuver,
    RlManeuverAgent.suggest_multi_burn_maneuver
      (RlManeuverAgent.mkSatelliteState None None) 3 = Some burns /\
    Z.of_nat (Datatypes.length burns) = 3%Z.
Proof.
  split; [lia|].
  destruct (suggest_multi_burn_maneuver_tapers
              (RlManeuverAgent.mkSatelliteState None None) 3 ltac:(lia))
    as (burns & Hsome & Hlen & _).
  exists burns. split; assumption.
Defined.

(** ** rl_maneuver_agent.py: rating and simulating a plan *)

Lemma or_else_nonzero x default : default <> 0 -> Py.or_else x default <> 0.
Proof.
  intros Hd. unfold Py.or_else.
  destruct (Py.eqb x 0) eqn:E; [exact Hd | apply eqb_false in E; exact E].
Qed.

Lemma confidence_bounds dv :
  0.5 <= Py.round (Rmax 0.5 (Rmin 0.99 (0.6 + dv / 50.0))) 2 <= 0.99.
Proof.
  assert (IZR 50 / 100 <= Rmax 0.5 (Rmin 0.99 (0.6 + dv / 50.0)) <= IZR 99 / 100)
    as H.
  { split.
    - apply Rle_trans with 0.5; [lra | apply Rmax_l].
    - apply Rmax_lub; [lra|].
      apply Rle_trans with 0.99; [apply Rmin_l | lra]. }
  apply round_hundredths_between in H. lra.
Qed.

(** X17.  Rating a plan never fails: a fuel cost that is missing or zero
    is taken as 1, so that the efficiency is then the safety margin itself;
    the confidence lies between 0.5 and 0.99; the recommendation is one of
    three words, and it is "execute" only for a safety margin above 0.5 km;
    the satellite state is not read. *)
Theorem evaluate_maneuver_safety_total :
  forall (maneuver : Py.dict) (satellite_state : RlManeuverAgent.SatelliteState),
  exists evaluation : RlManeuverAgent.SafetyEvaluation,
    RlManeuverAgent.evaluate_maneuver_safety maneuver satellite_state
    = Some evaluation /\
    (forall other_state,
       RlManeuverAgent.evaluate_maneuver_safety maneuver other_state
       = Some evaluation) /\
    0.5 <= RlManeuverAgent.evaluation_confidence evaluation <= 0.99 /\
    RlManeuverAgent.risk_reduction_km evaluation
    = Py.round (Py.get (maneuver "safety_margin_km"%string) 0.0) 2 /\
    (maneuver "fuel_cost_kg"%string = None \/
     maneuver "fuel_cost_kg"%string = Some 0 ->
     RlManeuverAgent.fuel_efficiency evaluation
     = Py.round (Py.get (maneuver "safety_margin_km"%string) 0.0) 3) /\
    (RlManeuverAgent.recommendation evaluation = "execute"%string \/
     RlManeuverAgent.recommendation evaluation = "review"%string \/
     RlManeuverAgent.recommendation evaluation = "inefficient"%string) /\
    (RlManeuverAgent.recommendation evaluation = "execute"%string ->
     Py.get (maneuver "safety_margin_km"%string) 0.0 > 0.5).
Proof.
  intros maneuver state.
  unfold RlManeuverAgent.evaluate_maneuver_safety. cbv zeta.
  pose proof (or_else_nonzero (Py.get (maneuver "fuel_cost_kg"%string) 1.0) 1.0
                ltac:(lra)) as Hfuel.
  rewrite (div_some _ _ Hfuel). cbn [Py.bind].
  eexists. split; [reflexivity|].
  cbn [RlManeuverAgent.evaluation_confidence RlManeuverAgent.risk_reduction_km
       RlManeuverAgent.fuel_efficiency RlManeuverAgent.recommendation].
  split; [intros other; reflexivity|].
  split; [apply confidence_bounds|].
  split; [reflexivity|].
  split.
  - intros [Hnone|Hzero].
    + rewrite Hnone. cbn [Py.get]. unfold Py.or_else.
      assert (Py.eqb 1.0 0 = false) as -> by (apply eqb_false; lra).
      match goal with
      | |- Py.round ?a 3 = Py.round ?b 3 => replace a with b by lra
      end.
      reflexivity.
    + rewrite Hzero. cbn [Py.get]. unfold Py.or_else.
      assert (Py.eqb 0 0 = true) as -> by (apply eqb_true; reflexivity).
      match goal with
      | |- Py.round ?a 3 = Py.round ?b 3 => replace a with b by lra
      end.
      reflexivity.
  - split.
    + cmp_cases; cbn [andb]; auto.
    + cmp_cases; cbn [andb]; intros Hrec; try discriminate Hrec; lra.
Qed.

(** X18.  The service rates the plan it has just made, and that rating is
    always "execute": for every satellite state the single-burn plan has a
    safety margin above 0.5 km and more than 0.05 km of margin per kg of
    fuel; the confidence is at least 0.9 and the reported risk reduction is
    the plan's safety margin. *)
Theorem evaluate_maneuver_safety_of_plan :
  forall satellite_state : RlManeuverAgent.SatelliteState,
  let plan := RlManeuverAgent.suggest_maneuver satellite_state in
  exists evaluation : RlManeuverAgent.SafetyEvaluation,
    RlManeuverAgent.evaluate_maneuver_safety (RlManeuverAgent.as_dict plan)
      satellite_state = Some evaluation /\
    RlManeuverAgent.recommendation evaluation = "execute"%string /\
    0.9 <= RlManeuverAgent.evaluation_confidence evaluation <= 0.99 /\
    RlManeuverAgent.risk_reduction_km evaluation
    = RlManeuverAgent.safety_margin_km plan /\
    RlManeuverAgent.fuel_efficiency evaluation
    = Py.round (RlManeuverAgent.safety_margin_km plan
                / RlManeuverAgent.fuel_cost_kg plan) 3.
Proof.
  intros state plan. unfold plan, RlManeuverAgent.suggest_maneuver.
  destruct (compute_basic_maneuver_bounds state) as (Hdv & Hburn & Hsafe & Hfuel).
  destruct (compute_basic_maneuver_rounded state) as (_ & _ & _ & Hround).
  set (base := RlManeuverAgent._compute_basic_maneuver state) in *.
  unfold RlManeuverAgent.evaluate_maneuver_safety. cbv zeta.
  change (RlManeuverAgent.as_dict base "delta_v_mps"%string)
    with (Some (RlManeuverAgent.delta_v_mps base)).
  change (RlManeuverAgent.as_dict base "safety_margin_km"%string)
    with (Some (RlManeuverAgent.safety_margin_km base)).
  change (RlManeuverAgent.as_dict base "fuel_cost_kg"%string)
    with (Some (RlManeuverAgent.fuel_cost_kg base)).
  cbn [Py.get].
  unfold Py.or_else.
  assert (Py.eqb (RlManeuverAgent.fuel_cost_kg base) 0 = false) as ->
    by (apply eqb_false; lra).
  rewrite div_some by lra. cbn [Py.bind].
  eexists. split; [reflexivity|].
  cbn [RlManeuverAgent.evaluation_confidence RlManeuverAgent.risk_reduction_km
       RlManeuverAgent.fuel_efficiency RlManeuverAgent.recommendation].
  assert (RlManeuverAgent.safety_margin_km base / RlManeuverAgent.fuel_cost_kg base
          > 0.05) as Heff.
  { apply Rlt_gt. apply Rmult_lt_reg_r with (RlManeuverAgent.fuel_cost_kg base);
      [lra|].
    unfold Rdiv. rewrite Rmult_assoc, Rinv_l by lra. lra. }
  split; [|split; [|split; [exact Hround | reflexivity]]].
  - assert (Py.gtb (RlManeuverAgent.safety_margin_km base
                    / RlManeuverAgent.fuel_cost_kg base) 0.05 = true) as ->
      by (apply gtb_true; exact Heff).
    assert (Py.gtb (RlManeuverAgent.safety_margin_km base) 0.5 = true) as ->
      by (apply gtb_true; lra).
    reflexivity.
  - assert (IZR 90 / 100
            <= Rmax 0.5 (Rmin 0.99 (0.6 + RlManeuverAgent.delta_v_mps base / 50.0))
            <= IZR 99 / 100) as H.
    { split.
      - apply Rle_trans with (Rmin 0.99 (0.6 + RlManeuverAgent.delta_v_mps base / 50.0));
          [|apply Rmax_r].
        apply Rmin_glb; lra.
      - apply Rmax_lub; [lra|].
        apply Rle_trans with 0.99; [apply Rmin_l | lra]. }
    apply round_hundredths_between in H. lra.
Qed.

(** X19.  The simulated risk reduction is never negative; a safety margin
    that is not negative leaves the predicted miss distance at least the
    baseline and the residual risk at most the baseline risk, both between 0
    and 1 when the threat distance is not negative; a margin that is not
    positive gives no reduction at all. *)
Theorem simulate_maneuver_effect_improves :
  forall (satellite_state : RlManeuverAgent.SatelliteState) (maneuver : Py.dict),
  let simulation :=
    RlManeuverAgent.simulate_maneuver_effect satellite_state maneuver in
  let distance :=
    Py.get (RlManeuverAgent.threat_distance_km satellite_state) 10.0 in
  let margin := Py.get (maneuver "safety_margin_km"%string) 0.0 in
  0 <= RlManeuverAgent.risk_reduction_prob simulation /\
  0 <= RlManeuverAgent.residual_risk_prob simulation /\
  0 <= RlManeuverAgent.baseline_risk_prob simulation /\
  (0 <= margin ->
   RlManeuverAgent.baseline_miss_distance_km simulation
   <= RlManeuverAgent.predicted_miss_distance_km simulation /\
   RlManeuverAgent.residual_risk_prob simulation
   <= RlManeuverAgent.baseline_risk_prob simulation) /\
  (0 <= distance -> RlManeuverAgent.baseline_risk_prob simulation <= 1) /\
  (margin <= 0 -> RlManeuverAgent.risk_reduction_prob simulation = 0).
Proof.
  intros state maneuver simulation distance margin.
  unfold simulation, RlManeuverAgent.simulate_maneuver_effect. cbv zeta.
  fold distance. fold margin.
  cbn [RlManeuverAgent.risk_reduction_prob RlManeuverAgent.residual_risk_prob
       RlManeuverAgent.baseline_risk_prob
       RlManeuverAgent.baseline_miss_distance_km
       RlManeuverAgent.predicted_miss_distance_km].
  assert (forall a b, a <= b -> exp (- b / 20.0) <= exp (- a / 20.0)) as Hexp.
  { intros a b Hab.
    replace (- b / 20.0) with (- (b / 20.0)) by (unfold Rdiv; ring).
    replace (- a / 20.0) with (- (a / 20.0)) by (unfold Rdiv; ring).
    apply exp_antitone. lra. }
  split; [apply round_nonneg; apply Rle_trans with 0.0; [lra | apply Rmax_l]|].
  split; [apply round_nonneg, Rlt_le, exp_pos|].
  split; [apply round_nonneg, Rlt_le, exp_pos|].
  split; [|split].
  - intros Hm. split; apply round_monotone; [lra|].
    apply Hexp. lra.
  - intros Hd.
    replace 1 with (IZR 10000 / 10 ^ 4) by (simpl; lra).
    rewrite <- (round_decimal 10000 4). apply round_monotone.
    replace (IZR 10000 / 10 ^ 4) with (exp (- 0 / 20.0)).
    + apply Hexp, Hd.
    + replace (- 0 / 20.0) with 0 by lra. rewrite exp_0. simpl. lra.
  - intros Hm.
    pose proof (Hexp (distance + margin) distance ltac:(lra)) as He.
    rewrite Rmax_left by lra.
    replace 0.0 with 0 by lra.
    unfold Py.round. rewrite Rmult_0_l, round_half_even_integer.
    unfold Rdiv. apply Rmult_0_l.
Qed.

(** ** collision_detection.py: the probability heuristic *)

Lemma collision_probability_tail_bounds p : 0 <= Rmin (Rmax p 0.0) 0.99 <= 0.99.
Proof.
  split.
  - apply Rmin_glb; [|lra]. apply Rle_trans with 0.0; [lra | apply Rmax_r].
  - apply Rmin_r.
Qed.

(** X20.  The collision probability always lies between 0 and 0.99; it is
    0.99 whenever the distance is within the combined radius of the two
    objects (half the sum of their sizes, in km), and beyond that radius it is
    0 for a relative speed that is not positive and never above the
    exponential decay exp(-0.5 (distance - radius)). *)
Theorem compute_collision_probability_range :
  forall (distance_km relative_velocity_kmps : R)
         (satellite_size_m debris_size_m : option R),
  let radius :=
    (Py.get satellite_size_m 5.0 + Py.get debris_size_m 1.0) / 2000.0 in
  let probability :=
    CollisionDetection.compute_collision_probability distance_km
      relative_velocity_kmps satellite_size_m debris_size_m in
  0 <= probability <= 0.99 /\
  (distance_km <= radius -> probability = 0.99) /\
  (radius < distance_km -> relative_velocity_kmps <= 0 -> probability = 0) /\
  (radius < distance_km -> probability <= exp (- (0.5) * (distance_km - radius))).
Proof.
  intros d rv ss ds radius probability.
  unfold probability, CollisionDetection.compute_collision_probability.
  cbv zeta. fold radius. clearbody radius.
  pose proof (exp_pos (- (0.5) * (d - radius))) as He.
  set (decay := exp (- (0.5) * (d - radius))) in *.
  set (velocity_factor := Rmin (rv / 15.0) 1.0).
  assert (velocity_factor <= 1) as Hone
    by (pose proof (Rmin_r (rv / 15.0) 1.0); unfold velocity_factor; lra).
  split; [|split; [|split]].
  - cmp_cases; [lra | apply collision_probability_tail_bounds].
  - intros H. apply leb_true in H. rewrite H. reflexivity.
  - intros Hd Hrv. apply leb_false in Hd. rewrite Hd.
    assert (velocity_factor <= 0) as Hv
      by (apply Rle_trans with (rv / 15.0); [apply Rmin_l | lra]).
    rewrite Rmax_right by nra.
    rewrite Rmin_left; lra.
  - intros Hd. apply leb_false in Hd. rewrite Hd.
    apply Rle_trans with (Rmax (decay * velocity_factor) 0.0); [apply Rmin_l|].
    apply Rmax_lub; [nra | lra].
Qed.

(** X21.  The collision probability never grows with the distance and
    never falls with the relative speed. *)
Theorem compute_collision_probability_monotone :
  forall (d1 d2 rv1 rv2 : R) (satellite_size_m debris_size_m : option R),
  d1 <= d2 -> rv1 <= rv2 ->
  CollisionDetection.compute_collision_probability d2 rv1
    satellite_size_m debris_size_m
  <= CollisionDetection.compute_collision_probability d1 rv2
       satellite_size_m debris_size_m.
Proof.
  intros d1 d2 rv1 rv2 ss ds Hd Hrv.
  unfold CollisionDetection.compute_collision_probability. cbv zeta.
  set (radius := (Py.get ss 5.0 + Py.get ds 1.0) / 2000.0).
  destruct (Py.leb d1 radius) eqn:E1;
    [apply leb_true in E1 | apply leb_false in E1].
  - destruct (Py.leb d2 radius); [lra | apply collision_probability_tail_bounds].
  - assert (Py.leb d2 radius = false) as -> by (apply leb_false; lra).
    apply Rle_min_compat_r.
    assert (exp (- (0.5) * (d2 - radius)) <= exp (- (0.5) * (d1 - radius))) as He.
    { replace (- (0.5) * (d2 - radius)) with (- (0.5 * (d2 - radius))) by ring.
      replace (- (0.5) * (d1 - radius)) with (- (0.5 * (d1 - radius))) by ring.
      apply exp_antitone. lra. }
    pose proof (exp_pos (- (0.5) * (d2 - radius))) as Hpos.
    assert (Rmin (rv1 / 15.0) 1.0 <= Rmin (rv2 / 15.0) 1.0) as Hv
      by (apply Rle_min_compat_r; lra).
    destruct (Rle_dec 0 (Rmin (rv1 / 15.0) 1.0)) as [Hnn|Hneg].
    + apply Rle_max_compat_r.
      apply Rmult_le_compat; lra.
    + apply Rmax_lub; [|apply Rmax_r].
      apply Rle_trans with 0.0; [|apply Rmax_r].
      assert (exp (- (0.5) * (d2 - radius)) * Rmin (rv1 / 15.0) 1.0 <= 0); [|lra].
      rewrite <- (Rmult_0_r (exp (- (0.5) * (d2 - radius)))).
      apply Rmult_le_compat_l; lra.
Qed.

Lemma compute_collision_probability_monotone_witness :
  1 <= 20 /\ 3 <= 14 /\
  CollisionDetection.compute_collision_probability 20 3 None None
  <= CollisionDetection.compute_collision_probability 1 14 None None.
Proof.
  split; [lra|]. split; [lra|].
  apply (compute_collision_probability_monotone 1 20 3 14 None None); lra.
Defined.

(** ** vector_math.py and collision_detection.py: the closest approach *)

Lemma separation_symmetric pos1 vel1 pos2 vel2 t :
  Spec.separation pos1 vel1 pos2 vel2 t = Spec.separation pos2 vel2 pos1 vel1 t.
Proof. unfold Spec.separation. cbv zeta. f_equal. ring. Qed.







(** ** collision_detection.py: what the cell prefilter can lose *)

Lemma floor_of_near a b :
  Rabs (a - b) < 50 ->
  (Z.abs (Zfloor (a / CollisionDetection.cell_size)
          - Zfloor (b / CollisionDetection.cell_size)) <= 1)%Z.
Proof.
  unfold CollisionDetection.cell_size. intros Hab.
  apply Rabs_def2 in Hab.
  pose proof (Zfloor_bound (a / 50.0)) as Ha.
  pose proof (Zfloor_bound (b / 50.0)) as Hb.
  set (fa := Zfloor (a / 50.0)) in *. set (fb := Zfloor (b / 50.0)) in *.
  destruct (Z_le_gt_dec (Z.abs (fa - fb)) 1) as [Hle|Hgt]; [exact Hle|].
  exfalso.
  destruct (Z_le_gt_dec (fa - fb) 0) as [Hneg|Hpos].
  - assert (fa + 2 <= fb)%Z as Hz by lia.
    apply IZR_le in Hz. rewrite plus_IZR in Hz. lra.
  - assert (fb + 2 <= fa)%Z as Hz by lia.
    apply IZR_le in Hz. rewrite plus_IZR in Hz. lra.
Qed.

Lemma coordinate_le_distance a b c : Rabs a <= sqrt (a ^ 2 + b ^ 2 + c ^ 2).
Proof.
  rewrite <- sqrt_Rsqr_abs. apply sqrt_le_1_alt. unfold Rsqr. nra.
Qed.

Lemma cells_of_near satellite debris :
  VectorMath.compute_distance (CollisionDetection.position_of satellite)
    (CollisionDetection.position_of debris) < 50 ->
  let '(a0, a1, a2) :=
    CollisionDetection.cell (CollisionDetection.position_of satellite) in
  let '(b0, b1, b2) :=
    CollisionDetection.cell (CollisionDetection.position_of debris) in
  (Z.abs (a0 - b0) <= 1 /\ Z.abs (a1 - b1) <= 1 /\ Z.abs (a2 - b2) <= 1)%Z.
Proof.
  unfold VectorMath.compute_distance, CollisionDetection.cell,
    CollisionDetection.position_of. cbn [VectorMath.x VectorMath.y VectorMath.z Py.get].
  cbv zeta. intros Hd.
  set (x1 := Py.get (CollisionDetection.x satellite) 0) in *.
  set (y1 := Py.get (CollisionDetection.y satellite) 0) in *.
  set (z1 := Py.get (CollisionDetection.z satellite) 0) in *.
  set (x2 := Py.get (CollisionDetection.x debris) 0) in *.
  set (y2 := Py.get (CollisionDetection.y debris) 0) in *.
  set (z2 := Py.get (CollisionDetection.z debris) 0) in *.
  pose proof (coordinate_le_distance (x2 - x1) (y2 - y1) (z2 - z1)) as Hx.
  pose proof (coordinate_le_distance (y2 - y1) (x2 - x1) (z2 - z1)) as Hy.
  pose proof (coordinate_le_distance (z2 - z1) (y2 - y1) (x2 - x1)) as Hz.
  replace ((y2 - y1) ^ 2 + (x2 - x1) ^ 2 + (z2 - z1) ^ 2)
    with ((x2 - x1) ^ 2 + (y2 - y1) ^ 2 + (z2 - z1) ^ 2) in Hy by ring.
  replace ((z2 - z1) ^ 2 + (y2 - y1) ^ 2 + (x2 - x1) ^ 2)
    with ((x2 - x1) ^ 2 + (y2 - y1) ^ 2 + (z2 - z1) ^ 2) in Hz by ring.
  rewrite Rabs_minus_sym in Hx, Hy, Hz.
  repeat split; apply floor_of_near; lra.
Qed.

(** X24.  With a threshold of at most 50 km (the cell size), a debris
    object closer than the threshold lies in a cell whose index differs from
    the satellite's by at most one on every axis; it is reported whenever the
    two cells agree on at least two axes, so that only objects in diagonally
    adjacent cells can be lost. *)
Theorem batch_collision_check_loses_only_diagonals :
  forall (satellite debris : CollisionDetection.SpaceObject)
         (debris_list : list CollisionDetection.SpaceObject)
         (threshold_km : option R),
  let distance :=
    VectorMath.compute_distance (CollisionDetection.position_of satellite)
      (CollisionDetection.position_of debris) in
  let threshold :=
    Py.get threshold_km (Settings.COLLISION_THRESHOLD_KM Settings.settings) in
  In debris debris_list ->
  threshold <= 50 ->
  distance < threshold ->
  let '(a0, a1, a2) :=
    CollisionDetection.cell (CollisionDetection.position_of satellite) in
  let '(b0, b1, b2) :=
    CollisionDetection.cell (CollisionDetection.position_of debris) in
  (Z.abs (a0 - b0) <= 1 /\ Z.abs (a1 - b1) <= 1 /\ Z.abs (a2 - b2) <= 1)%Z /\
  ((a0 = b0 /\ a1 = b1) \/ (a0 = b0 /\ a2 = b2) \/ (a1 = b1 /\ a2 = b2) ->
   In (CollisionDetection.mkCollision
         (CollisionDetection.id satellite) (CollisionDetection.id debris) distance
         (Py.ltb distance (Settings.HIGH_RISK_THRESHOLD_KM Settings.settings)))
      (CollisionDetection.batch_collision_check satellite debris_list threshold_km)).
Proof.
  intros satellite debris debris_list thr distance threshold Hin Hthr Hd.
  assert (distance < 50) as Hnear by lra.
  pose proof (cells_of_near satellite debris Hnear) as Hcells.
  pose proof (candidate_debris_spec satellite debris_list debris) as Hcand.
  pose proof (batch_collision_check_spec satellite debris_list thr
                (CollisionDetection.mkCollision
                   (CollisionDetection.id satellite) (CollisionDetection.id debris)
                   distance
                   (Py.ltb distance
                      (Settings.HIGH_RISK_THRESHOLD_KM Settings.settings))))
    as Hspec.
  destruct (CollisionDetection.cell (CollisionDetection.position_of satellite))
    as [[a0 a1] a2].
  destruct (CollisionDetection.cell (CollisionDetection.position_of debris))
    as [[b0 b1] b2].
  split; [exact Hcells|].
  intros Hagree. apply Hspec. exists debris. split.
  - apply Hcand. split; [exact Hin|].
    unfold CollisionDetection.manhattan. lia.
  - split; [exact Hd | reflexivity].
Qed.

Lemma batch_collision_check_loses_only_diagonals_witness :
  In Examples.corner_satellite [Examples.corner_satellite] /\
  In (CollisionDetection.mkCollision (Some "SAT-1"%string) (Some "SAT-1"%string)
        (VectorMath.compute_distance
           (CollisionDetection.position_of Examples.corner_satellite)
           (CollisionDetection.position_of Examples.corner_satellite))
        (Py.ltb
           (VectorMath.compute_distance
              (CollisionDetection.position_of Examples.corner_satellite)
              (CollisionDetection.position_of Examples.corner_satellite))
           (Settings.HIGH_RISK_THRESHOLD_KM Settings.settings)))
     (CollisionDetection.batch_collision_check Examples.corner_satellite
        [Examples.corner_satellite] None).
Proof.
  split; [left; reflexivity|].
  assert (VectorMath.compute_distance
            (CollisionDetection.position_of Examples.corner_satellite)
            (CollisionDetection.position_of Examples.corner_satellite) = 0) as Hzero.
  { unfold VectorMath.compute_distance; simpl.
    replace ((49 - 49) * ((49 - 49) * 1) + (49 - 49) * ((49 - 49) * 1)
             + (0 - 0) * ((0 - 0) * 1)) with 0 by lra.
    apply sqrt_0. }
  pose proof (batch_collision_check_loses_only_diagonals
                Examples.corner_satellite Examples.corner_satellite
                [Examples.corner_satellite] None) as H.
  cbv zeta in H.
  destruct (CollisionDetection.cell
              (CollisionDetection.position_of Examples.corner_satellite))
    as [[a0 a1] a2].
  apply H.
  - left; reflexivity.
  - unfold Settings.settings; simpl. lra.
  - rewrite Hzero. unfold Settings.settings; simpl. lra.
  - left. split; reflexivity.
Defined.

(** ** vector_math.py: normalizing a vector *)

Lemma vector_magnitude_nonneg vec : 0 <= VectorMath.vector_magnitude vec.
Proof. apply sqrt_pos. Qed.

(** X25.  Normalizing always returns a vector.  Below a magnitude of 1e-10
    it is the z axis (0, 0, 1).  Otherwise a vector given by the keys x, y, z
    comes back with magnitude 1, but a vector given only by the keys vx, vy,
    vz, whose magnitude is read from them, comes back as the zero vector. *)
Theorem normalize_vector_cases :
  forall vec : Py.dict,
  exists unit_vector : VectorMath.Position,
    VectorMath.normalize_vector vec = Some unit_vector /\
    (VectorMath.vector_magnitude vec < 1e-10 ->
     unit_vector = VectorMath.mkPosition (Some 0) (Some 0) (Some 1)) /\
    (VectorMath.vector_magnitude vec >= 1e-10 ->
     vec "x"%string <> None -> vec "y"%string <> None -> vec "z"%string <> None ->
     VectorMath.vector_magnitude (VectorMath.position_dict unit_vector) = 1) /\
    (VectorMath.vector_magnitude vec >= 1e-10 ->
     vec "x"%string = None -> vec "y"%string = None -> vec "z"%string = None ->
     unit_vector = VectorMath.mkPosition (Some 0) (Some 0) (Some 0)).
Proof.
  intros vec. unfold VectorMath.normalize_vector. cbv zeta.
  destruct (Py.ltb (VectorMath.vector_magnitude vec) 1e-10) eqn:E;
    [apply ltb_true in E | apply ltb_false in E].
  - eexists. split; [reflexivity|].
    split; [reflexivity|]. split; intros; lra.
  - assert (VectorMath.vector_magnitude vec <> 0) as Hnz by lra.
    rewrite !div_some by exact Hnz. cbn [Py.bind].
    eexists. split; [reflexivity|].
    split; [intros; lra|]. split.
    + intros _ Hx Hy Hz.
      unfold VectorMath.vector_magnitude at 1. cbv zeta.
      change (VectorMath.position_dict ?p "x"%string) with (VectorMath.x p).
      change (VectorMath.position_dict ?p "y"%string) with (VectorMath.y p).
      change (VectorMath.position_dict ?p "z"%string) with (VectorMath.z p).
      cbn [VectorMath.x VectorMath.y VectorMath.z Py.get].
      unfold VectorMath.vector_magnitude in *. cbv zeta in *.
      destruct (vec "x"%string) as [x|]; [|contradiction].
      destruct (vec "y"%string) as [y|]; [|contradiction].
      destruct (vec "z"%string) as [z|]; [|contradiction].
      cbn [Py.get] in *.
      set (m := sqrt (x ^ 2 + y ^ 2 + z ^ 2)) in *.
      assert (m * m = x ^ 2 + y ^ 2 + z ^ 2) as Hm
        by (apply sqrt_sqrt; nra).
      replace ((x / m) ^ 2 + (y / m) ^ 2 + (z / m) ^ 2) with 1;
        [apply sqrt_1|].
      field_simplify_eq; [|exact Hnz]. lra.
    + intros _ Hx Hy Hz. rewrite Hx, Hy, Hz. cbn [Py.get].
      unfold Rdiv. rewrite !Rmult_0_l. reflexivity.
Qed.

(** ** The two geometry modules side by side *)

Section TwoGeometries.
Import Np.

Variables sat deb : PhysicsUtils.State.

Let r1 := array (PhysicsUtils.x sat) (PhysicsUtils.y sat) (PhysicsUtils.z sat).
Let v1 := array (PhysicsUtils.vx sat) (PhysicsUtils.vy sat) (PhysicsUtils.vz sat).
Let r2 := array (PhysicsUtils.x deb) (PhysicsUtils.y deb) (PhysicsUtils.z deb).
Let v2 := array (PhysicsUtils.vx deb) (PhysicsUtils.vy deb) (PhysicsUtils.vz deb).
Let pos1 :=
  VectorMath.mkPosition (Some (PhysicsUtils.x sat)) (Some (PhysicsUtils.y sat))
    (Some (PhysicsUtils.z sat)).
Let vel1 :=
  VectorMath.mkVelocity (Some (PhysicsUtils.vx sat)) (Some (PhysicsUtils.vy sat))
    (Some (PhysicsUtils.vz sat)).
Let pos2 :=
  VectorMath.mkPosition (Some (PhysicsUtils.x deb)) (Some (PhysicsUtils.y deb))
    (Some (PhysicsUtils.z deb)).
Let vel2 :=
  VectorMath.mkVelocity (Some (PhysicsUtils.vx deb)) (Some (PhysicsUtils.vy deb))
    (Some (PhysicsUtils.vz deb)).







End TwoGeometries.


(** ** rl_maneuver_agent.py: the size of the heuristic burn *)

Section HeuristicBurn.
Import Np.

Lemma burn_norm_bounds p a k :
  dot p p = 1 -> 0 <= dot a a <= 1 -> 0 < k ->
  0.8 * k <= linalg_norm (add (mul (mul p k) 0.9) (mul (mul a k) 0.1)) <= k.
Proof.
  intros Hp Ha Hk.
  pose proof (cauchy_schwarz p a) as Hcs. rewrite Hp in Hcs.
  pose proof (dot_burn p a k) as Hburn. rewrite Hp in Hburn.
  set (burn := add (mul (mul p k) 0.9) (mul (mul a k) 0.1)) in *.
  set (q := dot p a) in *. set (A := dot a a) in *.
  assert (-1 <= q <= 1) as Hq by nra.
  assert (0.64 <= 0.81 * 1 + 0.18 * q + 0.01 * A <= 1) as Hmid by nra.
  assert (0 < k * k) as Hkk by (apply Rmult_lt_0_compat; exact Hk).
  split.
  - apply Rsqr_incr_0_var; [|apply linalg_norm_nonneg].
    unfold Rsqr. rewrite linalg_norm_sqr, Hburn.
    replace (0.8 * k * (0.8 * k)) with (k * k * 0.64) by lra.
    apply Rmult_le_compat_l; lra.
  - apply Rsqr_incr_0_var; [|lra].
    unfold Rsqr. rewrite linalg_norm_sqr, Hburn.
    rewrite <- (Rmult_1_r (k * k)) at 2.
    apply Rmult_le_compat_l; lra.
Qed.

Lemma suggest_maneuver_simple_value sat deb :
  exists feats p a,
    PhysicsUtils.compute_physics_features sat deb = Some feats /\
    dot p p = 1 /\ 0 <= dot a a <= 1 /\
    let severity :=
      if Py.leb (PhysicsUtils.distance_at_tca feats) 1.0 then 1.0
      else Rmax 0.0 (Rmin 1.0 ((50.0 - PhysicsUtils.distance_at_tca feats) / 50.0)) in
    let dv_mag := 0.0005 + severity * 0.0495 in
    let dv_vector := add (mul (mul p dv_mag) 0.9) (mul (mul a dv_mag) 0.1) in
    RlManeuverAgent.suggest_maneuver_simple sat deb
    = Some (RlManeuverAgent.mkSimpleManeuver
              (c0 dv_vector) (c1 dv_vector) (c2 dv_vector)
              (linalg_norm dv_vector)
              (if Py.geb (PhysicsUtils.tca_seconds feats) 0
               then linalg_norm dv_vector * Rmax (PhysicsUtils.tca_seconds feats) 1.0
               else linalg_norm dv_vector * 3600.0)
              (Rmax 0.4 (Rmin 0.98 (0.6 + severity * 0.35)))
              feats).
Proof.
  unfold RlManeuverAgent.suggest_maneuver_simple.
  destruct (compute_physics_features_total sat deb) as (feats & Hf).
  exists feats. rewrite Hf. cbn [Py.bind]. cbv zeta.
  match goal with
  | |- context [PhysicsUtils.unit (if ?c then ?a else ?b)] =>
      pose proof (perpendicular_choice_nonzero
                    (sub (array (PhysicsUtils.x deb) (PhysicsUtils.y deb)
                                (PhysicsUtils.z deb))
                         (array (PhysicsUtils.x sat) (PhysicsUtils.y sat)
                                (PhysicsUtils.z sat)))
                    (sub (array (PhysicsUtils.vx deb) (PhysicsUtils.vy deb)
                                (PhysicsUtils.vz deb))
                         (array (PhysicsUtils.vx sat) (PhysicsUtils.vy sat)
                                (PhysicsUtils.vz sat)))) as Hperp;
      cbv zeta in Hperp;
      destruct (unit_of_nonzero (if c then a else b) Hperp) as (p & -> & Hp)
  end.
  cbn [Py.bind]. exists p.
  match goal with
  | |- context [Py.bind ?along _] =>
      assert (exists a, along = Some a /\ 0 <= dot a a <= 1) as (a & -> & Ha)
  end.
  { destruct (Py.gtb _ 1e-6).
    - match goal with
      | |- context [PhysicsUtils.unit ?v] =>
          destruct (unit_total v) as (u & -> & Hu)
      end.
      exists (neg u). split; [reflexivity|]. rewrite dot_neg. exact Hu.
    - exists zeros. split; [reflexivity|].
      unfold dot, zeros; simpl. lra. }
  cbn [Py.bind]. exists a.
  split; [reflexivity|]. split; [exact Hp|]. split; [exact Ha|].
  reflexivity.
Qed.

End HeuristicBurn.

(** C7 (as amended).  Over the real numbers, that is, wherever the
    arithmetic of the function meets no overflow, for every pair of states
    the heuristic returns a maneuver: no division by zero is met, also when
    the relative velocity is zero, when the cross product of the relative
    velocity and the relative position vanishes, and when the positions
    coincide.  Its total delta-v is the length of the returned delta-v
    vector; that length is strictly positive and at most 0.05 km/s, and no
    component of the vector exceeds it in size. *)
Theorem suggest_maneuver_simple_nonzero :
  forall sat deb : PhysicsUtils.State,
  exists m : RlManeuverAgent.SimpleManeuver,
    RlManeuverAgent.suggest_maneuver_simple sat deb = Some m /\
    RlManeuverAgent.total_delta_v m
    = sqrt (RlManeuverAgent.delta_vx m ^ 2 + RlManeuverAgent.delta_vy m ^ 2
            + RlManeuverAgent.delta_vz m ^ 2) /\
    0 < RlManeuverAgent.total_delta_v m <= 0.05 /\
    Rabs (RlManeuverAgent.delta_vx m) <= RlManeuverAgent.total_delta_v m /\
    Rabs (RlManeuverAgent.delta_vy m) <= RlManeuverAgent.total_delta_v m /\
    Rabs (RlManeuverAgent.delta_vz m) <= RlManeuverAgent.total_delta_v m.
Proof.
  intros sat deb.
  destruct (suggest_maneuver_simple_value sat deb)
    as (feats & p & a & Hf & Hp & Ha & Hrun).
  cbv zeta in Hrun.
  eexists. split; [exact Hrun|].
  cbn [RlManeuverAgent.total_delta_v RlManeuverAgent.delta_vx
       RlManeuverAgent.delta_vy RlManeuverAgent.delta_vz].
  set (severity :=
         if Py.leb (PhysicsUtils.distance_at_tca feats) 1.0 then 1.0
         else Rmax 0.0 (Rmin 1.0 ((50.0 - PhysicsUtils.distance_at_tca feats) / 50.0))).
  assert (0 <= severity <= 1) as Hsev.
  { unfold severity. cmp_cases; [lra | apply clamp_unit_interval]. }
  assert (0 < 0.0005 + severity * 0.0495) as Hmag by lra.
  pose proof (burn_norm_bounds p a (0.0005 + severity * 0.0495) Hp Ha Hmag)
    as Hnorm.
  set (burn := Np.add _ _) in *.
  assert (Np.dot burn burn
          = Np.c0 burn ^ 2 + Np.c1 burn ^ 2 + Np.c2 burn ^ 2) as Hdot
    by (unfold Np.dot; ring).
  assert (forall c : R, c ^ 2 <= Np.dot burn burn ->
                        Rabs c <= Np.linalg_norm burn) as Hcomponent.
  { intros c Hc. unfold Np.linalg_norm.
    rewrite <- (sqrt_Rsqr_abs c). apply sqrt_le_1_alt.
    unfold Rsqr. replace (c * c) with (c ^ 2) by ring. exact Hc. }
  pose proof (pow2_ge_0 (Np.c0 burn)) as H0.
  pose proof (pow2_ge_0 (Np.c1 burn)) as H1.
  pose proof (pow2_ge_0 (Np.c2 burn)) as H2.
  split; [unfold Np.linalg_norm; rewrite Hdot; reflexivity|].
  split; [lra|].
  split; [|split]; apply Hcomponent; rewrite Hdot; lra.
Qed.

(** *** The heuristic burn in binary64 *)

Section Binary64Burn.
Import PrimFloat.

(** C7 (as stated) fails in binary64.  For a satellite at rest at the
    origin and a debris object at rest 1e200 km away along x the relative
    velocity is zero and the direction is taken from
    cross(r_rel0, (0, 0, 1)) = (0, -1e200, 0).  Its squared length overflows,
    the norm is infinite, and [unit] divides by it: the direction is the zero
    vector, the delta-v vector is zero and [total_delta_v] is 0.0.  For
    objects at rest at 1e308 and -1e308 km along x the relative position
    overflows and [total_delta_v] is NaN. *)
Lemma suggest_maneuver_simple_nonzero_counterexample :
  let m :=
    Binary64.suggest_maneuver_simple
      Examples.binary64_origin Examples.binary64_far_away in
  let perp :=
    Binary64.Np.cross
      (Binary64.Np.array (Binary64.PhysicsUtils.x Examples.binary64_far_away) 0 0)
      (Binary64.Np.array 0 0 1) in
  Binary64.Np.linalg_norm perp = infinity /\
  Binary64.PhysicsUtils.unit perp = Binary64.Np.array 0 (-0) 0 /\
  Binary64.delta_vx m = 0%float /\
  Binary64.delta_vy m = 0%float /\
  Binary64.delta_vz m = 0%float /\
  Binary64.total_delta_v m = 0%float /\
  (0 <? Binary64.total_delta_v m)%float = false /\
  is_nan
    (Binary64.total_delta_v
       (Binary64.suggest_maneuver_simple
          Examples.binary64_east Examples.binary64_west)) = true.
Proof. cbv zeta. repeat split; vm_compute; reflexivity. Qed.

(** At ordinary sizes the degenerate cases give a positive burn in
    binary64 as well: coincident positions, zero relative velocity beside
    and above, a head-on approach (the cross product of relative velocity
    and relative position vanishes), and a vertical approach (the cross
    product with the z axis vanishes too). *)
#[warnings="-inexact-float"]
Lemma suggest_maneuver_simple_binary64_degenerate :
  forall deb : Binary64.PhysicsUtils.State,
  In deb [Examples.binary64_origin; Examples.binary64_beside;
          Examples.binary64_above; Examples.binary64_head_on;
          Examples.binary64_descending] ->
  let m := Binary64.suggest_maneuver_simple Examples.binary64_origin deb in
  (0.04 <? Binary64.total_delta_v m)%float = true /\
  (Binary64.total_delta_v m <? 0.05)%float = true.
Proof.
  intros deb Hin. cbv zeta.
  repeat (destruct Hin as [<-|Hin]; [split; vm_compute; reflexivity|]).
  destruct Hin.
Qed.

End Binary64Burn.

(** X27.  For every pair of states the heuristic burn is between 0.0004
    and 0.05 km/s, its confidence between 0.6 and 0.95, and the expected gain
    in miss distance at least the burn times one second.  A pair whose
    closest approach is within 1 km gets the full confidence 0.95 and a burn
    of at least 0.04 km/s; one whose closest approach is 50 km or more gets
    the confidence 0.6 and a burn of at most 0.0005 km/s. *)
Theorem suggest_maneuver_simple_envelope :
  forall sat deb : PhysicsUtils.State,
  exists m : RlManeuverAgent.SimpleManeuver,
    RlManeuverAgent.suggest_maneuver_simple sat deb = Some m /\
    PhysicsUtils.compute_physics_features sat deb
    = Some (RlManeuverAgent.features m) /\
    0.0004 <= RlManeuverAgent.total_delta_v m <= 0.05 /\
    0.6 <= RlManeuverAgent.confidence m <= 0.95 /\
    RlManeuverAgent.total_delta_v m
    <= RlManeuverAgent.expected_increase_in_miss_km m /\
    (PhysicsUtils.distance_at_tca (RlManeuverAgent.features m) <= 1 ->
     RlManeuverAgent.confidence m = 0.95 /\
     0.04 <= RlManeuverAgent.total_delta_v m) /\
    (50 <= PhysicsUtils.distance_at_tca (RlManeuverAgent.features m) ->
     RlManeuverAgent.confidence m = 0.6 /\
     RlManeuverAgent.total_delta_v m <= 0.0005).
Proof.
  intros sat deb.
  destruct (suggest_maneuver_simple_value sat deb)
    as (feats & p & a & Hf & Hp & Ha & Hrun).
  cbv zeta in Hrun.
  eexists. split; [exact Hrun|].
  cbn [RlManeuverAgent.features RlManeuverAgent.total_delta_v
       RlManeuverAgent.confidence RlManeuverAgent.expected_increase_in_miss_km].
  split; [exact Hf|].
  set (severity :=
         if Py.leb (PhysicsUtils.distance_at_tca feats) 1.0 then 1.0
         else Rmax 0.0 (Rmin 1.0 ((50.0 - PhysicsUtils.distance_at_tca feats) / 50.0))).
  assert (0 <= severity <= 1) as Hsev.
  { unfold severity. cmp_cases; [lra | apply clamp_unit_interval]. }
  assert (0 < 0.0005 + severity * 0.0495) as Hmag by lra.
  pose proof (burn_norm_bounds p a (0.0005 + severity * 0.0495) Hp Ha Hmag)
    as Hnorm.
  set (total := Np.linalg_norm _) in *.
  assert (Rmax 0.4 (Rmin 0.98 (0.6 + severity * 0.35)) = 0.6 + severity * 0.35)
    as Hconf.
  { rewrite Rmin_right by lra. rewrite Rmax_right by lra. reflexivity. }
  rewrite Hconf.
  split; [lra|]. split; [lra|]. split; [|split].
  - destruct (Py.geb (PhysicsUtils.tca_seconds feats) 0).
    + pose proof (Rmax_r (PhysicsUtils.tca_seconds feats) 1.0) as Hone.
      rewrite <- (Rmult_1_r total) at 1.
      apply Rmult_le_compat_l; lra.
    + lra.
  - intros Hclose.
    assert (severity = 1) as Hone.
    { unfold severity.
      assert (Py.leb (PhysicsUtils.distance_at_tca feats) 1.0 = true) as ->
        by (apply leb_true; lra).
      lra. }
    rewrite Hone in *. lra.
  - intros Hfar.
    assert (severity = 0) as Hzero.
    { unfold severity.
      assert (Py.leb (PhysicsUtils.distance_at_tca feats) 1.0 = false) as ->
        by (apply leb_false; lra).
      rewrite Rmin_right by lra. rewrite Rmax_left by lra. lra. }
    rewrite Hzero in *. lra.
Qed.

(** ** Sorting by a float key *)

Section SortBy.

Context {A : Type} (key : A -> R).

Lemma insert_by_permutation a l : Permutation (Py.insert_by key a l) (a :: l).
Proof.
  induction l as [|b l IH]; cbn [Py.insert_by].
  - apply Permutation_refl.
  - destruct (Py.ltb (key b) (key a)).
    + apply perm_trans with (b :: a :: l); [apply perm_skip, IH | apply perm_swap].
    + apply Permutation_refl.
Qed.

Lemma sort_by_permutation l : Permutation (Py.sort_by key l) l.
Proof.
  induction l as [|a l IH]; [apply Permutation_refl|].
  change (Py.sort_by key (a :: l)) with (Py.insert_by key a (Py.sort_by key l)).
  apply perm_trans with (a :: Py.sort_by key l); [apply insert_by_permutation|].
  apply perm_skip, IH.
Qed.

Lemma insert_by_sorted a l :
  StronglySorted (fun b c => key b <= key c) l ->
  StronglySorted (fun b c => key b <= key c) (Py.insert_by key a l).
Proof.
  induction 1 as [|b l Hs IH Hb]; cbn [Py.insert_by].
  - constructor; constructor.
  - destruct (Py.ltb (key b) (key a)) eqn:E;
      [apply ltb_true in E | apply ltb_false in E].
    + constructor; [exact IH|].
      apply (Permutation_Forall (Permutation_sym (insert_by_permutation a l))).
      constructor; [lra | exact Hb].
    + constructor; [constructor; assumption|].
      constructor; [exact E|].
      apply (Forall_impl _ (P := fun c => key b <= key c)); [|exact Hb].
      intros c Hc. lra.
Qed.

Lemma sort_by_sorted l :
  StronglySorted (fun b c => key b <= key c) (Py.sort_by key l).
Proof.
  induction l as [|a l IH]; [constructor|].
  change (Py.sort_by key (a :: l)) with (Py.insert_by key a (Py.sort_by key l)).
  apply insert_by_sorted, IH.
Qed.

Lemma sorted_app_le l1 l2 :
  StronglySorted (fun b c => key b <= key c) (l1 ++ l2) ->
  forall b c, In b l1 -> In c l2 -> key b <= key c.
Proof.
  induction l1 as [|a l1 IH]; intros Hs b c Hb Hc; [destruct Hb|].
  cbn [app] in Hs. apply StronglySorted_inv in Hs. destruct Hs as [Hs Hall].
  destruct Hb as [<-|Hb].
  - rewrite Forall_forall in Hall. apply Hall. apply in_or_app. right. exact Hc.
  - apply (IH Hs b c Hb Hc).
Qed.

Lemma sorted_app_left l1 l2 :
  StronglySorted (fun b c => key b <= key c) (l1 ++ l2) ->
  StronglySorted (fun b c => key b <= key c) l1.
Proof.
  induction l1 as [|a l1 IH]; intros Hs; [constructor|].
  cbn [app] in Hs. apply StronglySorted_inv in Hs. destruct Hs as [Hs Hall].
  constructor; [apply IH, Hs|].
  apply Forall_app in Hall. apply Hall.
Qed.

End SortBy.

(** ** on_click_handler.py *)

Section Click.

Variables (sat : PhysicsUtils.State) (include_maneuver : bool).

(** What the first loop records for one debris object. *)
Let measured (entry : OnClickHandler.Measured) : Prop :=
  PhysicsUtils.compute_physics_features sat (snd (fst entry)) = Some (snd entry) /\
  fst (fst entry) = PhysicsUtils.distance (snd entry).

(** What the second loop makes of one record. *)
Let made_of (entry : OnClickHandler.Measured) (item : OnClickHandler.Item) : Prop :=
  OnClickHandler.debris item = snd (fst entry) /\
  OnClickHandler.distance_now_km item = fst (fst entry) /\
  OnClickHandler.features item = snd entry /\
  Model1.predict_for_sat_debris sat (snd (fst entry))
  = Some (OnClickHandler.model1_risk item) /\
  Model2.classify_for_sat_debris sat (snd (fst entry))
  = Some (OnClickHandler.model2_class item) /\
  (if include_maneuver
   then exists m, OnClickHandler.maneuver item = Some m /\
                  RlManeuverAgent.suggest_maneuver_simple sat (snd (fst entry))
                  = Some m
   else OnClickHandler.maneuver item = None).

Lemma measure_value debris_list :
  exists entries,
    OnClickHandler.measure sat debris_list = Some entries /\
    map (fun entry => snd (fst entry)) entries = debris_list /\
    Forall measured entries.
Proof.
  induction debris_list as [|d rest (entries & Hrun & Hmap & Hall)].
  - exists []. repeat split; constructor.
  - destruct (compute_physics_features_total sat d) as (feats & Hf).
    exists ((PhysicsUtils.distance feats, d, feats) :: entries).
    cbn [OnClickHandler.measure]. rewrite Hf, Hrun. cbn [Py.bind].
    split; [reflexivity|]. split; [cbn [map fst snd]; rewrite Hmap; reflexivity|].
    constructor; [|exact Hall]. split; [exact Hf | reflexivity].
Qed.

Lemma item_of_value entry :
  exists item,
    OnClickHandler.item_of sat include_maneuver entry = Some item /\
    made_of entry item.
Proof.
  destruct entry as [[dist deb] feats].
  unfold OnClickHandler.item_of.
  destruct (compute_physics_features_total sat deb) as (f & Hf).
  rewrite (predict_for_sat_debris_value sat deb f Hf). cbn [Py.bind].
  assert (Model2.classify_for_sat_debris sat deb
          = Some (Model2.mkPairClassification
                    (Model2.classify_distance (PhysicsUtils.distance f)) f)) as Hc
    by (unfold Model2.classify_for_sat_debris; rewrite Hf; reflexivity).
  rewrite Hc. cbn [Py.bind].
  destruct include_maneuver eqn:Einc.
  - destruct (suggest_maneuver_simple_value sat deb)
      as (f' & p & a & _ & _ & _ & Hm).
    cbv zeta in Hm. rewrite Hm. cbn [Py.bind].
    eexists. split; [reflexivity|].
    unfold made_of. try rewrite Einc.
    cbn [OnClickHandler.debris OnClickHandler.distance_now_km
         OnClickHandler.features OnClickHandler.model1_risk
         OnClickHandler.model2_class OnClickHandler.maneuver fst snd].
    repeat split; try reflexivity.
    + apply predict_for_sat_debris_value, Hf.
    + exact Hc.
    + eexists. split; [reflexivity | exact Hm].
  - cbn [Py.bind].
    eexists. split; [reflexivity|].
    unfold made_of. try rewrite Einc.
    cbn [OnClickHandler.debris OnClickHandler.distance_now_km
         OnClickHandler.features OnClickHandler.model1_risk
         OnClickHandler.model2_class OnClickHandler.maneuver fst snd].
    repeat split; try reflexivity.
    + apply predict_for_sat_debris_value, Hf.
    + exact Hc.
Qed.

Lemma items_of_value entries :
  exists items,
    OnClickHandler.items_of sat include_maneuver entries = Some items /\
    Forall2 made_of entries items.
Proof.
  induction entries as [|entry rest (items & Hrun & Hall)].
  - exists []. split; [reflexivity | constructor].
  - destruct (item_of_value entry) as (item & Hitem & Hmade).
    exists (item :: items). cbn [OnClickHandler.items_of].
    rewrite Hitem, Hrun. cbn [Py.bind].
    split; [reflexivity | constructor; assumption].
Qed.

Lemma made_of_debris entries items :
  Forall2 made_of entries items ->
  map OnClickHandler.debris items = map (fun entry => snd (fst entry)) entries /\
  map OnClickHandler.distance_now_km items
  = map (fun entry => fst (fst entry)) entries.
Proof.
  induction 1 as [|entry item entries items Hmade _ [IHd IHk]].
  - split; reflexivity.
  - destruct Hmade as (Hd & Hk & _).
    cbn [map]. rewrite Hd, Hk, IHd, IHk. split; reflexivity.
Qed.

Lemma made_of_entry entries items item :
  Forall2 made_of entries items -> In item items ->
  exists entry, In entry entries /\ made_of entry item.
Proof.
  induction 1 as [|entry item' entries items Hmade _ IH]; intros Hin;
    [destruct Hin|].
  destruct Hin as [<-|Hin].
  - exists entry. split; [left; reflexivity | exact Hmade].
  - destruct (IH Hin) as (e & He & Hm). exists e. split; [right; exact He | exact Hm].
Qed.

Lemma made_of_sorted entries items :
  Forall2 made_of entries items ->
  StronglySorted (fun b c => fst (fst b) <= fst (fst c)) entries ->
  StronglySorted
    (fun b c => OnClickHandler.distance_now_km b <= OnClickHandler.distance_now_km c)
    items.
Proof.
  induction 1 as [|entry item entries items Hmade Hall IH]; intros Hs;
    [constructor|].
  apply StronglySorted_inv in Hs. destruct Hs as [Hs Hle].
  constructor; [apply IH, Hs|].
  rewrite Forall_forall in *. intros other Hin.
  destruct (made_of_entry entries items other Hall Hin) as (e & He & Hm).
  destruct Hmade as (_ & -> & _). destruct Hm as (_ & -> & _).
  apply Hle, He.
Qed.

Lemma handle_satellite_click_value debris_list top_n :
  exists entries items,
    Forall measured entries /\
    Permutation (map (fun entry => snd (fst entry)) entries) debris_list /\
    StronglySorted (fun b c => fst (fst b) <= fst (fst c)) entries /\
    let count :=
      Z.to_nat (Z.min top_n (Z.of_nat (Datatypes.length debris_list))) in
    Forall2 made_of (firstn count entries) items /\
    OnClickHandler.handle_satellite_click sat debris_list top_n include_maneuver
    = Some (OnClickHandler.mkClick sat items).
Proof.
  destruct (measure_value debris_list) as (entries & Hrun & Hmap & Hall).
  pose proof (sort_by_permutation (fun entry : OnClickHandler.Measured =>
                                     fst (fst entry)) entries) as Hperm.
  pose proof (sort_by_sorted (fun entry : OnClickHandler.Measured =>
                                fst (fst entry)) entries) as Hsorted.
  set (sorted := Py.sort_by (fun entry : OnClickHandler.Measured =>
                               fst (fst entry)) entries) in *.
  assert (Datatypes.length sorted = Datatypes.length debris_list) as Hlen.
  { rewrite (Permutation_length Hperm), <- Hmap, length_map. reflexivity. }
  destruct (items_of_value
              (firstn (Z.to_nat (Z.min top_n
                                   (Z.of_nat (Datatypes.length debris_list))))
                 sorted)) as (items & Hitems & Hmade).
  exists sorted, items.
  split; [apply (Permutation_Forall (Permutation_sym Hperm)), Hall|].
  split; [rewrite <- Hmap; apply Permutation_map, Hperm|].
  split; [exact Hsorted|].
  cbv zeta. split; [exact Hmade|].
  unfold OnClickHandler.handle_satellite_click. rewrite Hrun.
  cbn [Py.bind]. cbv zeta.
  change (Py.sort_by _ entries) with sorted.
  match goal with
  | |- context [Z.of_nat ?n] =>
      replace n with (Datatypes.length debris_list) by (symmetry; exact Hlen)
  end.
  match type of Hitems with
  | ?run = _ =>
      change (Py.bind run
                (fun out_items => Some (OnClickHandler.mkClick sat out_items))
              = Some (OnClickHandler.mkClick sat items))
  end.
  rewrite Hitems. reflexivity.
Qed.

End Click.

Lemma compute_physics_features_distance sat deb feats :
  PhysicsUtils.compute_physics_features sat deb = Some feats ->
  PhysicsUtils.distance feats
  = PhysicsUtils.compute_distance
      (Np.array (PhysicsUtils.x sat) (PhysicsUtils.y sat) (PhysicsUtils.z sat))
      (Np.array (PhysicsUtils.x deb) (PhysicsUtils.y deb) (PhysicsUtils.z deb)).
Proof.
  unfold PhysicsUtils.compute_physics_features. cbv zeta.
  destruct (PhysicsUtils.compute_angle_between _ _) as [angle|]; [|discriminate].
  cbn [Py.bind].
  destruct (PhysicsUtils.time_of_closest_approach _ _ _ _) as [[tca dist]|];
    [|discriminate].
  cbn [Py.bind]. intros H. injection H as <-. reflexivity.
Qed.

(** X28.  A click on a satellite always answers, with the satellite
    itself and, of the debris given, the min(top_n, number of debris) nearest
    by current distance (none for a top_n of 0 or less), nearest first: every
    debris object left out is at least as far as every one returned.  Each
    entry carries the pair's distance and features, the probability and the
    class of the two models, and a heuristic burn exactly when one is asked
    for. *)
Theorem handle_satellite_click_nearest :
  forall (sat : PhysicsUtils.State) (debris_list : list PhysicsUtils.State)
         (top_n : Z) (include_maneuver : bool),
  let distance_to deb :=
    PhysicsUtils.compute_distance
      (Np.array (PhysicsUtils.x sat) (PhysicsUtils.y sat) (PhysicsUtils.z sat))
      (Np.array (PhysicsUtils.x deb) (PhysicsUtils.y deb) (PhysicsUtils.z deb)) in
  exists click : OnClickHandler.Click,
    OnClickHandler.handle_satellite_click sat debris_list top_n include_maneuver
    = Some click /\
    OnClickHandler.sat click = sat /\
    Z.of_nat (Datatypes.length (OnClickHandler.nearest click))
    = Z.max 0 (Z.min top_n (Z.of_nat (Datatypes.length debris_list))) /\
    StronglySorted
      (fun a b => OnClickHandler.distance_now_km a <= OnClickHandler.distance_now_km b)
      (OnClickHandler.nearest click) /\
    (exists left_out : list PhysicsUtils.State,
       Permutation (map OnClickHandler.debris (OnClickHandler.nearest click)
                    ++ left_out) debris_list /\
       forall item deb,
         In item (OnClickHandler.nearest click) -> In deb left_out ->
         OnClickHandler.distance_now_km item <= distance_to deb) /\
    (forall item, In item (OnClickHandler.nearest click) ->
       OnClickHandler.distance_now_km item
       = distance_to (OnClickHandler.debris item) /\
       PhysicsUtils.compute_physics_features sat (OnClickHandler.debris item)
       = Some (OnClickHandler.features item) /\
       Model1.predict_for_sat_debris sat (OnClickHandler.debris item)
       = Some (OnClickHandler.model1_risk item) /\
       Model2.classify_for_sat_debris sat (OnClickHandler.debris item)
       = Some (OnClickHandler.model2_class item) /\
       (if include_maneuver
        then exists m,
               OnClickHandler.maneuver item = Some m /\
               RlManeuverAgent.suggest_maneuver_simple sat
                 (OnClickHandler.debris item) = Some m
        else OnClickHandler.maneuver item = None)).
Proof.
  intros sat debris_list top_n include_maneuver distance_to.
  destruct (handle_satellite_click_value sat include_maneuver debris_list top_n)
    as (entries & items & Hmeasured & Hperm & Hsorted & Hmade & Hrun).
  cbv zeta in Hmade.
  set (count := Z.to_nat (Z.min top_n (Z.of_nat (Datatypes.length debris_list))))
    in *.
  assert (Datatypes.length entries = Datatypes.length debris_list) as Hlen.
  { rewrite <- (Permutation_length Hperm), length_map. reflexivity. }
  pose proof (firstn_skipn count entries) as Hsplit.
  assert (StronglySorted
            (fun b c : OnClickHandler.Measured => fst (fst b) <= fst (fst c))
            (firstn count entries ++ skipn count entries)) as Hparts
    by (rewrite Hsplit; exact Hsorted).
  destruct (made_of_debris sat include_maneuver _ _ Hmade) as [Hdebris Hkeys].
  rewrite Forall_forall in Hmeasured.
  exists (OnClickHandler.mkClick sat items).
  cbn [OnClickHandler.sat OnClickHandler.nearest].
  split; [exact Hrun|]. split; [reflexivity|].
  split; [|split; [|split]].
  - rewrite <- (length_map OnClickHandler.debris), Hdebris, length_map,
      length_firstn, Hlen.
    unfold count. lia.
  - apply (made_of_sorted sat include_maneuver _ _ Hmade).
    exact (sorted_app_left
             (fun entry : OnClickHandler.Measured => fst (fst entry))
             _ _ Hparts).
  - exists (map (fun entry => snd (fst entry)) (skipn count entries)).
    split.
    + rewrite Hdebris.
      match goal with
      | |- Permutation ?l _ =>
          replace l
            with (map (fun entry : OnClickHandler.Measured => snd (fst entry))
                    entries);
          [exact Hperm|]
      end.
      rewrite <- Hsplit at 1. rewrite map_app. reflexivity.
    + intros item deb Hitem Hdeb.
      destruct (made_of_entry sat include_maneuver _ _ item Hmade Hitem)
        as (e & He & _ & -> & _).
      apply in_map_iff in Hdeb. destruct Hdeb as (e' & <- & He').
      assert (In e' entries) as Hin'
        by (rewrite <- Hsplit; apply in_or_app; right; exact He').
      destruct (Hmeasured e' Hin') as [Hf Hk].
      unfold distance_to.
      rewrite <- (compute_physics_features_distance sat _ _ Hf), <- Hk.
      exact (sorted_app_le
               (fun entry : OnClickHandler.Measured => fst (fst entry))
               _ _ Hparts e e' He He').
  - intros item Hitem.
    destruct (made_of_entry sat include_maneuver _ _ item Hmade Hitem)
      as (e & He & Hd & Hk & Hfe & Hm1 & Hm2 & Hman).
    assert (In e entries) as Hin
      by (rewrite <- Hsplit; apply in_or_app; left; exact He).
    destruct (Hmeasured e Hin) as [Hf Hdist].
    rewrite Hd, Hk, Hfe.
    split; [|split; [exact Hf|split; [exact Hm1|split; [exact Hm2 | exact Hman]]]].
    unfold distance_to.
    rewrite <- (compute_physics_features_distance sat _ _ Hf). exact Hdist.
Qed.

(** ** collision_service.py: the loops of the scan *)

Lemma scan_debris_value satellite debris_list :
  CollisionService.scan_debris satellite debris_list
  = if existsb
         (fun debris =>
            Py.ltb (VectorMath.compute_distance
                      (CollisionService.scan_position satellite)
                      (CollisionService.scan_position debris)) 50)
         debris_list
    then None else Some [].
Proof.
  induction debris_list as [|debris rest IH];
    cbn [CollisionService.scan_debris existsb]; [reflexivity|].
  unfold CollisionService.scan_pair. cbv zeta.
  destruct (Py.ltb _ 50); cbn [Py.bind orb]; [reflexivity|].
  rewrite IH. destruct (existsb _ rest); reflexivity.
Qed.

Lemma scan_satellites_value satellites debris_list :
  CollisionService.scan_satellites satellites debris_list
  = if existsb
         (fun satellite =>
            existsb
              (fun debris =>
                 Py.ltb (VectorMath.compute_distance
                           (CollisionService.scan_position satellite)
                           (CollisionService.scan_position debris)) 50)
              debris_list)
         satellites
    then None else Some [].
Proof.
  induction satellites as [|satellite rest IH];
    cbn [CollisionService.scan_satellites existsb]; [reflexivity|].
  rewrite scan_debris_value.
  destruct (existsb _ debris_list); cbn [Py.bind orb]; [reflexivity|].
  rewrite IH. destruct (existsb _ rest); reflexivity.
Qed.

(** X29.  The scan never returns an event.  When some satellite and some
    debris object are closer than 50 km, the first model call for such a pair
    is made with keywords that the model does not have, and the scan raises;
    otherwise no pair is processed and the scan returns the empty list. *)
Theorem calculate_collision_risks_never_reports :
  forall satellites debris_list : list CollisionService.Row,
  let near (satellite debris : CollisionService.Row) : Prop :=
    VectorMath.compute_distance (CollisionService.scan_position satellite)
      (CollisionService.scan_position debris) < 50 in
  ((exists satellite debris,
      In satellite satellites /\ In debris debris_list /\ near satellite debris) ->
   CollisionService.calculate_collision_risks_of_rows satellites debris_list
   = None) /\
  ((forall satellite debris,
      In satellite satellites -> In debris debris_list -> ~ near satellite debris) ->
   CollisionService.calculate_collision_risks_of_rows satellites debris_list
   = Some []) /\
  (forall events,
     CollisionService.calculate_collision_risks_of_rows satellites debris_list
     = Some events -> events = []).
Proof.
  intros satellites debris_list near.
  unfold CollisionService.calculate_collision_risks_of_rows.
  rewrite scan_satellites_value.
  destruct (existsb _ satellites) eqn:E.
  - split; [intros _; reflexivity|]. split; [|intros events H; discriminate H].
    intros Hfar. exfalso.
    apply existsb_exists in E. destruct E as (satellite & Hs & E).
    apply existsb_exists in E. destruct E as (debris & Hd & E).
    apply ltb_true in E. exact (Hfar satellite debris Hs Hd E).
  - split; [|split].
    + intros (satellite & debris & Hs & Hd & Hnear). exfalso.
      assert (existsb
                (fun satellite =>
                   existsb
                     (fun debris =>
                        Py.ltb (VectorMath.compute_distance
                                  (CollisionService.scan_position satellite)
                                  (CollisionService.scan_position debris)) 50)
                     debris_list)
                satellites = true) as Htrue.
      { apply existsb_exists. exists satellite. split; [exact Hs|].
        apply existsb_exists. exists debris. split; [exact Hd|].
        apply ltb_true. exact Hnear. }
      rewrite Htrue in E. discriminate E.
    + intros _. reflexivity.
    + intros events H. cbn in H. injection H as <-. reflexivity.
Qed.

(** ** collision_service.py: the order of the returned events *)



